(** * tagore: the feature-to-geometry engine of [draw] (src/tagore/main.py)

    A shallow embedding of the [draw] function: the two reference tables,
    the per-line validation and normalisation, the four shape builders and
    the assembly of the SVG document, then of the program around it
    ([parse_arguments], the opening of the files, [convert_svg_to_format]
    and [run]), followed by the properties of the specification that
    concern them and by further properties of the code.

    Conventions of the model.
    - Python [float] is IEEE 754 binary64: Rocq's primitive [float].
    - Python [int] is unbounded: [Z].
    - Python [str] is [string]; an [ascii] stands for the code point of the
      same number, so the model covers text whose code points are below 256.
    - [print] appends to a list of diagnostics, [svg_fh.write] appends to the
      list of chunks written so far, and an exception or [sys.exit()] stops
      the run with the state reached. *)

From Stdlib Require Import ZArith List String Ascii Bool Lia Floats.
From Stdlib Require Import DecimalString Permutation.
Import ListNotations.

Set Warnings "-inexact-float".

Local Open Scope Z_scope.
Local Open Scope string_scope.

(** ** Python builtins used by [draw] *)

Module Py.

(** The exceptions [draw] can let escape. *)
Inductive exn : Type :=
| ValueError
| KeyError (key : string)
| OverflowError
| ZeroDivisionError.

(** A computation that returns or raises. *)
Inductive res (A : Type) : Type :=
| Ok (a : A)
| Raise (e : exn).
Arguments Ok {A} a.
Arguments Raise {A} e.

Definition bind {A B : Type} (m : res A) (k : A -> res B) : res B :=
  match m with
  | Ok a => k a
  | Raise e => Raise e
  end.

Definition code (c : ascii) : N := N_of_ascii c.

Definition TAB : ascii := "009"%char.
Definition LF : ascii := "010"%char.

(** [str.isspace] on one character (code points below 256). *)
Definition isspace (c : ascii) : bool :=
  let n := code c in
  ((9 <=? n) && (n <=? 13) || (28 <=? n) && (n <=? 32)
   || (n =? 133) || (n =? 160))%N.

(** The blanks that [int()] and [float()] strip: ASCII blanks, and the
    two blanks above 127, which are first turned into a space; the
    separators 28..31 are left in place and make the conversion fail. *)
Definition isspace_num (c : ascii) : bool :=
  let n := code c in
  ((9 <=? n) && (n <=? 13) || (n =? 32) || (n =? 133) || (n =? 160))%N.

Definition isdigit (c : ascii) : bool :=
  let n := code c in ((48 <=? n) && (n <=? 57))%N.

Definition digit_val (c : ascii) : Z := Z.of_N (code c) - 48.

(** ASCII lower-casing, for the case-insensitive words of [float()]. *)
Definition lower (c : ascii) : ascii :=
  let n := code c in
  if ((65 <=? n) && (n <=? 90))%N then ascii_of_N (n + 32) else c.

Definition all_space (s : string) : bool :=
  forallb isspace (list_ascii_of_string s).

(** [s.startswith(p)] *)
Fixpoint startswith (p s : string) : bool :=
  match p, s with
  | EmptyString, _ => true
  | String a p', String b s' => Ascii.eqb a b && startswith p' s'
  | String _ _, EmptyString => false
  end.

(** [s.rstrip()] *)
Fixpoint rstrip (s : string) : string :=
  match s with
  | EmptyString => EmptyString
  | String c s' => if all_space s then EmptyString else String c (rstrip s')
  end.

(** [s.split(sep)] for a one-character separator: never empty. *)
Fixpoint split (sep : ascii) (s : string) : list string :=
  match s with
  | EmptyString => [EmptyString]
  | String c s' =>
      if Ascii.eqb c sep then EmptyString :: split sep s'
      else match split sep s' with
           | f :: fs => String c f :: fs
           | [] => [String c EmptyString]
           end
  end.

(** [s.replace("chr", "")]: every occurrence, scanning left to right;
    after an occurrence the scan resumes behind it. *)
Fixpoint replace_chr (s : string) : string :=
  match s with
  | EmptyString => EmptyString
  | String c s1 =>
      if startswith "chr" s then
        match s1 with
        | String _ (String _ rest) => replace_chr rest
        | _ => EmptyString
        end
      else String c (replace_chr s1)
  end.

(** [re.match("^#.{6}", s)]: a ['#'] and six characters other than a
    line feed. *)
Fixpoint dots (n : nat) (s : string) : bool :=
  match n, s with
  | O, _ => true
  | S n', String c s' => negb (Ascii.eqb c LF) && dots n' s'
  | S _, EmptyString => false
  end.

Definition match_color (s : string) : bool :=
  match s with
  | String "#" s' => dots 6 s'
  | _ => false
  end.

(** *** Numbers *)

Fixpoint lstrip_num (s : string) : string :=
  match s with
  | String c s' => if isspace_num c then lstrip_num s' else s
  | EmptyString => EmptyString
  end.

Fixpoint rstrip_num (s : string) : string :=
  match s with
  | EmptyString => EmptyString
  | String c s' =>
      if forallb isspace_num (list_ascii_of_string s) then EmptyString
      else String c (rstrip_num s')
  end.

Definition strip_num (s : string) : string := rstrip_num (lstrip_num s).

(** An optional sign. *)
Definition sign (s : string) : bool * string :=
  match s with
  | String "-" s' => (true, s')
  | String "+" s' => (false, s')
  | _ => (false, s)
  end.

(** Decimal digits in which single underscores may separate digits. *)
Fixpoint digits_us (acc : Z) (after_digit : bool) (s : string) : option Z :=
  match s with
  | EmptyString => if after_digit then Some acc else None
  | String c s' =>
      if Ascii.eqb c "_" then
        if after_digit then digits_us acc false s' else None
      else if isdigit c then digits_us (10 * acc + digit_val c) true s'
      else None
  end.

(** [int(s)] in base ten; [None] stands for [ValueError].  The
    interpreter's configurable limit on the number of digits is not
    modelled. *)
Definition int (s : string) : option Z :=
  let (neg, ds) := sign (strip_num s) in
  match digits_us 0 false ds with
  | Some n => Some (if neg then - n else n)
  | None => None
  end.

(** The double nearest to [m * 2 ^ e], ties to even; [szero] signs a
    zero. *)
Definition round_binary64 (m e : Z) (szero : bool) : spec_float :=
  binary_normalize prec emax m e szero.

(** Conversion of an [int] operand of a mixed [int]/[float] operation. *)
Definition float_of_int (z : Z) : res float :=
  match round_binary64 z 0 false with
  | S754_infinity _ => Raise OverflowError
  | sf => Ok (SF2Prim sf)
  end.

(** The double nearest to [(-1)^neg * m * 10 ^ e10], for [0 <= m].  A
    negative exponent is served by a quotient of more than 64 bits whose
    last bit records whether the division left a remainder. *)
Definition float_of_decimal (neg : bool) (m e10 : Z) : float :=
  let sgn (z : Z) := if neg then - z else z in
  if (m =? 0)%Z then SF2Prim (S754_zero neg)
  else if (0 <=? e10)%Z then SF2Prim (round_binary64 (sgn (m * 10 ^ e10)) 0 neg)
  else
    let d := 10 ^ (- e10) in
    let t := Z.max 0 (Z.log2 d + 66 - Z.log2 m) in
    let n := m * 2 ^ t in
    let q := 2 * (n / d) + (if (n mod d =? 0)%Z then 0 else 1) in
    SF2Prim (round_binary64 (sgn q) (- t - 1) neg).

(** Underscores of a [float] literal: only between two digits. *)
Fixpoint strip_underscores (prev : ascii) (s : string) : option string :=
  match s with
  | EmptyString => if Ascii.eqb prev "_" then None else Some EmptyString
  | String c s' =>
      if Ascii.eqb c "_" then
        if isdigit prev then strip_underscores c s' else None
      else if Ascii.eqb prev "_" && negb (isdigit c) then None
      else option_map (String c) (strip_underscores c s')
  end.

(** The longest prefix of digits, as a number and a count, and the rest. *)
Fixpoint span_digits (acc : Z) (cnt : Z) (s : string) : Z * Z * string :=
  match s with
  | String c s' =>
      if isdigit c then span_digits (10 * acc + digit_val c) (cnt + 1) s'
      else (acc, cnt, s)
  | EmptyString => (acc, cnt, s)
  end.

Fixpoint lower_str (s : string) : string :=
  match s with
  | String c s' => String (lower c) (lower_str s')
  | EmptyString => EmptyString
  end.

(** The exponent part of a decimal literal: nothing, or [e], an optional
    sign and at least one digit. *)
Definition exponent (s : string) : option Z :=
  match s with
  | EmptyString => Some 0
  | String c s' =>
      if Ascii.eqb (lower c) "e" then
        let (eneg, ds) := sign s' in
        match span_digits 0 0 ds with
        | (v, cnt, EmptyString) =>
            if (0 <? cnt)%Z then Some (if eneg then - v else v) else None
        | _ => None
        end
      else None
  end.

(** [float(s)]; [None] stands for [ValueError]. *)
Definition float_ (s : string) : option float :=
  match strip_underscores "000" (strip_num s) with
  | None => None
  | Some lit =>
      let (neg, body) := sign lit in
      let word := lower_str body in
      if String.eqb word "inf" || String.eqb word "infinity" then
        Some (if neg then neg_infinity else infinity)
      else if String.eqb word "nan" then Some nan
      else
        let '(ip, icnt, r1) := span_digits 0 0 body in
        let '(m, fcnt, r2) :=
          match r1 with
          | String "." r => span_digits ip 0 r
          | _ => (ip, 0, r1)
          end in
        if (icnt + fcnt =? 0)%Z then None
        else match exponent r2 with
             | Some e => Some (float_of_decimal neg m (e - fcnt))
             | None => None
             end
  end.

(** *** Text of numbers *)

(** [str] of an [int]. *)
Definition str_int (z : Z) : string := NilZero.string_of_int (Z.to_int z).

Fixpoint zeros (n : nat) : string :=
  match n with
  | O => EmptyString
  | S n' => String "0" (zeros n')
  end.

(** The least [j] from [j] on with [num * 10 ^ (j + 1) >= den]; a positive
    double is above [10 ^ -324], so that the fuel is never used up. *)
Fixpoint leading_zeros (fuel : nat) (num den j : Z) : Z :=
  match fuel with
  | O => j
  | S fuel' =>
      if (den <=? num * 10 ^ (j + 1))%Z then j
      else leading_zeros fuel' num den (j + 1)
  end.

(** The [k] with [10 ^ (k - 1) <= num / den < 10 ^ k]. *)
Definition decimal_point (num den : Z) : Z :=
  if (den <=? num)%Z then Z.of_nat (String.length (str_int (num / den)))
  else - leading_zeros 400 num den 0.

(** Of the two decimals of [n] digits around [num / den], scaled by
    [10 ^ (k - n)], the one that reads back as [f]; the closer one, when
    both do. *)
Definition candidate (f : float) (num den k n : Z) : option Z :=
  let num' := if (0 <=? n - k)%Z then num * 10 ^ (n - k) else num in
  let den' := if (0 <=? n - k)%Z then den else den * 10 ^ (k - n) in
  let lo := num' / den' in
  let hi := lo + 1 in
  let back c := (float_of_decimal false c (k - n) =? f)%float in
  let lo_ok := (0 <? lo)%Z && back lo in
  let hi_ok := back hi in
  let r2 := 2 * (num' - lo * den') in
  if lo_ok && hi_ok then
    Some (if (r2 <? den')%Z then lo
          else if (den' <? r2)%Z then hi
          else if Z.even lo then lo else hi)
  else if lo_ok then Some lo
  else if hi_ok then Some hi
  else None.

(** The least number of digits that reads back, from [n] on; seventeen
    digits always do. *)
Fixpoint shortest (fuel : nat) (f : float) (num den k n : Z) : Z * Z :=
  match fuel with
  | O => (0, n)
  | S fuel' =>
      match candidate f num den k n with
      | Some c => (c, n)
      | None => shortest fuel' f num den k (n + 1)
      end
  end.

Fixpoint strip_zeros (s : list ascii) : list ascii :=
  match s with
  | "0"%char :: s' => strip_zeros s'
  | _ => s
  end.

Definition strip_trailing_zeros (s : string) : string :=
  string_of_list_ascii (rev (strip_zeros (rev (list_ascii_of_string s)))).

(** The text of the positive finite double [f = m * 2 ^ e]: its shortest
    digits, with an exponent when the decimal point would stand more than
    four places before them or more than sixteen places into them. *)
Definition repr_finite (f : float) (m e : Z) : string :=
  let num := if (0 <=? e)%Z then m * 2 ^ e else m in
  let den := if (0 <=? e)%Z then 1 else 2 ^ (- e) in
  let k := decimal_point num den in
  let '(c, n) := shortest 17 f num den k 1 in
  let all := str_int c in
  let decpt := k + (Z.of_nat (String.length all) - n) in
  let ds := strip_trailing_zeros all in
  let nd := Z.of_nat (String.length ds) in
  if (decpt <=? -4)%Z || (16 <? decpt)%Z then
    let ex := decpt - 1 in
    let mant := match ds with
                | String d EmptyString => ds
                | String d rest => String d (String "." rest)
                | EmptyString => ds
                end in
    mant ++ "e" ++ (if (ex <? 0)%Z then "-" else "+")
    ++ (if (Z.abs ex <? 10)%Z then "0" else "") ++ str_int (Z.abs ex)
  else if (decpt <=? 0)%Z then
    "0." ++ zeros (Z.to_nat (- decpt)) ++ ds
  else if (nd <=? decpt)%Z then
    ds ++ zeros (Z.to_nat (decpt - nd)) ++ ".0"
  else
    substring 0 (Z.to_nat decpt) ds ++ "."
    ++ substring (Z.to_nat decpt) (Z.to_nat (nd - decpt)) ds.

(** [repr] of a [float], which is also its text in an f-string: the
    shortest decimal text that reads back as the same double. *)
Definition repr (f : float) : string :=
  match Prim2SF f with
  | S754_nan => "nan"
  | S754_infinity s => if s then "-inf" else "inf"
  | S754_zero s => if s then "-0.0" else "0.0"
  | S754_finite s m e =>
      (if s then "-" else "") ++ repr_finite (abs f) (Zpos m) e
  end.

End Py.

Import Py.

Notation "x <- m ;; k" := (bind m (fun x => k))
  (at level 61, m at next level, right associativity).

(** ** The reference tables *)

(** A number of a dict literal: written without a point it is an [int]
    (the [cy] of chromosome 5, the [cx] of chromosome 21), otherwise a
    [float]. *)
Inductive num : Type :=
| Int (z : Z)
| Float (f : float).

(** The [float] operand a number becomes in arithmetic with a [float]. *)
Definition as_float (n : num) : res float :=
  match n with
  | Int z => float_of_int z
  | Float f => Ok f
  end.

Record geometry : Type :=
  { cx : num; cy : num; ht : float; width : float }.

(** A dict with string keys, as the list of its items. *)
Definition dict (V : Type) : Type := list (string * V).

(** [d[k]], raising [KeyError] for a missing key. *)
Fixpoint getitem {V : Type} (d : dict V) (k : string) : res V :=
  match d with
  | [] => Raise (KeyError k)
  | (k', v) :: d' => if String.eqb k k' then Ok v else getitem d' k
  end.

Definition COORDINATES : dict geometry :=
  [ ("1", {| cx := Float 128.6; cy := Float 1.5; ht := 1654.5; width := 118.6 |});
    ("2", {| cx := Float 301.4; cy := Float 43.6; ht := 1612.4; width := 118.6 |});
    ("3", {| cx := Float 477.6; cy := Float 341.4; ht := 1314.7; width := 118.6 |});
    ("4", {| cx := Float 655.6; cy := Float 517.9; ht := 1138.1; width := 118.6 |});
    ("5", {| cx := Float 835.4; cy := Int 461; ht := 1195.1; width := 118.6 |});
    ("6", {| cx := Float 1012.4; cy := Float 524.2; ht := 1131.8; width := 118.6 |});
    ("7", {| cx := Float 1198.2; cy := Float 608.5; ht := 1047.5; width := 118.6 |});
    ("8", {| cx := Float 1372.9; cy := Float 692.8; ht := 963.2; width := 118.6 |});
    ("9", {| cx := Float 1554.5; cy := Float 724.4; ht := 931.6; width := 118.6 |});
    ("10", {| cx := Float 1733.8; cy := Float 766.6; ht := 889.4; width := 118.6 |});
    ("11", {| cx := Float 1911.5; cy := Float 766.6; ht := 889.4; width := 118.6 |});
    ("12", {| cx := Float 2095.6; cy := Float 769.7; ht := 886.3; width := 118.6 |});
    ("13", {| cx := Float 129.3; cy := Float 2068.8; ht := 766.1; width := 118.6 |});
    ("14", {| cx := Float 301.6; cy := Float 2121.5; ht := 713.4; width := 118.6 |});
    ("15", {| cx := Float 477.5; cy := Float 2153.1; ht := 681.8; width := 118.6 |});
    ("16", {| cx := Float 656.7; cy := Float 2232.2; ht := 602.8; width := 118.6 |});
    ("17", {| cx := Float 841.2; cy := Float 2290.7; ht := 544.3; width := 118.6 |});
    ("18", {| cx := Float 1015.7; cy := Float 2313.9; ht := 521.1; width := 118.6 |});
    ("19", {| cx := Float 1199.5; cy := Float 2437.2; ht := 397.8; width := 118.6 |});
    ("20", {| cx := Float 1374.4; cy := Float 2416.1; ht := 418.9; width := 118.6 |});
    ("21", {| cx := Int 1553; cy := Float 2510.9; ht := 324.1; width := 118.6 |});
    ("22", {| cx := Float 1736.9; cy := Float 2489.8; ht := 345.1; width := 118.6 |});
    ("X", {| cx := Float 1915.7; cy := Float 1799.21; ht := 1035.4; width := 118.6 |});
    ("Y", {| cx := Float 2120.9; cy := Float 2451.6; ht := 382.7; width := 118.6 |}) ].

(** The lengths of the chromosomes under the two builds. *)
Definition hg37 : dict Z :=
  [ ("1", 249250621); ("2", 243199373); ("3", 198022430);
    ("4", 191154276); ("5", 180915260); ("6", 171115067);
    ("7", 159138663); ("8", 146364022); ("9", 141213431);
    ("10", 135534747); ("11", 135006516); ("12", 133851895);
    ("13", 115169878); ("14", 107349540); ("15", 102531392);
    ("16", 90354753); ("17", 81195210); ("18", 78077248);
    ("19", 59128983); ("20", 63025520); ("21", 48129895);
    ("22", 51304566); ("X", 155270560); ("Y", 59373566) ].

Definition hg38 : dict Z :=
  [ ("1", 248956422); ("2", 242193529); ("3", 198295559);
    ("4", 190214555); ("5", 181538259); ("6", 170805979);
    ("7", 159345973); ("8", 145138636); ("9", 138394717);
    ("10", 133797422); ("11", 135086622); ("12", 133275309);
    ("13", 114364328); ("14", 107043718); ("15", 101991189);
    ("16", 90338345); ("17", 83257441); ("18", 80373285);
    ("19", 58617616); ("20", 64444167); ("21", 46709983);
    ("22", 50818468); ("X", 156040895); ("Y", 57227415) ].

Definition CHROM_SIZES : dict (dict Z) := [("hg37", hg37); ("hg38", hg38)].

(** ** The state of a run *)

Inductive shape : Type :=
| Rect (x : num) (y : float) (fill : string) (w h : float)
| Circle (fill : string) (x y r : float)
| Polygon (fill : string) (x1 y1 x2 y2 x3 y3 : float)
| Line (stroke : string) (x1 : num) (y : float) (x2 : num).

(** What one call of [svg_fh.write] appends to the output file. *)
Inductive chunk : Type :=
| Text (s : string)
| Drawn (s : shape).

(** What one call of [print] writes. *)
Inductive message : Type :=
| MsgColumns (line_num : Z)
| MsgSize (size : float) (line_num : Z)
| MsgColor (col : string) (line_num : Z)
| MsgCopy (chrcopy line_num : Z)
| MsgFeature (feature : Z)
| MsgCreated.

Record state : Type :=
  { svg_fh : list chunk;      (* the content of the output file, in order *)
    polygons : list shape;    (* the deferred triangles, in order *)
    line_num : Z;
    stdout : list message }.

Definition print (m : message) (st : state) : state :=
  {| svg_fh := svg_fh st; polygons := polygons st;
     line_num := line_num st; stdout := stdout st ++ [m] |}.

Definition write (c : list chunk) (st : state) : state :=
  {| svg_fh := svg_fh st ++ c; polygons := polygons st;
     line_num := line_num st; stdout := stdout st |}.

Definition defer (s : shape) (st : state) : state :=
  {| svg_fh := svg_fh st; polygons := polygons st ++ [s];
     line_num := line_num st; stdout := stdout st |}.

Definition next_line (st : state) : state :=
  {| svg_fh := svg_fh st; polygons := polygons st;
     line_num := line_num st + 1; stdout := stdout st |}.

(** How the body of the loop ends for one line: the loop goes on, or
    [sys.exit()] is called, or an exception escapes. *)
Inductive step : Type :=
| Next (st : state)
| Exit (st : state)
| Raised (e : exn) (st : state).

(** ** Coordinates and shapes *)

Section Shapes.

Variable build : string.     (* parsed_args.build *)

(** [pos * COORDINATES[chrm]["ht"] / CHROM_SIZES[parsed_args.build][chrm]] *)
Definition scaled (chrm : string) (pos : Z) : res float :=
  g <- getitem COORDINATES chrm ;;
  p <- float_of_int pos ;;
  sizes <- getitem CHROM_SIZES build ;;
  total <- getitem sizes chrm ;;
  t <- float_of_int total ;;
  if (t =? 0)%float then Raise ZeroDivisionError
  else Ok (p * ht g / t)%float.

(** [feature == 0] *)
Definition rectangle (chrm : string) (start stop : Z) (size : float)
    (col : string) (chrcopy : Z) : res shape :=
  feat_start <- scaled chrm start ;;
  feat_end <- scaled chrm stop ;;
  g <- getitem COORDINATES chrm ;;
  let w := (width g * size / 2)%float in
  x_pos <- (if (chrcopy =? 1)%Z
            then (c <- as_float (cx g) ;; Ok (Float (c - w)))
            else Ok (cx g)) ;;
  o <- as_float (cy g) ;;
  let y_pos := (o + feat_start)%float in
  let height := (feat_end - feat_start)%float in
  Ok (Rect x_pos y_pos col w height).

(** [feature == 1] *)
Definition circle (chrm : string) (start stop : Z) (size : float)
    (col : string) (chrcopy : Z) : res shape :=
  feat_start <- scaled chrm start ;;
  feat_end <- scaled chrm stop ;;
  g <- getitem COORDINATES chrm ;;
  let radius := (width g * size / 4)%float in
  c <- as_float (cx g) ;;
  let x_pos := (if (chrcopy =? 1)%Z then c - width g / 4
                else c + width g / 4)%float in
  o <- as_float (cy g) ;;
  let y_pos := (o + (feat_start + feat_end) / 2)%float in
  Ok (Circle col x_pos y_pos radius).

(** [feature == 2] *)
Definition triangle (chrm : string) (start stop : Z) (size : float)
    (col : string) (chrcopy : Z) : res shape :=
  feat_start <- scaled chrm start ;;
  feat_end <- scaled chrm stop ;;
  g <- getitem COORDINATES chrm ;;
  c <- as_float (cx g) ;;
  let x_pos := (if (chrcopy =? 1)%Z then c - width g / 2
                else c + width g / 2)%float in
  let sx_pos := (if (chrcopy =? 1)%Z then 38.2 * size
                 else (-38.2) * size)%float in
  o <- as_float (cy g) ;;
  let y_pos := (o + (feat_start + feat_end) / 2)%float in
  let sy_pos := (21.5 * size)%float in
  Ok (Polygon col (x_pos - sx_pos) (y_pos - sy_pos) x_pos y_pos
        (x_pos - sx_pos) (y_pos + sy_pos)).

(** [feature == 3] *)
Definition line (chrm : string) (start stop : Z) (col : string)
    (chrcopy : Z) : res shape :=
  y_pos1 <- scaled chrm start ;;
  y_pos2 <- scaled chrm stop ;;
  let y_mid := ((y_pos1 + y_pos2) / 2)%float in
  g <- getitem COORDINATES chrm ;;
  o <- as_float (cy g) ;;
  let y_pos := (y_mid + o)%float in
  c <- as_float (cx g) ;;
  if (chrcopy =? 1)%Z
  then Ok (Line col (Float (c - width g / 2)) y_pos (cx g))
  else Ok (Line col (cx g) y_pos (Float (c + width g / 2))).

End Shapes.

(** ** The loop of [draw] *)

(** The numeric fields of a line, converted in the order of the source;
    a field that does not convert raises [ValueError]. *)
Definition conv {A : Type} (o : option A) : res A :=
  match o with
  | Some a => Ok a
  | None => Raise ValueError
  end.

Record numbers : Type :=
  { n_start : Z; n_stop : Z; n_size : float; n_feature : Z; n_chrcopy : Z }.

Definition convert (start stop feature size chrcopy : string) : res numbers :=
  a <- conv (int start) ;;
  b <- conv (int stop) ;;
  c <- conv (float_ size) ;;
  d <- conv (int feature) ;;
  e <- conv (int chrcopy) ;;
  Ok {| n_start := a; n_stop := b; n_size := c; n_feature := d;
        n_chrcopy := e |}.

(** [0 > size > 1], that is [0 > size and size > 1]. *)
Definition size_unclear (size : float) : bool :=
  ((size <? 0) && (1 <? size))%float.

(** [chrcopy not in [1, 2]] *)
Definition copy_unclear (chrcopy : Z) : bool :=
  negb ((chrcopy =? 1)%Z || (chrcopy =? 2)%Z).

Section Loop.

Variable build : string.     (* parsed_args.build *)

(** A shape written to the file at once. *)
Definition to_file (r : res shape) (st : state) : step :=
  match r with
  | Ok s => Next (write [Drawn s] st)
  | Raise e => Raised e st
  end.

(** A shape kept in [polygons]. *)
Definition to_polygons (r : res shape) (st : state) : step :=
  match r with
  | Ok s => Next (defer s st)
  | Raise e => Raised e st
  end.

(** The [if feature == ...] chain. *)
Definition dispatch (st : state) (chrm : string) (start stop feature : Z)
    (size : float) (col : string) (chrcopy : Z) : step :=
  if (feature =? 0)%Z then
    to_file (rectangle build chrm start stop size col chrcopy) st
  else if (feature =? 1)%Z then
    to_file (circle build chrm start stop size col chrcopy) st
  else if (feature =? 2)%Z then
    to_polygons (triangle build chrm start stop size col chrcopy) st
  else if (feature =? 3)%Z then
    to_file (line build chrm start stop col chrcopy) st
  else Next (print (MsgFeature feature) st).

(** The checks of size, colour and copy, on converted fields. *)
Definition validate (st : state) (chrm : string) (n : numbers)
    (col : string) : step :=
  let '(size, st) :=
    if size_unclear (n_size n)
    then (1%float, print (MsgSize (n_size n) (line_num st)) st)
    else (n_size n, st) in
  let '(col, st) :=
    if match_color col then (col, st)
    else ("#000000", print (MsgColor col (line_num st)) st) in
  if copy_unclear (n_chrcopy n) then
    Next (next_line (print (MsgCopy (n_chrcopy n) (line_num st)) st))
  else
    dispatch (next_line st) chrm (n_start n) (n_stop n) (n_feature n)
      size col (n_chrcopy n).

(** The body of [for entry in input_fh]. *)
Definition process_entry (st : state) (entry : string) : step :=
  if startswith "#" entry then Next st
  else
    match split TAB (rstrip entry) with
    | [chrm; start; stop; feature; size; col; chrcopy] =>
        let chrm := replace_chr chrm in
        match convert start stop feature size chrcopy with
        | Raise e => Raised e st
        | Ok n => validate st chrm n col
        end
    | _ => Exit (print (MsgColumns (line_num st)) st)
    end.

(** The loop over the lines that the input file yields. *)
Fixpoint loop (st : state) (input_fh : list string) : step :=
  match input_fh with
  | [] => Next st
  | entry :: rest =>
      match process_entry st entry with
      | Next st' => loop st' rest
      | stop => stop
      end
  end.

End Loop.

(** ** [draw] *)

(** The arguments [draw] reads, the opening of the two files apart. *)
Record Namespace : Type :=
  { ns_build : string; ns_verbose : bool }.

(** How a run of [draw] ends. *)
Inductive status : Type :=
| Returned
| SystemExit
| Uncaught (e : exn).

Record outcome : Type :=
  { ended : status;
    document : list chunk;     (* what the output file holds *)
    printed : list message }.

(** [printif(message, condition)] *)
Definition printif (m : message) (condition : bool) (st : state) : state :=
  if condition then print m st else st.

Definition start_state (svg_header : string) : state :=
  {| svg_fh := [Text svg_header]; polygons := []; line_num := 1;
     stdout := [] |}.

Definition draw (parsed_args : Namespace) (svg_header svg_footer : string)
    (input_fh : list string) : outcome :=
  match loop (ns_build parsed_args) (start_state svg_header) input_fh with
  | Next st =>
      let st := write [Text svg_footer] st in
      let st := write (map Drawn (polygons st)) st in
      let st := write [Text "</svg>"] st in
      let st := printif MsgCreated (ns_verbose parsed_args) st in
      {| ended := Returned; document := svg_fh st; printed := stdout st |}
  | Exit st =>
      {| ended := SystemExit; document := svg_fh st; printed := stdout st |}
  | Raised e st =>
      {| ended := Uncaught e; document := svg_fh st; printed := stdout st |}
  end.

(** ** The text of the chunks and of the messages *)

Definition DQ : string := String "034"%char EmptyString.
Definition NL : string := String LF EmptyString.
Definition ESC : string := String "027"%char EmptyString.

Fixpoint spaces (n : nat) : string :=
  match n with
  | O => EmptyString
  | S n' => String " " (spaces n')
  end.

(** A replacement field of an f-string. *)
Definition fmt (n : num) : string :=
  match n with
  | Int z => str_int z
  | Float f => repr f
  end.

Definition render_shape (s : shape) : string :=
  match s with
  | Rect x y fill w h =>
      "<rect x=" ++ DQ ++ fmt x ++ DQ ++ " y=" ++ DQ ++ repr y ++ DQ
      ++ " fill=" ++ DQ ++ fill ++ DQ ++ " width=" ++ DQ ++ repr w
      ++ DQ ++ spaces 13 ++ "height=" ++ DQ ++ repr h ++ DQ ++ "/>"
      ++ NL
  | Circle fill x y r =>
      "<circle fill=" ++ DQ ++ fill ++ DQ ++ " cx=" ++ DQ ++ repr x
      ++ DQ ++ " cy=" ++ DQ ++ repr y ++ DQ ++ spaces 13 ++ "r=" ++ DQ
      ++ repr r ++ DQ ++ "/>" ++ NL
  | Polygon fill x1 y1 x2 y2 x3 y3 =>
      "<polygon fill=" ++ DQ ++ fill ++ DQ ++ " points=" ++ DQ
      ++ repr x1 ++ "," ++ repr y1 ++ spaces 13
      ++ repr x2 ++ "," ++ repr y2 ++ " "
      ++ repr x3 ++ "," ++ repr y3 ++ DQ ++ "/>" ++ NL
  | Line stroke x1 y x2 =>
      "<line fill=" ++ DQ ++ "none" ++ DQ ++ " stroke=" ++ DQ ++ stroke
      ++ DQ ++ " stroke-miterlimit=" ++ DQ ++ "10" ++ DQ ++ spaces 21
      ++ "x1=" ++ DQ ++ fmt x1 ++ DQ ++ " y1=" ++ DQ ++ repr y ++ DQ
      ++ " x2=" ++ DQ ++ fmt x2 ++ DQ ++ " y2=" ++ DQ ++ repr y ++ DQ
      ++ "/>" ++ NL
  end.

Definition render_chunk (c : chunk) : string :=
  match c with
  | Text s => s
  | Drawn s => render_shape s
  end.

(** The bytes of the output file. *)
Definition render (d : list chunk) : string :=
  fold_right (fun c text => render_chunk c ++ text) EmptyString d.

Definition render_message (m : message) : string :=
  match m with
  | MsgColumns n =>
      "Line number " ++ str_int n ++ " does not have 7 columns"
  | MsgSize size n =>
      "Feature size, " ++ repr size ++ ",on line " ++ str_int n
      ++ " unclear." ++ spaces 17
      ++ "Please bound the size between 0 (0%) to 1 (100%). Defaulting to 1."
  | MsgColor col n =>
      "Feature color, " ++ col ++ ", on line " ++ str_int n
      ++ " unclear." ++ spaces 17
      ++ "Please define the color in hex starting with #. Defaulting to #000000."
  | MsgCopy chrcopy n =>
      "Feature chromosome copy, " ++ str_int chrcopy ++ ", on line "
      ++ str_int n ++ spaces 13 ++ "unclear. Skipping..."
  | MsgFeature feature =>
      "Feature type, " ++ str_int feature
      ++ ", unclear. Please use either 0, 1, 2 or 3. Skipping..."
  | MsgCreated =>
      ESC ++ "[92mSuccessfully created SVG" ++ ESC ++ "[0m"
  end.

(** ** Vocabulary of the properties *)

(** The triangles are the [Polygon] shapes. *)
Definition is_polygon (s : shape) : bool :=
  match s with
  | Polygon _ _ _ _ _ _ _ => true
  | _ => false
  end.

Definition base_shapes (l : list shape) : list shape :=
  filter (fun s => negb (is_polygon s)) l.

Definition overlay_shapes (l : list shape) : list shape :=
  filter is_polygon l.

(** The shapes of a file content, in order. *)
Fixpoint drawn (cs : list chunk) : list shape :=
  match cs with
  | [] => []
  | Drawn s :: cs' => s :: drawn cs'
  | Text _ :: cs' => drawn cs'
  end.

Definition blank : state :=
  {| svg_fh := []; polygons := []; line_num := 1; stdout := [] |}.

(** The shapes that the body of the loop emits for one line, whichever
    way they go. *)
Definition entry_shapes (build entry : string) : list shape :=
  match process_entry build blank entry with
  | Next st => (drawn (svg_fh st) ++ polygons st)%list
  | _ => []
  end.

(** The shapes of an input, in the order of its lines. *)
Definition emitted (build : string) (input_fh : list string) : list shape :=
  flat_map (entry_shapes build) input_fh.

Definition is_comment (entry : string) : bool := startswith "#" entry.

(** The shape a builder returns, if it returns. *)
Definition shapes_of (r : res shape) : list shape :=
  match r with
  | Ok s => [s]
  | Raise _ => []
  end.

(** The colour a shape is drawn with. *)
Definition fill_of (col : string) : string :=
  if match_color col then col else "#000000".

(** The lines that count for [line_num]. *)
Definition counted_lines (input_fh : list string) : list string :=
  filter (fun entry => negb (is_comment entry)) input_fh.

(** The fields of a line, as the loop sees them. *)
Definition fields (entry : string) : list string := split TAB (rstrip entry).

(** What the body of the loop does to a state, told apart from the state:
    the messages it prints (given [line_num]), whether it counts the line,
    the shapes it writes and the shapes it defers. *)
Inductive effect : Type :=
| Goes (msgs : Z -> list message) (counted : bool) (base overlay : list shape)
| Halts (msgs : Z -> list message)
| Throws (e : exn) (msgs : Z -> list message) (counted : bool).

Definition advance (msgs : Z -> list message) (counted : bool)
    (base overlay : list shape) (st : state) : state :=
  {| svg_fh := svg_fh st ++ map Drawn base;
     polygons := polygons st ++ overlay;
     line_num := if counted then line_num st + 1 else line_num st;
     stdout := stdout st ++ msgs (line_num st) |}.

Definition apply_effect (f : effect) (st : state) : step :=
  match f with
  | Goes msgs counted base overlay =>
      Next (advance msgs counted base overlay st)
  | Halts msgs => Exit (advance msgs false [] [] st)
  | Throws e msgs counted => Raised e (advance msgs counted [] [] st)
  end.

(** Written shapes are no triangles, deferred shapes are triangles. *)
Definition sorted_effect (f : effect) : Prop :=
  match f with
  | Goes _ _ base overlay =>
      forallb (fun s => negb (is_polygon s)) base = true
      /\ forallb is_polygon overlay = true
  | _ => True
  end.

(** A line that passes is counted unless it is a comment. *)
Definition counting_effect (comment : bool) (f : effect) : Prop :=
  match f with
  | Goes _ counted _ _ => counted = negb comment
  | _ => True
  end.

(** The effects of a line that is no comment. *)
Definition passing (f : effect) : Prop :=
  sorted_effect f /\ counting_effect false f.

(** The state a step ends in. *)
Definition state_of (s : step) : state :=
  match s with
  | Next st => st
  | Exit st => st
  | Raised _ st => st
  end.

(** The double nearest to an integer, and the double a table number
    stands for. *)
Definition to_float (z : Z) : float := SF2Prim (round_binary64 z 0 false).

Definition num_float (n : num) : float :=
  match n with
  | Int z => to_float z
  | Float f => f
  end.

(** The scaling of a position, [position * extent_height / total_length],
    and the vertical coordinate [origin_y + position * extent_height /
    total_length] of the specification, on doubles. *)
Definition offset_y (g : geometry) (total : Z) (position : float) : float :=
  (position * ht g / to_float total)%float.


(** The edges of a rectangle. *)
Definition left_edge (x : num) : float := num_float x.
Definition right_edge (x : num) (w : float) : float := (num_float x + w)%float.


(** The normalisation of the chromosome name in the words of the
    specification: a leading ["chr"] is stripped, nothing else changes. *)
Definition strip_leading_chr (s : string) : string :=
  if startswith "chr" s then substring 3 (String.length s - 3) s else s.

(** ["chr"] occurs in [s]. *)
Fixpoint occurs_chr (s : string) : bool :=
  match s with
  | EmptyString => false
  | String _ s' => startswith "chr" s || occurs_chr s'
  end.

(** A tab-separated line, for the examples. *)
Definition tsv (l : list string) : string :=
  (String.concat (String TAB EmptyString) l ++ NL)%string.

(** ** Inputs of the examples *)

Definition example_args : Namespace :=
  {| ns_build := "hg37"; ns_verbose := false |}.

Definition verbose_args : Namespace :=
  {| ns_build := "hg37"; ns_verbose := true |}.

Definition chr1 : geometry :=
  {| cx := Float 128.6; cy := Float 1.5; ht := 1654.5; width := 118.6 |}.

Definition rectangle_line : string :=
  tsv ["1"; "1000000"; "2000000"; "0"; "1"; "#FF0000"; "1"].

Definition rectangle_numbers : numbers :=
  {| n_start := 1000000; n_stop := 2000000; n_size := 1; n_feature := 0;
     n_chrcopy := 1 |}.

Definition triangle_line : string :=
  tsv ["chr2"; "5000000"; "6000000"; "2"; "0.5"; "#00FF00"; "2"].

Definition six_fields_line : string :=
  tsv ["1"; "1000000"; "2000000"; "0"; "1"; "#FF0000"].

Definition copy3_line : string :=
  tsv ["1"; "1000000"; "2000000"; "0"; "1"; "#FF0000"; "3"].

Definition copy3_numbers : numbers :=
  {| n_start := 1000000; n_stop := 2000000; n_size := 1; n_feature := 0;
     n_chrcopy := 3 |}.

Definition bad_start_line : string :=
  tsv ["1"; "1.5e6"; "2000000"; "0"; "1"; "#FF0000"; "1"].

(** ** Vocabulary of further properties *)

(** The state after the check of the colour. *)
Definition checked (col : string) (st : state) : state :=
  if match_color col then st else print (MsgColor col (line_num st)) st.

(** The colour a shape carries. *)
Definition colour_of (s : shape) : string :=
  match s with
  | Rect _ _ fill _ _ => fill
  | Circle fill _ _ _ => fill
  | Polygon fill _ _ _ _ _ _ => fill
  | Line stroke _ _ _ => stroke
  end.

(** The shape kinds of the [if feature == ...] chain. *)
Definition known_kind (feature : Z) : bool :=
  ((feature =? 0) || (feature =? 1) || (feature =? 2) || (feature =? 3))%Z.

(** What a record prints after the check of its colour. *)
Definition later_messages (n : numbers) (k : Z) : list message :=
  if copy_unclear (n_chrcopy n) then [MsgCopy (n_chrcopy n) k]
  else if known_kind (n_feature n) then []
  else [MsgFeature (n_feature n)].


(** A line passes when the body of the loop goes on after it. *)
Definition passes (build entry : string) : bool :=
  match process_entry build blank entry with
  | Next _ => true
  | _ => false
  end.

(** A string without line feed. *)
Fixpoint no_line_feed (s : string) : bool :=
  match s with
  | EmptyString => true
  | String c s' => negb (Ascii.eqb c LF) && no_line_feed s'
  end.

(** The shapes of a line, read off the builders alone: a comment, a line
    without seven fields, a line whose numbers do not convert and a
    record with another copy than 1 and 2 have none; a record of kind 0,
    1, 2 or 3 has the shape its builder returns, if it returns one. *)
Definition record_shapes (build entry : string) : list shape :=
  if is_comment entry then []
  else
    match fields entry with
    | [chrm; start; stop; feature; size; col; chrcopy] =>
        match convert start stop feature size chrcopy with
        | Ok n =>
            let c := replace_chr chrm in
            if copy_unclear (n_chrcopy n) then []
            else if (n_feature n =? 0)%Z then
              shapes_of (rectangle build c (n_start n) (n_stop n) (n_size n)
                           (fill_of col) (n_chrcopy n))
            else if (n_feature n =? 1)%Z then
              shapes_of (circle build c (n_start n) (n_stop n) (n_size n)
                           (fill_of col) (n_chrcopy n))
            else if (n_feature n =? 2)%Z then
              shapes_of (triangle build c (n_start n) (n_stop n) (n_size n)
                           (fill_of col) (n_chrcopy n))
            else if (n_feature n =? 3)%Z then
              shapes_of (line build c (n_start n) (n_stop n) (fill_of col)
                           (n_chrcopy n))
            else []
        | Raise _ => []
        end
    | _ => []
    end.

(** ** The program around the loop *)

(** The rest of the program: [draw] with the opening of its files and
    with an argument object whose attribute [build] may be missing,
    [convert_svg_to_format] and [run].  The files, the keyboard and the
    converter are given as a [world]; a write to an opened file is taken
    to succeed, and the input file and the output file to be two files. *)

Module Cli.

(** The exceptions that can escape [run], beyond those of the builders. *)
Inductive error : Type :=
| Builtin (e : exn)
| AttributeError (name : string)
| OSError                     (* [open] failed; [IOError] is [OSError] *)
| EOFError                    (* [input()] at the end of the input *)
| ConverterError.             (* whatever the converter raises *)

Inductive result (A : Type) : Type :=
| Value (a : A)
| Error (e : error).
Arguments Value {A} a.
Arguments Error {A} e.

Definition rbind {A B : Type} (m : result A) (k : A -> result B)
    : result B :=
  match m with
  | Value a => k a
  | Error e => Error e
  end.

Definition lift {A : Type} (r : res A) : result A :=
  match r with
  | Ok a => Value a
  | Raise e => Error (Builtin e)
  end.

(** The attributes [draw] and [run] read from [parsed_args].  The
    attribute [build] is optional: [parse_arguments] defines the options
    [input], [prefix], [oformat], [force] and [verbose], and no option
    [build]. *)
Record arguments : Type :=
  { a_input : string;
    a_prefix : string;
    a_oformat : string;
    a_force : bool;
    a_verbose : bool;
    a_build : option string }.

(** The namespace [parse_arguments] returns for given values of its
    options, or nothing where the parser ends the program: [oformat] is
    one of its [choices], and is [png] where the option is not given. *)
Definition parse_arguments (input prefix : string)
    (oformat : option string) (force verbose : bool) : option arguments :=
  let o := match oformat with Some o => o | None => "png" end in
  if String.eqb o "png" || String.eqb o "pdf" then
    Some {| a_input := input; a_prefix := prefix; a_oformat := o;
            a_force := force; a_verbose := verbose; a_build := None |}
  else None.

(** [parsed_args.build] *)
Definition getattr_build (build : option string) : result string :=
  match build with
  | Some b => Value b
  | None => Error (AttributeError "build")
  end.

Notation "x <~ m ;; k" := (rbind m (fun x => k))
  (at level 61, m at next level, right associativity).

Section Loop.

Variable build : option string.     (* parsed_args.build, if there is one *)

(** [pos * COORDINATES[chrm]["ht"] / CHROM_SIZES[parsed_args.build][chrm]] *)
Definition scaled (chrm : string) (pos : Z) : result float :=
  g <~ lift (getitem COORDINATES chrm) ;;
  p <~ lift (float_of_int pos) ;;
  b <~ getattr_build build ;;
  sizes <~ lift (getitem CHROM_SIZES b) ;;
  total <~ lift (getitem sizes chrm) ;;
  t <~ lift (float_of_int total) ;;
  if (t =? 0)%float then Error (Builtin ZeroDivisionError)
  else Value (p * ht g / t)%float.

(** [feature == 0] *)
Definition rectangle (chrm : string) (start stop : Z) (size : float)
    (col : string) (chrcopy : Z) : result shape :=
  feat_start <~ scaled chrm start ;;
  feat_end <~ scaled chrm stop ;;
  g <~ lift (getitem COORDINATES chrm) ;;
  let w := (width g * size / 2)%float in
  x_pos <~ (if (chrcopy =? 1)%Z
            then (c <~ lift (as_float (cx g)) ;; Value (Float (c - w)))
            else Value (cx g)) ;;
  o <~ lift (as_float (cy g)) ;;
  let y_pos := (o + feat_start)%float in
  let height := (feat_end - feat_start)%float in
  Value (Rect x_pos y_pos col w height).

(** [feature == 1] *)
Definition circle (chrm : string) (start stop : Z) (size : float)
    (col : string) (chrcopy : Z) : result shape :=
  feat_start <~ scaled chrm start ;;
  feat_end <~ scaled chrm stop ;;
  g <~ lift (getitem COORDINATES chrm) ;;
  let radius := (width g * size / 4)%float in
  c <~ lift (as_float (cx g)) ;;
  let x_pos := (if (chrcopy =? 1)%Z then c - width g / 4
                else c + width g / 4)%float in
  o <~ lift (as_float (cy g)) ;;
  let y_pos := (o + (feat_start + feat_end) / 2)%float in
  Value (Circle col x_pos y_pos radius).

(** [feature == 2] *)
Definition triangle (chrm : string) (start stop : Z) (size : float)
    (col : string) (chrcopy : Z) : result shape :=
  feat_start <~ scaled chrm start ;;
  feat_end <~ scaled chrm stop ;;
  g <~ lift (getitem COORDINATES chrm) ;;
  c <~ lift (as_float (cx g)) ;;
  let x_pos := (if (chrcopy =? 1)%Z then c - width g / 2
                else c + width g / 2)%float in
  let sx_pos := (if (chrcopy =? 1)%Z then 38.2 * size
                 else (-38.2) * size)%float in
  o <~ lift (as_float (cy g)) ;;
  let y_pos := (o + (feat_start + feat_end) / 2)%float in
  let sy_pos := (21.5 * size)%float in
  Value (Polygon col (x_pos - sx_pos) (y_pos - sy_pos) x_pos y_pos
           (x_pos - sx_pos) (y_pos + sy_pos)).

(** [feature == 3] *)
Definition line (chrm : string) (start stop : Z) (col : string)
    (chrcopy : Z) : result shape :=
  y_pos1 <~ scaled chrm start ;;
  y_pos2 <~ scaled chrm stop ;;
  let y_mid := ((y_pos1 + y_pos2) / 2)%float in
  g <~ lift (getitem COORDINATES chrm) ;;
  o <~ lift (as_float (cy g)) ;;
  let y_pos := (y_mid + o)%float in
  c <~ lift (as_float (cx g)) ;;
  if (chrcopy =? 1)%Z
  then Value (Line col (Float (c - width g / 2)) y_pos (cx g))
  else Value (Line col (cx g) y_pos (Float (c + width g / 2))).

(** How the body of the loop ends for one line. *)
Inductive step : Type :=
| Next (st : state)
| Exit (st : state)
| Raised (e : error) (st : state).

Definition to_file (r : result shape) (st : state) : step :=
  match r with
  | Value s => Next (write [Drawn s] st)
  | Error e => Raised e st
  end.

Definition to_polygons (r : result shape) (st : state) : step :=
  match r with
  | Value s => Next (defer s st)
  | Error e => Raised e st
  end.

(** The [if feature == ...] chain. *)
Definition dispatch (st : state) (chrm : string) (start stop feature : Z)
    (size : float) (col : string) (chrcopy : Z) : step :=
  if (feature =? 0)%Z then
    to_file (rectangle chrm start stop size col chrcopy) st
  else if (feature =? 1)%Z then
    to_file (circle chrm start stop size col chrcopy) st
  else if (feature =? 2)%Z then
    to_polygons (triangle chrm start stop size col chrcopy) st
  else if (feature =? 3)%Z then
    to_file (line chrm start stop col chrcopy) st
  else Next (print (MsgFeature feature) st).

(** The checks of size, colour and copy, on converted fields. *)
Definition validate (st : state) (chrm : string) (n : numbers)
    (col : string) : step :=
  let '(size, st) :=
    if size_unclear (n_size n)
    then (1%float, print (MsgSize (n_size n) (line_num st)) st)
    else (n_size n, st) in
  let '(col, st) :=
    if match_color col then (col, st)
    else ("#000000", print (MsgColor col (line_num st)) st) in
  if copy_unclear (n_chrcopy n) then
    Next (next_line (print (MsgCopy (n_chrcopy n) (line_num st)) st))
  else
    dispatch (next_line st) chrm (n_start n) (n_stop n) (n_feature n)
      size col (n_chrcopy n).

(** The body of [for entry in input_fh]. *)
Definition process_entry (st : state) (entry : string) : step :=
  if startswith "#" entry then Next st
  else
    match split TAB (rstrip entry) with
    | [chrm; start; stop; feature; size; col; chrcopy] =>
        let chrm := replace_chr chrm in
        match convert start stop feature size chrcopy with
        | Raise e => Raised (Builtin e) st
        | Ok n => validate st chrm n col
        end
    | _ => Exit (print (MsgColumns (line_num st)) st)
    end.

Fixpoint loop (st : state) (input_fh : list string) : step :=
  match input_fh with
  | [] => Next st
  | entry :: rest =>
      match process_entry st entry with
      | Next st' => loop st' rest
      | stop => stop
      end
  end.

End Loop.

(** The state a step ends in. *)
Definition state_of (s : step) : state :=
  match s with
  | Next st => st
  | Exit st => st
  | Raised _ st => st
  end.

(** [str.lower] on one character (code points below 256): the capital
    letters of ASCII and of Latin-1. *)
Definition lower_char (c : ascii) : ascii :=
  let n := code c in
  if ((65 <=? n) && (n <=? 90) || (192 <=? n) && (n <=? 214)
      || (216 <=? n) && (n <=? 222))%N
  then ascii_of_N (n + 32) else c.

Fixpoint str_lower (s : string) : string :=
  match s with
  | EmptyString => EmptyString
  | String c s' => String (lower_char c) (str_lower s')
  end.

(** What is written to the terminal. *)
Inductive output : Type :=
| Diagnostic (m : message)         (* a message of [draw] *)
| ErrorOpeningInput                (* Error opening input file! *)
| ErrorOpeningOutput               (* Error opening output file! *)
| NotPngOrPdf (oformat : string)   (* ... is not PNG or PDF, using PNG *)
| DrawingFrom (input : string)     (* Drawing chromosome ideogram using ... *)
| AlreadyExists (prefix : string)  (* '....svg' already exists. *)
| Prompt (prefix : string)         (* Overwrite ....svg? [Y/n]: *)
| WillExit                         (* 'tagore will now exit... *)
| Overwriting (prefix : string)    (* Overwriting existing file and saving to: ... *)
| SavingTo (prefix : string)       (* Saving to: ....svg *)
| Converting (prefix oformat : string)   (* Converting ....svg -> .... *)
| Converted (oformat : string)     (* Successfully converted SVG to ... *)
| FailedConversion (oformat : string)    (* Failed SVG to ... conversion... *)
| ConversionFailed.                (* Conversion failed: ... *)

(** What the program finds around it. *)
Record world : Type :=
  { input_file : option (list string);  (* the lines of [parsed_args.input],
                                           if it can be opened *)
    svg_exists : bool;                  (* [os.path.exists] of the svg *)
    svg_writable : bool;                (* the svg can be opened to write *)
    keyboard : option string;           (* what [input()] returns, if any *)
    svg2png : string -> option string;  (* the converter, on the text of *)
    svg2pdf : string -> option string   (* the svg: its bytes, if any *) }.

Inductive status : Type :=
| Returned
| SystemExit
| Uncaught (e : error).

(** How a call of [draw] ends: [written] is what the call has written to
    the svg, if it has opened it. *)
Record drawn_outcome : Type :=
  { d_ended : status;
    d_printed : list output;
    d_written : option (list chunk) }.

(** [printif(message, condition)] *)
Definition printif (m : output) (condition : bool) : list output :=
  if condition then [m] else [].

Definition draw (parsed_args : arguments) (svg_header svg_footer : string)
    (w : world) : drawn_outcome :=
  match input_file w with
  | None =>
      {| d_ended := Uncaught OSError; d_printed := [ErrorOpeningInput];
         d_written := None |}
  | Some input_fh =>
      if svg_writable w then
        match loop (a_build parsed_args) (start_state svg_header) input_fh
        with
        | Next st =>
            let st := write [Text svg_footer] st in
            let st := write (map Drawn (polygons st)) st in
            let st := write [Text "</svg>"] st in
            {| d_ended := Returned;
               d_printed :=
                 map Diagnostic (stdout st)
                 ++ printif (Diagnostic MsgCreated) (a_verbose parsed_args);
               d_written := Some (svg_fh st) |}
        | Exit st =>
            {| d_ended := SystemExit;
               d_printed := map Diagnostic (stdout st);
               d_written := Some (svg_fh st) |}
        | Raised e st =>
            {| d_ended := Uncaught e;
               d_printed := map Diagnostic (stdout st);
               d_written := Some (svg_fh st) |}
        end
      else
        {| d_ended := Uncaught OSError; d_printed := [ErrorOpeningOutput];
           d_written := None |}
  end.

(** [convert_svg_to_format], on the text of the svg: what it prints, and
    the bytes it writes, if it writes any, or the exception it raises
    again. *)
Definition convert_svg_to_format (w : world) (svg_text : string)
    (output_format : string) (verbose : bool)
    : list output * result (option string) :=
  let converted :=
    if String.eqb output_format "png" then
      match svg2png w svg_text with
      | Some bytes => Value (Some bytes)
      | None => Error ConverterError
      end
    else if String.eqb output_format "pdf" then
      match svg2pdf w svg_text with
      | Some bytes => Value (Some bytes)
      | None => Error ConverterError
      end
    else Value None in
  match converted with
  | Value bytes => (printif (Converted output_format) verbose, Value bytes)
  | Error e => (printif (FailedConversion output_format) verbose, Error e)
  end.

(** How [run] ends: what has been written to the svg, if it has been
    opened, and the bytes of the converted file, if there are any. *)
Record outcome : Type :=
  { ended : status;
    printed : list output;
    written : option (list chunk);
    converted : option string }.

(** The question about an svg that exists: what is printed, and how the
    run ends if it ends there. *)
Definition confirm (parsed_args : arguments) (w : world)
    : list output * option status :=
  let p := a_prefix parsed_args in
  if svg_exists w && negb (a_force parsed_args) then
    match keyboard w with
    | None => ([AlreadyExists p; Prompt p], Some (Uncaught EOFError))
    | Some answer =>
        let OW := if String.eqb answer "" then "y" else answer in
        if negb (String.eqb (str_lower OW) "y")
        then ([AlreadyExists p; Prompt p; WillExit], Some SystemExit)
        else ([AlreadyExists p; Prompt p; Overwriting p], None)
    end
  else (printif (SavingTo p) (a_verbose parsed_args), None).

(** The format [run] goes on with: [parsed_args.oformat], replaced by
    [png] if it is neither [png] nor [pdf]. *)
Definition known_format (parsed_args : arguments) : bool :=
  String.eqb (a_oformat parsed_args) "png"
  || String.eqb (a_oformat parsed_args) "pdf".

Definition format_of (parsed_args : arguments) : string :=
  if known_format parsed_args then a_oformat parsed_args else "png".

(** [run], after [parse_arguments] and the loading of the template. *)
Definition run (parsed_args : arguments) (svg_header svg_footer : string)
    (w : world) : outcome :=
  let out :=
    if known_format parsed_args then []
    else [NotPngOrPdf (a_oformat parsed_args)] in
  let oformat := format_of parsed_args in
  let out :=
    (out ++ printif (DrawingFrom (a_input parsed_args))
              (a_verbose parsed_args))%list in
  let (asked, stop) := confirm parsed_args w in
  let out := (out ++ asked)%list in
  match stop with
  | Some s =>
      {| ended := s; printed := out; written := None; converted := None |}
  | None =>
      let d := draw parsed_args svg_header svg_footer w in
      let out := (out ++ d_printed d)%list in
      match d_ended d, d_written d with
      | Returned, Some doc =>
          let out :=
            (out ++ printif (Converting (a_prefix parsed_args) oformat)
                      (a_verbose parsed_args))%list in
          let (said, r) :=
            convert_svg_to_format w (render doc) oformat
              (a_verbose parsed_args) in
          match r with
          | Value bytes =>
              {| ended := Returned; printed := out ++ said;
                 written := Some doc; converted := bytes |}
          | Error _ =>
              {| ended := Returned;
                 printed := out ++ said ++ [ConversionFailed];
                 written := Some doc; converted := None |}
          end
      | s, doc =>
          {| ended := s; printed := out; written := doc;
             converted := None |}
      end
  end.

End Cli.

(** A step of the loop of [draw] above, as a step of the loop with an
    optional build. *)
Definition lift_step (s : step) : Cli.step :=
  match s with
  | Next st => Cli.Next st
  | Exit st => Cli.Exit st
  | Raised e st => Cli.Raised (Cli.Builtin e) st
  end.

(** The three documents without shape: none, the header, and the header
    with footer and closing tag. *)
Definition shapeless (svg_header svg_footer : string)
    (doc : option (list chunk)) : Prop :=
  doc = None
  \/ doc = Some [Text svg_header]
  \/ doc = Some [Text svg_header; Text svg_footer; Text "</svg>"].

(** Worlds for the examples: the lines of the input, if it can be
    opened; whether the svg exists; the answer at the keyboard; whether
    the converter works, in which case it gives the text back. *)
Definition world_of (input : option (list string)) (svg_there : bool)
    (answer : option string) (converts : bool) : Cli.world :=
  {| Cli.input_file := input;
     Cli.svg_exists := svg_there;
     Cli.svg_writable := true;
     Cli.keyboard := answer;
     Cli.svg2png := fun text => if converts then Some text else None;
     Cli.svg2pdf := fun text => if converts then Some text else None |}.

Definition example_world : Cli.world :=
  world_of (Some [rectangle_line]) false None true.

(** A line reaches a builder when it is no comment, has seven fields
    with numbers that convert, a copy of 1 or 2 and a known kind. *)
Definition reaches_builder (entry : string) : bool :=
  negb (is_comment entry)
  && match fields entry with
     | [chrm; start; stop; feature; size; col; chrcopy] =>
         match convert start stop feature size chrcopy with
         | Ok n => negb (copy_unclear (n_chrcopy n))
                   && known_kind (n_feature n)
         | Raise _ => false
         end
     | _ => false
     end.

(** The options of the examples, as [parse_arguments] returns them. *)
Definition example_options : Cli.arguments :=
  {| Cli.a_input := "in.bed"; Cli.a_prefix := "out";
     Cli.a_oformat := "png"; Cli.a_force := false;
     Cli.a_verbose := false; Cli.a_build := None |}.

(** The end of a call of [draw] above, as an end of the program. *)
Definition lift_status (s : status) : Cli.status :=
  match s with
  | Returned => Cli.Returned
  | SystemExit => Cli.SystemExit
  | Uncaught e => Cli.Uncaught (Cli.Builtin e)
  end.

(** The converter [run] calls for a format. *)
Definition converter (w : Cli.world) (oformat : string)
    : string -> option string :=
  if String.eqb oformat "pdf" then Cli.svg2pdf w else Cli.svg2png w.

(** ** Further inputs of the examples *)

Definition unknown_line : string :=
  tsv ["chr23"; "1000000"; "2000000"; "0"; "1"; "#FF0000"; "1"].

Definition kind7_line : string :=
  tsv ["1"; "1000000"; "2000000"; "7"; "1"; "#FF0000"; "1"].

Definition kind7_numbers : numbers :=
  {| n_start := 1000000; n_stop := 2000000; n_size := 1; n_feature := 7;
     n_chrcopy := 1 |}.

Definition red_line : string :=
  tsv ["1"; "1000000"; "2000000"; "0"; "1"; "red"; "1"].

Definition point_line : string :=
  tsv ["1"; "1000000"; "1000000"; "0"; "1"; "#FF0000"; "1"].

Definition point_numbers : numbers :=
  {| n_start := 1000000; n_stop := 1000000; n_size := 1; n_feature := 0;
     n_chrcopy := 1 |}.



(** * Properties *)

(** ** The size check *)

(** [0 > size > 1] holds of no double: a number below zero is not above
    one, and the comparisons with a NaN are false. *)
Lemma size_unclear_never (size : float) : size_unclear size = false.
Proof.
  unfold size_unclear. rewrite !ltb_spec.
  change (Prim2SF 0) with (S754_zero false).
  change (Prim2SF 1) with (S754_finite false 4503599627370496 (-52)).
  destruct (Prim2SF size) as [ [|] | [|] | | [|] m e]; reflexivity.
Qed.

(** ** The shape of each builder *)

Ltac bind_inv H :=
  repeat match type of H with
  | bind ?m _ = Ok _ =>
      let E := fresh "E" in destruct m eqn:E; simpl in H; [| discriminate H]
  | (if ?b then _ else _) = Ok _ => destruct b eqn:?; try discriminate H
  end.

Lemma rectangle_not_polygon build chrm start stop size col chrcopy s :
  rectangle build chrm start stop size col chrcopy = Ok s ->
  is_polygon s = false.
Proof. unfold rectangle. intros H. bind_inv H. now inversion H. Qed.

Lemma circle_not_polygon build chrm start stop size col chrcopy s :
  circle build chrm start stop size col chrcopy = Ok s ->
  is_polygon s = false.
Proof. unfold circle. intros H. bind_inv H. now inversion H. Qed.

Lemma line_not_polygon build chrm start stop col chrcopy s :
  line build chrm start stop col chrcopy = Ok s -> is_polygon s = false.
Proof. unfold line. intros H. bind_inv H; now inversion H. Qed.

Lemma triangle_polygon build chrm start stop size col chrcopy s :
  triangle build chrm start stop size col chrcopy = Ok s ->
  is_polygon s = true.
Proof. unfold triangle. intros H. bind_inv H. now inversion H. Qed.

(** ** The body of the loop as an effect on the state *)

Ltac state_eq :=
  intros [? ? ? ?];
  unfold apply_effect, advance, print, write, defer, next_line;
  cbn [svg_fh polygons line_num stdout map];
  rewrite ?app_nil_r, <- ?app_assoc; reflexivity.

Lemma to_file_effect cm r :
  (forall s, r = Ok s -> is_polygon s = false) ->
  exists f, passing f /\
    forall st,
      to_file r (next_line (advance cm false [] [] st)) = apply_effect f st.
Proof.
  intros Hr. destruct r as [s|e].
  - exists (Goes cm true [s] []). split.
    + split; simpl; [rewrite (Hr s eq_refl)|]; auto.
    + state_eq.
  - exists (Throws e cm true). split; [split; exact I | state_eq].
Qed.

Lemma to_polygons_effect cm r :
  (forall s, r = Ok s -> is_polygon s = true) ->
  exists f, passing f /\
    forall st,
      to_polygons r (next_line (advance cm false [] [] st))
      = apply_effect f st.
Proof.
  intros Hr. destruct r as [s|e].
  - exists (Goes cm true [] [s]). split.
    + split; simpl; [rewrite (Hr s eq_refl)|]; auto.
    + state_eq.
  - exists (Throws e cm true). split; [split; exact I | state_eq].
Qed.

Lemma dispatch_effect build cm chrm start stop feature size col chrcopy :
  exists f, passing f /\
    forall st,
      dispatch build (next_line (advance cm false [] [] st)) chrm start stop
        feature size col chrcopy = apply_effect f st.
Proof.
  unfold dispatch.
  destruct (feature =? 0)%Z.
  { apply to_file_effect; intros s; apply rectangle_not_polygon. }
  destruct (feature =? 1)%Z.
  { apply to_file_effect; intros s; apply circle_not_polygon. }
  destruct (feature =? 2)%Z.
  { apply to_polygons_effect; intros s; apply triangle_polygon. }
  destruct (feature =? 3)%Z.
  { apply to_file_effect; intros s; apply line_not_polygon. }
  exists (Goes (fun n => (cm n ++ [MsgFeature feature])%list) true [] []).
  split; [split; simpl; auto | state_eq].
Qed.

Lemma validate_effect build chrm n col :
  exists f, passing f /\
    forall st, validate build st chrm n col = apply_effect f st.
Proof.
  unfold validate. rewrite size_unclear_never.
  destruct (match_color col).
  - destruct (copy_unclear (n_chrcopy n)).
    + exists (Goes (fun k => [MsgCopy (n_chrcopy n) k]) true [] []).
      split; [split; simpl; auto | state_eq].
    + destruct (dispatch_effect build (fun _ => []) chrm (n_start n)
                  (n_stop n) (n_feature n) (n_size n) col (n_chrcopy n))
        as [f [Hf H]].
      exists f. split; [exact Hf |]. intros st. rewrite <- H.
      f_equal. destruct st; unfold advance, next_line; simpl.
      now rewrite !app_nil_r.
  - destruct (copy_unclear (n_chrcopy n)).
    + exists (Goes (fun k => [MsgColor col k; MsgCopy (n_chrcopy n) k])
                true [] []).
      split; [split; simpl; auto | state_eq].
    + destruct (dispatch_effect build (fun k => [MsgColor col k]) chrm
                  (n_start n) (n_stop n) (n_feature n) (n_size n) "#000000"
                  (n_chrcopy n)) as [f [Hf H]].
      exists f. split; [exact Hf |]. intros st. rewrite <- H.
      f_equal. destruct st; unfold advance, next_line, print; simpl.
      now rewrite !app_nil_r.
Qed.

(** The effect of a line does not depend on the state it meets. *)
Lemma process_entry_effect build entry :
  exists f, (sorted_effect f /\ counting_effect (is_comment entry) f) /\
    forall st, process_entry build st entry = apply_effect f st.
Proof.
  unfold process_entry, is_comment.
  destruct (startswith "#" entry).
  { exists (Goes (fun _ => []) false [] []).
    split; [split; simpl; auto | state_eq]. }
  destruct (split TAB (rstrip entry))
    as [|chrm [|start [|stop [|feature [|size [|col [|chrcopy [|x xs]]]]]]]];
    try (exists (Halts (fun k => [MsgColumns k]));
         split; [split; exact I | state_eq]).
  destruct (convert start stop feature size chrcopy) as [n|e].
  - apply validate_effect.
  - exists (Throws e (fun _ => []) false). split; [split; exact I | state_eq].
Qed.

(** ** From a record to its shape *)

(** A line of seven fields that convert, with copy 1 or 2, emits what the
    builder of its kind returns, on the chromosome name without ["chr"],
    with the size as converted and the colour as checked. *)
Lemma entry_shapes_valid build entry chrm start stop feature size col
    chrcopy n :
  is_comment entry = false ->
  fields entry = [chrm; start; stop; feature; size; col; chrcopy] ->
  convert start stop feature size chrcopy = Ok n ->
  n_chrcopy n = 1 \/ n_chrcopy n = 2 ->
  entry_shapes build entry =
  let c := replace_chr chrm in
  if (n_feature n =? 0)%Z then
    shapes_of (rectangle build c (n_start n) (n_stop n) (n_size n)
                 (fill_of col) (n_chrcopy n))
  else if (n_feature n =? 1)%Z then
    shapes_of (circle build c (n_start n) (n_stop n) (n_size n)
                 (fill_of col) (n_chrcopy n))
  else if (n_feature n =? 2)%Z then
    shapes_of (triangle build c (n_start n) (n_stop n) (n_size n)
                 (fill_of col) (n_chrcopy n))
  else if (n_feature n =? 3)%Z then
    shapes_of (line build c (n_start n) (n_stop n) (fill_of col)
                 (n_chrcopy n))
  else [].
Proof.
  intros C F V K.
  assert (U : copy_unclear (n_chrcopy n) = false).
  { unfold copy_unclear. destruct K as [-> | ->]; reflexivity. }
  unfold entry_shapes, process_entry, is_comment, fields in *.
  rewrite C, F, V. unfold validate, fill_of.
  rewrite size_unclear_never, U. unfold dispatch.
  destruct (match_color col);
    destruct (n_feature n =? 0)%Z;
    [ destruct (rectangle _ _ _ _ _ _ _); reflexivity | | 
      destruct (rectangle _ _ _ _ _ _ _); reflexivity | ];
    (destruct (n_feature n =? 1)%Z;
     [ destruct (circle _ _ _ _ _ _ _); reflexivity |]);
    (destruct (n_feature n =? 2)%Z;
     [ destruct (triangle _ _ _ _ _ _ _); reflexivity |]);
    (destruct (n_feature n =? 3)%Z;
     [ destruct (line _ _ _ _ _ _); reflexivity | reflexivity ]).
Qed.

Lemma shapes_of_inv (r : res shape) (s : shape) :
  In s (shapes_of r) -> r = Ok s.
Proof.
  destruct r; simpl; [intros [<- | []]; reflexivity | intros []].
Qed.

(** The triangles are the shapes of the records of kind 2. *)
Lemma entry_shapes_kind build entry chrm start stop feature size col
    chrcopy n s :
  fields entry = [chrm; start; stop; feature; size; col; chrcopy] ->
  convert start stop feature size chrcopy = Ok n ->
  In s (entry_shapes build entry) ->
  is_polygon s = (n_feature n =? 2)%Z.
Proof.
  intros F V.
  destruct (is_comment entry) eqn:C.
  { unfold entry_shapes, process_entry. unfold is_comment in C.
    rewrite C. simpl. intros []. }
  destruct (copy_unclear (n_chrcopy n)) eqn:U.
  { unfold entry_shapes, process_entry, is_comment, fields in *.
    rewrite C, F, V. unfold validate. rewrite size_unclear_never, U.
    destruct (match_color col); simpl; intros []. }
  assert (K : n_chrcopy n = 1 \/ n_chrcopy n = 2).
  { unfold copy_unclear in U.
    destruct (Z.eqb_spec (n_chrcopy n) 1); [now left |].
    destruct (Z.eqb_spec (n_chrcopy n) 2); [now right | discriminate U]. }
  rewrite (entry_shapes_valid build _ _ _ _ _ _ _ _ _ C F V K). cbv zeta.
  destruct (Z.eqb_spec (n_feature n) 0) as [E | _].
  { intros I. apply shapes_of_inv, rectangle_not_polygon in I. now rewrite I, E. }
  destruct (Z.eqb_spec (n_feature n) 1) as [E | _].
  { intros I. apply shapes_of_inv, circle_not_polygon in I. now rewrite I, E. }
  destruct (Z.eqb_spec (n_feature n) 2) as [E | _].
  { intros I. apply shapes_of_inv, triangle_polygon in I. now rewrite I. }
  destruct (Z.eqb_spec (n_feature n) 3) as [E | _].
  { intros I. apply shapes_of_inv, line_not_polygon in I. now rewrite I. }
  intros [].
Qed.

(** A line of seven fields that convert, with copy 1 or 2, is counted and
    handed to the chain of shape kinds with the chromosome name without
    ["chr"], the size as converted and the colour as checked. *)
Lemma process_entry_valid build st entry chrm start stop feature size col
    chrcopy n :
  is_comment entry = false ->
  fields entry = [chrm; start; stop; feature; size; col; chrcopy] ->
  convert start stop feature size chrcopy = Ok n ->
  n_chrcopy n = 1 \/ n_chrcopy n = 2 ->
  process_entry build st entry
  = dispatch build (next_line (checked col st)) (replace_chr chrm)
      (n_start n) (n_stop n) (n_feature n) (n_size n) (fill_of col)
      (n_chrcopy n).
Proof.
  intros C F V K.
  assert (U : copy_unclear (n_chrcopy n) = false).
  { unfold copy_unclear. destruct K as [-> | ->]; reflexivity. }
  unfold process_entry, is_comment, fields in *. rewrite C, F, V.
  unfold validate, checked, fill_of. rewrite size_unclear_never, U.
  destruct (match_color col); reflexivity.
Qed.

Lemma getitem_raise {V : Type} (d : dict V) (k : string) (e : exn) :
  getitem d k = Raise e -> e = KeyError k.
Proof.
  induction d as [|[k' v] d IH]; simpl.
  - intros H. now injection H as <-.
  - destruct (String.eqb k k'); [discriminate | exact IH].
Qed.

(** Every builder begins with the scaling of the start: when that raises,
    so does the builder. *)
Lemma builders_raise build chrm start stop size col chrcopy e :
  scaled build chrm start = Raise e ->
  rectangle build chrm start stop size col chrcopy = Raise e
  /\ circle build chrm start stop size col chrcopy = Raise e
  /\ triangle build chrm start stop size col chrcopy = Raise e
  /\ line build chrm start stop col chrcopy = Raise e.
Proof.
  intros H. unfold rectangle, circle, triangle, line. rewrite H.
  repeat split; reflexivity.
Qed.

Lemma dispatch_raise build st chrm start stop feature size col chrcopy e :
  known_kind feature = true ->
  scaled build chrm start = Raise e ->
  dispatch build st chrm start stop feature size col chrcopy = Raised e st.
Proof.
  intros K H.
  destruct (builders_raise build chrm start stop size col chrcopy e H)
    as (R & C & T & L).
  unfold dispatch, known_kind in *. rewrite R, C, T, L.
  destruct (feature =? 0)%Z; [reflexivity |].
  destruct (feature =? 1)%Z; [reflexivity |].
  destruct (feature =? 2)%Z; [reflexivity |].
  destruct (feature =? 3)%Z; [reflexivity | discriminate K].
Qed.

(** ** What the loop accumulates *)

Lemma drawn_map (l : list shape) : drawn (map Drawn l) = l.
Proof. induction l as [|s l IH]; simpl; congruence. Qed.

Lemma base_shapes_app (l1 l2 : list shape) :
  base_shapes (l1 ++ l2) = (base_shapes l1 ++ base_shapes l2)%list.
Proof. apply filter_app. Qed.

Lemma overlay_shapes_app (l1 l2 : list shape) :
  overlay_shapes (l1 ++ l2) = (overlay_shapes l1 ++ overlay_shapes l2)%list.
Proof. apply filter_app. Qed.

Lemma filter_all {A : Type} (p : A -> bool) (l : list A) :
  forallb p l = true -> filter p l = l.
Proof.
  induction l as [|a l IH]; simpl; [reflexivity |].
  intros H. apply andb_true_iff in H as [Ha Hl]. rewrite Ha, IH; auto.
Qed.

Lemma filter_none {A : Type} (p q : A -> bool) (l : list A) :
  (forall a, p a = true -> q a = false) ->
  forallb p l = true -> filter q l = [].
Proof.
  intros Hpq. induction l as [|a l IH]; simpl; [reflexivity |].
  intros H. apply andb_true_iff in H as [Ha Hl]. rewrite (Hpq a Ha). auto.
Qed.

Lemma sorted_split (base overlay : list shape) :
  forallb (fun s => negb (is_polygon s)) base = true ->
  forallb is_polygon overlay = true ->
  base_shapes (base ++ overlay) = base
  /\ overlay_shapes (base ++ overlay) = overlay.
Proof.
  intros Hb Ho. rewrite base_shapes_app, overlay_shapes_app.
  unfold base_shapes, overlay_shapes.
  rewrite (filter_all _ base Hb), (filter_all _ overlay Ho).
  rewrite (filter_none is_polygon (fun s => negb (is_polygon s)) overlay),
          (filter_none (fun s => negb (is_polygon s)) is_polygon base);
    auto using app_nil_r.
  - intros s Hs. now destruct (is_polygon s).
  - intros s Hs. now rewrite Hs.
Qed.

(** A line that passes appends its shapes, each to its bucket, and counts
    for one unless it is a comment. *)
Lemma process_entry_next build st entry st' :
  process_entry build st entry = Next st' ->
  svg_fh st' = (svg_fh st ++ map Drawn (base_shapes (entry_shapes build entry)))%list
  /\ polygons st' = (polygons st ++ overlay_shapes (entry_shapes build entry))%list
  /\ line_num st' = line_num st + (if is_comment entry then 0 else 1).
Proof.
  destruct (process_entry_effect build entry) as [f [[Hs Hc] H]].
  unfold entry_shapes. rewrite !H.
  destruct f as [msgs counted base overlay| |]; simpl; try discriminate.
  intros E. injection E as <-. destruct Hs as [Hb Ho]. simpl in Hc.
  cbn [svg_fh polygons line_num advance app]. rewrite drawn_map.
  destruct (sorted_split base overlay Hb Ho) as [-> ->].
  repeat split. subst counted. destruct (is_comment entry); simpl; lia.
Qed.

Lemma loop_app build (pre rest : list string) st :
  loop build st (pre ++ rest) =
  match loop build st pre with
  | Next st' => loop build st' rest
  | stop => stop
  end.
Proof.
  revert st. induction pre as [|e pre IH]; intros st; simpl; [reflexivity |].
  destruct (process_entry build st e); auto.
Qed.

Lemma loop_next build (input_fh : list string) st st' :
  loop build st input_fh = Next st' ->
  svg_fh st' = (svg_fh st ++ map Drawn (base_shapes (emitted build input_fh)))%list
  /\ polygons st' = (polygons st ++ overlay_shapes (emitted build input_fh))%list
  /\ line_num st' = line_num st + Z.of_nat (List.length (counted_lines input_fh)).
Proof.
  revert st. induction input_fh as [|e l IH]; intros st; simpl.
  - intros E. injection E as <-. rewrite !app_nil_r. repeat split; lia.
  - destruct (process_entry build st e) as [st1| |] eqn:E1; try discriminate.
    intros E. apply process_entry_next in E1 as (F1 & P1 & L1).
    apply IH in E as (F & P & L).
    unfold emitted in *. simpl flat_map.
    rewrite base_shapes_app, overlay_shapes_app, map_app, !app_assoc.
    rewrite <- F1, <- P1. repeat split; auto.
    rewrite L, L1. unfold is_comment in *.
    destruct (startswith "#" e); simpl; lia.
Qed.

(** Whatever way the loop ends, the file holds what it held and shapes
    that are no triangles. *)
Lemma loop_file build (input_fh : list string) st :
  exists shapes,
    svg_fh (state_of (loop build st input_fh)) = (svg_fh st ++ map Drawn shapes)%list
    /\ forallb (fun s => negb (is_polygon s)) shapes = true.
Proof.
  revert st. induction input_fh as [|e l IH]; intros st; simpl.
  - exists []. simpl. now rewrite app_nil_r.
  - destruct (process_entry_effect build e) as [f [[Hs _] H]]. rewrite H.
    destruct f as [msgs counted base overlay| |]; simpl.
    + destruct (IH (advance msgs counted base overlay st)) as [shapes [F N]].
      exists (base ++ shapes)%list. rewrite F. simpl.
      rewrite map_app, app_assoc, forallb_app. destruct Hs as [-> _]. auto.
    + exists []. simpl. auto.
    + exists []. simpl. auto.
Qed.

(** ** The text of a document *)

Lemma string_app_assoc (a b c : string) :
  ((a ++ b) ++ c = a ++ (b ++ c))%string.
Proof. induction a as [|x a IH]; simpl; congruence. Qed.

Lemma render_app (d1 d2 : list chunk) :
  render (d1 ++ d2) = (render d1 ++ render d2)%string.
Proof.
  induction d1 as [|c d1 IH]; simpl; [reflexivity |].
  unfold render in *. simpl. now rewrite IH, string_app_assoc.
Qed.

Lemma render_text (s : string) (d : list chunk) :
  render (Text s :: d) = (s ++ render d)%string.
Proof. reflexivity. Qed.

(** ** How [draw] ends *)

Lemma draw_returned parsed_args svg_header svg_footer input_fh st :
  loop (ns_build parsed_args) (start_state svg_header) input_fh = Next st ->
  ended (draw parsed_args svg_header svg_footer input_fh) = Returned
  /\ document (draw parsed_args svg_header svg_footer input_fh)
     = (svg_fh st ++ Text svg_footer :: map Drawn (polygons st)
          ++ [Text "</svg>"])%list.
Proof.
  intros E. unfold draw. rewrite E. split; [reflexivity |].
  unfold printif. destruct (ns_verbose parsed_args); simpl;
    now rewrite <- !app_assoc.
Qed.

Lemma draw_stopped parsed_args svg_header svg_footer input_fh :
  (forall st,
     loop (ns_build parsed_args) (start_state svg_header) input_fh <> Next st) ->
  let r := loop (ns_build parsed_args) (start_state svg_header) input_fh in
  ended (draw parsed_args svg_header svg_footer input_fh) <> Returned
  /\ document (draw parsed_args svg_header svg_footer input_fh)
     = svg_fh (state_of r)
  /\ printed (draw parsed_args svg_header svg_footer input_fh)
     = stdout (state_of r).
Proof.
  intros N r. unfold draw. fold r.
  destruct r as [st|st|e st] eqn:E; simpl.
  - destruct (N st). exact E.
  - repeat split; discriminate.
  - repeat split; discriminate.
Qed.

Lemma ended_returned parsed_args svg_header svg_footer input_fh :
  ended (draw parsed_args svg_header svg_footer input_fh) = Returned ->
  exists st,
    loop (ns_build parsed_args) (start_state svg_header) input_fh = Next st.
Proof.
  unfold draw.
  destruct (loop (ns_build parsed_args) (start_state svg_header) input_fh);
    simpl; try discriminate; eauto.
Qed.

(** ** Order inside a layered document *)

Lemma nth_error_drawn (l : list shape) (i : nat) (s : shape) :
  nth_error (map Drawn l) i = Some (Drawn s) -> In s l.
Proof.
  intros H. apply nth_error_In in H. apply in_map_iff in H as [x [E I]].
  now injection E as <-.
Qed.

Lemma layered_order (base overlay : list shape) (h f c : string)
    (i j : nat) (s t : shape) :
  forallb (fun s => negb (is_polygon s)) base = true ->
  forallb is_polygon overlay = true ->
  let doc := (Text h :: map Drawn base ++ Text f :: map Drawn overlay
                ++ [Text c])%list in
  nth_error doc i = Some (Drawn s) ->
  nth_error doc j = Some (Drawn t) ->
  is_polygon s = true -> is_polygon t = false -> (j < i)%nat.
Proof.
  intros Hb Ho doc Hi Hj Ps Pt.
  rewrite forallb_forall in Hb, Ho.
  assert (Hlow : forall k u, nth_error doc k = Some (Drawn u) ->
            (k <= List.length base)%nat -> is_polygon u = false).
  { intros k u Hk Le. destruct k as [|k]; [discriminate |].
    simpl in Hk. rewrite nth_error_app1 in Hk
      by (rewrite length_map; lia).
    apply nth_error_drawn in Hk. apply Hb in Hk.
    now destruct (is_polygon u). }
  assert (Hhigh : forall k u, nth_error doc k = Some (Drawn u) ->
            (List.length base < k)%nat -> is_polygon u = true).
  { intros k u Hk Lt. destruct k as [|k]; [lia |].
    simpl in Hk. rewrite nth_error_app2 in Hk
      by (rewrite length_map; lia).
    rewrite length_map in Hk.
    destruct (k - List.length base)%nat as [|m] eqn:Em; [discriminate |].
    simpl in Hk.
    destruct (Nat.lt_ge_cases m (List.length (map Drawn overlay))) as [L|G].
    - rewrite nth_error_app1 in Hk by exact L.
      apply nth_error_drawn in Hk. now apply Ho.
    - rewrite nth_error_app2 in Hk by exact G.
      destruct (m - List.length (map Drawn overlay))%nat as [|[|q]];
        discriminate. }
  destruct (Nat.lt_ge_cases (List.length base) i) as [Li|Gi].
  - destruct (Nat.lt_ge_cases (List.length base) j) as [Lj|Gj]; [| lia].
    rewrite (Hhigh j t Hj Lj) in Pt. discriminate.
  - rewrite (Hlow i s Hi Gi) in Ps. discriminate.
Qed.

(** ** C1 *)

Lemma layered_footer (base overlay : list shape) (h f c : string) :
  nth_error (Text h :: map Drawn base ++ Text f :: map Drawn overlay
               ++ [Text c])%list (S (List.length base))
  = Some (Text f).
Proof.
  simpl. rewrite nth_error_app2 by (rewrite length_map; lia).
  rewrite length_map, Nat.sub_diag. reflexivity.
Qed.

Lemma layered_base_place (base overlay : list shape) (h f c : string)
    (s : shape) :
  In s base ->
  exists i,
    nth_error (Text h :: map Drawn base ++ Text f :: map Drawn overlay
                 ++ [Text c])%list i = Some (Drawn s)
    /\ (i < S (List.length base))%nat.
Proof.
  intros I. apply (in_map Drawn) in I. apply In_nth_error in I as [k K].
  assert (L : (k < List.length (map Drawn base))%nat)
    by (apply nth_error_Some; congruence).
  exists (S k). split.
  - simpl. rewrite nth_error_app1 by exact L. exact K.
  - rewrite length_map in L. lia.
Qed.

Lemma layered_overlay_place (base overlay : list shape) (h f c : string)
    (s : shape) :
  In s overlay ->
  exists i,
    nth_error (Text h :: map Drawn base ++ Text f :: map Drawn overlay
                 ++ [Text c])%list i = Some (Drawn s)
    /\ (S (List.length base) < i)%nat.
Proof.
  intros I. apply (in_map Drawn) in I. apply In_nth_error in I as [k K].
  assert (L : (k < List.length (map Drawn overlay))%nat)
    by (apply nth_error_Some; congruence).
  exists (S (List.length base + S k)). split; [| lia].
  simpl. rewrite nth_error_app2 by (rewrite length_map; lia).
  rewrite length_map.
  replace (List.length base + S k - List.length base)%nat with (S k) by lia.
  simpl. rewrite nth_error_app1 by exact L. exact K.
Qed.

(** In a loop that goes through, every line has let the loop go on. *)
Lemma loop_line_passes build (input_fh : list string) st st' entry :
  loop build st input_fh = Next st' ->
  In entry input_fh ->
  exists s s', process_entry build s entry = Next s'.
Proof.
  revert st. induction input_fh as [|e l IH]; intros st; simpl; [tauto |].
  destruct (process_entry build st e) as [st1| |] eqn:E; try discriminate.
  intros L [<- | I]; eauto.
Qed.

(** A record that lets the loop go on has got its shape from the builder
    of its kind. *)
Lemma dispatch_next build st chrm start stop feature size col chrcopy st' :
  dispatch build st chrm start stop feature size col chrcopy = Next st' ->
  (feature = 0 ->
   exists s, rectangle build chrm start stop size col chrcopy = Ok s)
  /\ (feature = 1 ->
      exists s, circle build chrm start stop size col chrcopy = Ok s)
  /\ (feature = 2 ->
      exists s, triangle build chrm start stop size col chrcopy = Ok s)
  /\ (feature = 3 ->
      exists s, line build chrm start stop col chrcopy = Ok s).
Proof.
  unfold dispatch, to_file, to_polygons. intros D.
  repeat split; intros ->; cbn [Z.eqb Pos.eqb] in D.
  - destruct (rectangle _ _ _ _ _ _ _); [eauto | discriminate D].
  - destruct (circle _ _ _ _ _ _ _); [eauto | discriminate D].
  - destruct (triangle _ _ _ _ _ _ _); [eauto | discriminate D].
  - destruct (line _ _ _ _ _ _); [eauto | discriminate D].
Qed.

(** What a line emits is what the builders return for it. *)
Lemma entry_shapes_record build entry :
  entry_shapes build entry = record_shapes build entry.
Proof.
  unfold record_shapes.
  destruct (is_comment entry) eqn:C.
  { unfold entry_shapes, process_entry. unfold is_comment in C.
    now rewrite C. }
  destruct (fields entry)
    as [|chrm [|start [|stop [|feature [|size [|col [|chrcopy [|x xs]]]]]]]]
    eqn:F;
    try (unfold entry_shapes, process_entry, is_comment, fields in *;
         rewrite C, F; reflexivity).
  destruct (convert start stop feature size chrcopy) as [n|e] eqn:V.
  2: { unfold entry_shapes, process_entry, is_comment, fields in *.
       now rewrite C, F, V. }
  destruct (copy_unclear (n_chrcopy n)) eqn:U.
  { unfold entry_shapes, process_entry, is_comment, fields in *.
    rewrite C, F, V. unfold validate. rewrite size_unclear_never, U.
    now destruct (match_color col). }
  assert (K : n_chrcopy n = 1 \/ n_chrcopy n = 2).
  { unfold copy_unclear in U.
    destruct (Z.eqb_spec (n_chrcopy n) 1); [now left |].
    destruct (Z.eqb_spec (n_chrcopy n) 2); [now right | discriminate U]. }
  exact (entry_shapes_valid build _ _ _ _ _ _ _ _ _ C F V K).
Qed.

(** C1. In every finalized document the triangles, the shapes of the
    records of kind 2, come after all rectangles, circles and lines,
    whatever the order of the input: the file holds the header, the shapes
    that are no triangles in input order, the footer, the triangles in
    input order and the closing tag.  The same holds of its text, and any
    triangle stands at a later place than any other shape.  Every record
    of the input is in the document: the triangle that the builder
    returns for a record of kind 2 stands behind the footer, and the
    rectangle, the circle or the line that the builder returns for a
    record of kind 0, 1 or 3 stands before it; and the shapes of the
    document in their two groups are, line by line in the order of the
    input, the shapes that the builders return for the lines. *)
Theorem triangles_after_base_shapes (parsed_args : Namespace)
    (svg_header svg_footer : string) (input_fh : list string) :
  ended (draw parsed_args svg_header svg_footer input_fh) = Returned ->
  let build := ns_build parsed_args in
  let shapes := emitted build input_fh in
  let doc := document (draw parsed_args svg_header svg_footer input_fh) in
  let footer := S (List.length (base_shapes shapes)) in
  doc = (Text svg_header :: map Drawn (base_shapes shapes)
           ++ Text svg_footer :: map Drawn (overlay_shapes shapes)
           ++ [Text "</svg>"])%list
  /\ render doc
     = (svg_header ++ render (map Drawn (base_shapes shapes)) ++ svg_footer
          ++ render (map Drawn (overlay_shapes shapes)) ++ "</svg>")%string
  /\ (forall i j s t,
        nth_error doc i = Some (Drawn s) ->
        nth_error doc j = Some (Drawn t) ->
        is_polygon s = true -> is_polygon t = false -> (j < i)%nat)
  /\ (forall entry chrm start stop feature size col chrcopy n s,
        fields entry = [chrm; start; stop; feature; size; col; chrcopy] ->
        convert start stop feature size chrcopy = Ok n ->
        In s (entry_shapes build entry) ->
        is_polygon s = (n_feature n =? 2)%Z)
  /\ nth_error doc footer = Some (Text svg_footer)
  /\ (forall entry chrm start stop feature size col chrcopy n,
        In entry input_fh ->
        is_comment entry = false ->
        fields entry = [chrm; start; stop; feature; size; col; chrcopy] ->
        convert start stop feature size chrcopy = Ok n ->
        n_chrcopy n = 1 \/ n_chrcopy n = 2 ->
        let c := replace_chr chrm in
        (n_feature n = 2 ->
         exists s i,
           triangle build c (n_start n) (n_stop n) (n_size n) (fill_of col)
             (n_chrcopy n) = Ok s
           /\ nth_error doc i = Some (Drawn s) /\ (footer < i)%nat)
        /\ (n_feature n = 0 ->
            exists s i,
              rectangle build c (n_start n) (n_stop n) (n_size n)
                (fill_of col) (n_chrcopy n) = Ok s
              /\ nth_error doc i = Some (Drawn s) /\ (i < footer)%nat)
        /\ (n_feature n = 1 ->
            exists s i,
              circle build c (n_start n) (n_stop n) (n_size n) (fill_of col)
                (n_chrcopy n) = Ok s
              /\ nth_error doc i = Some (Drawn s) /\ (i < footer)%nat)
        /\ (n_feature n = 3 ->
            exists s i,
              line build c (n_start n) (n_stop n) (fill_of col)
                (n_chrcopy n) = Ok s
              /\ nth_error doc i = Some (Drawn s) /\ (i < footer)%nat))
  /\ shapes = flat_map (record_shapes build) input_fh.
Proof.
  intros R build shapes doc footer.
  destruct (ended_returned _ _ _ _ R) as [st E].
  destruct (draw_returned parsed_args svg_header svg_footer input_fh st E)
    as [_ D].
  pose proof E as L.
  apply loop_next in E as (F & P & _). simpl in F, P.
  assert (Hdoc : doc = (Text svg_header :: map Drawn (base_shapes shapes)
           ++ Text svg_footer :: map Drawn (overlay_shapes shapes)
           ++ [Text "</svg>"])%list).
  { unfold doc. rewrite D, F, P. reflexivity. }
  split; [exact Hdoc |]. split; [| split; [| split; [| split; [| split]]]].
  - rewrite Hdoc.
    rewrite render_text, render_app, render_text, render_app.
    reflexivity.
  - intros i j s t. rewrite Hdoc. apply layered_order.
    + unfold base_shapes. apply forallb_forall. intros x Hx.
      now apply filter_In in Hx.
    + unfold overlay_shapes. apply forallb_forall. intros x Hx.
      now apply filter_In in Hx.
  - intros. eapply entry_shapes_kind; eassumption.
  - rewrite Hdoc. apply layered_footer.
  - intros entry chrm start stop feature size col chrcopy n I C Fd V K c.
    destruct (loop_line_passes _ _ _ _ _ L I) as (s0 & s1 & N).
    fold build in N.
    rewrite (process_entry_valid build s0 _ _ _ _ _ _ _ _ _ C Fd V K) in N.
    apply dispatch_next in N as (N0 & N1 & N2 & N3). fold c in N0, N1, N2, N3.
    pose proof (entry_shapes_valid build _ _ _ _ _ _ _ _ _ C Fd V K) as S.
    cbv zeta in S. fold c in S.
    assert (Base : forall s, entry_shapes build entry = [s] ->
              is_polygon s = false ->
              exists i, nth_error doc i = Some (Drawn s) /\ (i < footer)%nat).
    { intros s Es Ps. rewrite Hdoc. apply layered_base_place.
      unfold base_shapes. apply filter_In. split; [| now rewrite Ps].
      unfold shapes, emitted. apply in_flat_map. exists entry.
      split; [exact I |]. rewrite Es. now left. }
    assert (Over : forall s, entry_shapes build entry = [s] ->
              is_polygon s = true ->
              exists i, nth_error doc i = Some (Drawn s) /\ (footer < i)%nat).
    { intros s Es Ps. rewrite Hdoc. apply layered_overlay_place.
      unfold overlay_shapes. apply filter_In. split; [| exact Ps].
      unfold shapes, emitted. apply in_flat_map. exists entry.
      split; [exact I |]. rewrite Es. now left. }
    repeat split; intros Kd; rewrite Kd in S; cbn [Z.eqb Pos.eqb] in S.
    + destruct (N2 Kd) as [s Hs]. rewrite Hs in S.
      destruct (Over s S (triangle_polygon _ _ _ _ _ _ _ _ Hs)) as [i Hi].
      exists s, i. auto.
    + destruct (N0 Kd) as [s Hs]. rewrite Hs in S.
      destruct (Base s S (rectangle_not_polygon _ _ _ _ _ _ _ _ Hs))
        as [i Hi].
      exists s, i. auto.
    + destruct (N1 Kd) as [s Hs]. rewrite Hs in S.
      destruct (Base s S (circle_not_polygon _ _ _ _ _ _ _ _ Hs)) as [i Hi].
      exists s, i. auto.
    + destruct (N3 Kd) as [s Hs]. rewrite Hs in S.
      destruct (Base s S (line_not_polygon _ _ _ _ _ _ _ Hs)) as [i Hi].
      exists s, i. auto.
  - unfold shapes, emitted. apply flat_map_ext. intros entry.
    apply entry_shapes_record.
Qed.

(** ** Lines that stop the run *)

Lemma process_entry_columns build st entry :
  is_comment entry = false ->
  List.length (fields entry) <> 7%nat ->
  process_entry build st entry
  = Exit (print (MsgColumns (line_num st)) st).
Proof.
  unfold is_comment, fields, process_entry. intros -> L.
  destruct (split TAB (rstrip entry))
    as [|chrm [|start [|stop [|feature [|size [|col [|chrcopy [|x xs]]]]]]]];
    try reflexivity.
  now destruct L.
Qed.

Lemma convert_value_error start stop feature size chrcopy :
  int start = None \/ int stop = None \/ float_ size = None
  \/ int feature = None \/ int chrcopy = None ->
  convert start stop feature size chrcopy = Raise ValueError.
Proof.
  unfold convert. intros H.
  destruct (int start), (int stop), (float_ size), (int feature),
    (int chrcopy); simpl; try reflexivity;
    repeat (destruct H as [H|H]; try discriminate H); discriminate H.
Qed.

Lemma process_entry_value_error build st entry
    chrm start stop feature size col chrcopy :
  is_comment entry = false ->
  fields entry = [chrm; start; stop; feature; size; col; chrcopy] ->
  int start = None \/ int stop = None \/ float_ size = None
  \/ int feature = None \/ int chrcopy = None ->
  process_entry build st entry = Raised ValueError st.
Proof.
  unfold is_comment, fields, process_entry. intros -> -> H.
  now rewrite (convert_value_error _ _ _ _ _ H).
Qed.

(** A run whose loop stops at [entry], after [pre] has passed. *)
Lemma loop_stops_at build st pre entry post :
  (forall st', exists r,
      process_entry build st' entry = r /\ forall st'', r <> Next st'') ->
  forall st'', loop build st (pre ++ entry :: post) <> Next st''.
Proof.
  intros H st''. rewrite loop_app.
  destruct (loop build st pre) as [st1| |]; try discriminate.
  simpl. destruct (H st1) as [r [-> N]].
  destruct r; try discriminate. destruct (N st0). reflexivity.
Qed.

(** ** C5 *)

(** C5, as amended. When a line that is no comment has not exactly seven
    fields (the fields of the line without its trailing blanks, separated
    by tabs), the run never returns: no footer, no triangle and no closing
    tag is written.  The output file has been opened all the same, and
    holds the header and the shapes written so far.  When the lines before
    it have passed, the run exits at that line, the last message names the
    line counter, one more than the number of earlier lines that are no
    comments, and the file holds the header and the rectangles, circles
    and lines of the earlier lines. *)
Theorem wrong_field_count_aborts (parsed_args : Namespace)
    (svg_header svg_footer : string) (pre : list string) (entry : string)
    (post : list string) :
  is_comment entry = false ->
  List.length (fields entry) <> 7%nat ->
  let run := draw parsed_args svg_header svg_footer (pre ++ entry :: post) in
  (ended run <> Returned
   /\ exists shapes,
        document run = Text svg_header :: map Drawn shapes
        /\ forallb (fun s => negb (is_polygon s)) shapes = true)
  /\ (forall st,
        loop (ns_build parsed_args) (start_state svg_header) pre = Next st ->
        run = {| ended := SystemExit;
                 document :=
                   Text svg_header
                   :: map Drawn
                        (base_shapes (emitted (ns_build parsed_args) pre));
                 printed :=
                   stdout st
                   ++ [MsgColumns
                         (1 + Z.of_nat (List.length (counted_lines pre)))] |}).
Proof.
  intros C L run. split.
  - assert (N : forall st'',
               loop (ns_build parsed_args) (start_state svg_header)
                 (pre ++ entry :: post) <> Next st'').
    { apply loop_stops_at. intros st'. eexists. split.
      - apply process_entry_columns; assumption.
      - discriminate. }
    destruct (draw_stopped parsed_args svg_header svg_footer _ N)
      as (E & D & _).
    split; [exact E |].
    destruct (loop_file (ns_build parsed_args) (pre ++ entry :: post)
                (start_state svg_header)) as [shapes [F P]].
    exists shapes. split; [| exact P]. unfold run. now rewrite D, F.
  - intros st E. unfold run, draw. rewrite loop_app, E. simpl.
    rewrite process_entry_columns by assumption.
    apply loop_next in E as (F & _ & N). simpl in F, N.
    simpl. now rewrite F, N.
Qed.

(** The output file of a run that exits is not empty: after a rectangle
    and a line of six fields it holds the header and the rectangle. *)
Lemma wrong_field_count_counterexample :
  ended (draw example_args "<svg>" "</g>" [rectangle_line; six_fields_line])
  = SystemExit
  /\ document (draw example_args "<svg>" "</g>"
                 [rectangle_line; six_fields_line])
     = Text "<svg>" :: map Drawn (emitted "hg37" [rectangle_line])
  /\ emitted "hg37" [rectangle_line] <> []
  /\ document (draw example_args "<svg>" "</g>" [six_fields_line])
     = [Text "<svg>"]
  /\ document (draw example_args "<svg>" "</g>" [six_fields_line]) <> [].
Proof.
  repeat split; vm_compute; try reflexivity; discriminate.
Qed.

(** ** C10 *)

(** C10. When a line that is no comment has seven fields and one of
    start, end, shape kind and copy is no integer literal, or the size is
    no float literal, the body of the loop raises [ValueError] before it
    prints, counts or draws anything: the state is the one it met.  The
    exception is not caught: the run never returns and, when the lines
    before it have passed, ends with the exception and the file as those
    lines left it, whatever lines follow. *)
Theorem malformed_number_aborts (parsed_args : Namespace)
    (svg_header svg_footer : string) (pre : list string) (entry : string)
    (post : list string) (chrm start stop feature size col chrcopy : string) :
  is_comment entry = false ->
  fields entry = [chrm; start; stop; feature; size; col; chrcopy] ->
  int start = None \/ int stop = None \/ float_ size = None
  \/ int feature = None \/ int chrcopy = None ->
  let run := draw parsed_args svg_header svg_footer (pre ++ entry :: post) in
  (forall build st, process_entry build st entry = Raised ValueError st)
  /\ ended run <> Returned
  /\ (forall st,
        loop (ns_build parsed_args) (start_state svg_header) pre = Next st ->
        run = {| ended := Uncaught ValueError;
                 document :=
                   Text svg_header
                   :: map Drawn
                        (base_shapes (emitted (ns_build parsed_args) pre));
                 printed := stdout st |}).
Proof.
  intros C F H run.
  assert (P : forall build st,
             process_entry build st entry = Raised ValueError st).
  { intros build st. eapply process_entry_value_error; eassumption. }
  split; [exact P |]. split.
  - assert (N : forall st'',
               loop (ns_build parsed_args) (start_state svg_header)
                 (pre ++ entry :: post) <> Next st'').
    { apply loop_stops_at. intros st'. eexists. split; [apply P |].
      discriminate. }
    now destruct (draw_stopped parsed_args svg_header svg_footer _ N).
  - intros st E. unfold run, draw. rewrite loop_app, E. simpl.
    rewrite P. apply loop_next in E as (D & _ & _). simpl in D.
    simpl. now rewrite D.
Qed.

(** ** C6 *)

(** C6, as amended. A line whose fields convert and whose copy, the
    integer of its last field, is neither 1 nor 2 passes: the file and
    the deferred triangles are as before, no shape is emitted, the line
    counter is one more, the last message is the one about the copy
    (after the one about the colour, if the colour is unclear), and the
    loop goes on with the lines that follow.  A line whose last field is
    no integer literal does not get that far: the conversion raises
    [ValueError], nothing is printed or counted, and the loop ends there
    whatever lines follow. *)
Theorem invalid_copy_skips_record (build : string) (st : state)
    (entry : string) (rest : list string)
    (chrm start stop feature size col chrcopy : string) :
  is_comment entry = false ->
  fields entry = [chrm; start; stop; feature; size; col; chrcopy] ->
  (forall n,
     convert start stop feature size chrcopy = Ok n ->
     n_chrcopy n <> 1 -> n_chrcopy n <> 2 ->
     let st' :=
       {| svg_fh := svg_fh st;
          polygons := polygons st;
          line_num := line_num st + 1;
          stdout :=
            stdout st
            ++ (if match_color col then [] else [MsgColor col (line_num st)])
            ++ [MsgCopy (n_chrcopy n) (line_num st)] |} in
     int chrcopy = Some (n_chrcopy n)
     /\ process_entry build st entry = Next st'
     /\ entry_shapes build entry = []
     /\ loop build st (entry :: rest) = loop build st' rest)
  /\ (int chrcopy = None ->
      process_entry build st entry = Raised ValueError st
      /\ entry_shapes build entry = []
      /\ loop build st (entry :: rest) = Raised ValueError st).
Proof.
  intros C F. split.
  - intros n V N1 N2 st'.
    assert (U : copy_unclear (n_chrcopy n) = true).
    { unfold copy_unclear.
      destruct (Z.eqb_spec (n_chrcopy n) 1), (Z.eqb_spec (n_chrcopy n) 2);
        simpl; congruence. }
    assert (P : forall s,
      process_entry build s entry =
      Next {| svg_fh := svg_fh s;
         polygons := polygons s;
         line_num := line_num s + 1;
         stdout :=
           stdout s
           ++ (if match_color col then [] else [MsgColor col (line_num s)])
           ++ [MsgCopy (n_chrcopy n) (line_num s)] |}).
    { intros s. unfold process_entry. unfold is_comment in C. rewrite C.
      unfold fields in F. rewrite F, V. unfold validate.
      rewrite size_unclear_never, U.
      destruct (match_color col); destruct s; simpl;
        unfold next_line, print; simpl; rewrite <- ?app_assoc; reflexivity. }
    split.
    { revert V. unfold convert, conv.
      destruct (int start), (int stop), (float_ size), (int feature),
        (int chrcopy); simpl; try discriminate.
      now intros [= <-]. }
    split; [apply P |]. split.
    + unfold entry_shapes. rewrite P. reflexivity.
    + simpl. now rewrite P.
  - intros H.
    assert (P : forall s, process_entry build s entry = Raised ValueError s).
    { intros s. eapply process_entry_value_error; eauto 6. }
    split; [apply P |]. split.
    + unfold entry_shapes. now rewrite P.
    + simpl. now rewrite P.
Qed.

(** A copy that is no integer halts the run: after a line with the copy
    [x], or with the copy [1.0], the run ends with [ValueError], nothing
    is printed, and the rectangle of the next line is not drawn. *)
Lemma invalid_copy_counterexample :
  draw example_args "<svg>" "</g>"
    [tsv ["1"; "1000000"; "2000000"; "0"; "1"; "#FF0000"; "x"];
     rectangle_line]
  = {| ended := Uncaught ValueError; document := [Text "<svg>"];
       printed := [] |}
  /\ draw example_args "<svg>" "</g>"
       [tsv ["1"; "1000000"; "2000000"; "0"; "1"; "#FF0000"; "1.0"];
        rectangle_line]
     = {| ended := Uncaught ValueError; document := [Text "<svg>"];
          printed := [] |}
  /\ emitted "hg37" [rectangle_line] <> [].
Proof.
  repeat split; vm_compute; try reflexivity; discriminate.
Qed.

(** ** C8 *)

(** C8. A line that begins with ['#'] passes and leaves the state as it
    is, whatever its fields: no message, no shape, the same line counter.
    A run on an input is the run on the input without that line. *)
Theorem comment_is_skipped (entry : string) :
  is_comment entry = true ->
  (forall build st, process_entry build st entry = Next st)
  /\ (forall build, entry_shapes build entry = [])
  /\ (forall parsed_args svg_header svg_footer pre post,
        draw parsed_args svg_header svg_footer (pre ++ entry :: post)
        = draw parsed_args svg_header svg_footer (pre ++ post)).
Proof.
  intros C.
  assert (P : forall build st, process_entry build st entry = Next st).
  { intros build st. unfold process_entry. unfold is_comment in C.
    now rewrite C. }
  split; [exact P |]. split.
  - intros build. unfold entry_shapes. now rewrite P.
  - intros. unfold draw. rewrite !loop_app.
    destruct (loop (ns_build parsed_args) (start_state svg_header) pre);
      simpl; try reflexivity.
    now rewrite P.
Qed.

(** ** C9 *)

(** C9. Two runs of [draw] on the same lines, with the same header, the
    same footer and the same genome build, end the same way and leave the
    same document, chunk for chunk and byte for byte, whatever else
    differs in their arguments. *)
Theorem same_input_same_document (args1 args2 : Namespace)
    (svg_header svg_footer : string) (input_fh : list string) :
  ns_build args1 = ns_build args2 ->
  let run1 := draw args1 svg_header svg_footer input_fh in
  let run2 := draw args2 svg_header svg_footer input_fh in
  ended run1 = ended run2
  /\ document run1 = document run2
  /\ render (document run1) = render (document run2).
Proof.
  intros B run1 run2.
  assert (D : ended run1 = ended run2 /\ document run1 = document run2).
  { unfold run1, run2, draw. rewrite B.
    destruct (loop (ns_build args2) (start_state svg_header) input_fh);
      simpl; auto.
    unfold printif.
    destruct (ns_verbose args1), (ns_verbose args2); simpl; auto. }
  destruct D as [E D]. repeat split; auto. now rewrite D.
Qed.

(** ** The tables *)

Lemma float_of_int_to_float (z : Z) (f : float) :
  float_of_int z = Ok f -> f = to_float z.
Proof.
  unfold float_of_int, to_float.
  destruct (round_binary64 z 0 false); intros H; now inversion H.
Qed.

Ltac table_cases H k :=
  repeat (cbn [getitem] in H;
          match type of H with
          | (if String.eqb k ?key then _ else _) = Ok _ =>
              destruct (String.eqb k key);
              [injection H as <-; try (split; vm_compute; reflexivity) |]
          end);
  try discriminate H.

(** The numbers of the geometry table are doubles or small integers. *)
Lemma geometry_numbers (chrm : string) (g : geometry) :
  getitem COORDINATES chrm = Ok g ->
  as_float (cx g) = Ok (num_float (cx g))
  /\ as_float (cy g) = Ok (num_float (cy g)).
Proof. unfold COORDINATES. intros H. table_cases H chrm. Qed.

(** The lengths of the chromosomes are doubles other than zero. *)
Lemma total_length_float (build : string) (sizes : dict Z) (chrm : string)
    (total : Z) :
  getitem CHROM_SIZES build = Ok sizes ->
  getitem sizes chrm = Ok total ->
  float_of_int total = Ok (to_float total)
  /\ (to_float total =? 0)%float = false.
Proof.
  unfold CHROM_SIZES. intros B H. cbn [getitem] in B.
  destruct (String.eqb build "hg37").
  { injection B as <-. unfold hg37 in H. table_cases H chrm. }
  cbn [getitem] in B. destruct (String.eqb build "hg38").
  { injection B as <-. unfold hg38 in H. table_cases H chrm. }
  discriminate B.
Qed.

Section Usable.

Variables (build chrm : string) (g : geometry) (sizes : dict Z) (total : Z).
Hypothesis Hg : getitem COORDINATES chrm = Ok g.
Hypothesis Hsizes : getitem CHROM_SIZES build = Ok sizes.
Hypothesis Htotal : getitem sizes chrm = Ok total.

Lemma scaled_usable (pos : Z) (p : float) :
  float_of_int pos = Ok p ->
  scaled build chrm pos = Ok (offset_y g total p).
Proof.
  intros Hp. unfold scaled. rewrite Hg. cbn [bind]. rewrite Hp. cbn [bind].
  rewrite Hsizes. cbn [bind]. rewrite Htotal. cbn [bind].
  destruct (total_length_float _ _ _ _ Hsizes Htotal) as [Ht Hz].
  rewrite Ht. cbn [bind]. now rewrite Hz.
Qed.

Variables (start stop : Z) (ps pe : float).
Hypothesis Hstart : float_of_int start = Ok ps.
Hypothesis Hstop : float_of_int stop = Ok pe.

Lemma rectangle_usable (size : float) (col : string) (chrcopy : Z) :
  rectangle build chrm start stop size col chrcopy
  = Ok (Rect (if (chrcopy =? 1)%Z
              then Float (num_float (cx g) - width g * size / 2)
              else cx g)
          (num_float (cy g) + offset_y g total ps) col
          (width g * size / 2)
          (offset_y g total pe - offset_y g total ps)).
Proof.
  unfold rectangle.
  rewrite (scaled_usable start ps Hstart), (scaled_usable stop pe Hstop).
  cbn [bind]. rewrite Hg. cbn [bind].
  destruct (geometry_numbers _ _ Hg) as [Hx Hy]. rewrite Hx. cbn [bind].
  destruct (chrcopy =? 1)%Z; cbn [bind]; rewrite ?Hx, Hy; reflexivity.
Qed.




End Usable.

(** At full size the rounding of the subtraction is undone by the
    addition of the width, on every chromosome. *)
Lemma full_size_right_edge (chrm : string) (g : geometry) :
  getitem COORDINATES chrm = Ok g ->
  (right_edge (Float (num_float (cx g) - width g * 1 / 2)) (width g * 1 / 2)
   =? num_float (cx g))%float = true.
Proof.
  unfold COORDINATES. intros H.
  repeat (cbn [getitem] in H;
          match type of H with
          | (if String.eqb chrm ?key then _ else _) = Ok _ =>
              destruct (String.eqb chrm key);
              [injection H as <-; vm_compute; reflexivity |]
          end).
  discriminate H.
Qed.

(** ** Usable records *)

Section UsableRecord.

Variables (build entry : string).
Variables (chrm start stop feature size col chrcopy : string) (n : numbers).
Variables (g : geometry) (sizes : dict Z) (total : Z) (ps pe : float).

(** The line is a record: seven fields that convert, with copy 1 or 2. *)
Hypothesis Hcomment : is_comment entry = false.
Hypothesis Hfields :
  fields entry = [chrm; start; stop; feature; size; col; chrcopy].
Hypothesis Hconvert : convert start stop feature size chrcopy = Ok n.
Hypothesis Hcopy : n_chrcopy n = 1 \/ n_chrcopy n = 2.

(** The record is usable: its chromosome is a key of both tables under
    the build, and start and end are in the range of a double. *)
Hypothesis Hgeometry : getitem COORDINATES (replace_chr chrm) = Ok g.
Hypothesis Hbuild : getitem CHROM_SIZES build = Ok sizes.
Hypothesis Htotal : getitem sizes (replace_chr chrm) = Ok total.
Hypothesis Hstart : float_of_int (n_start n) = Ok ps.
Hypothesis Hstop : float_of_int (n_stop n) = Ok pe.


(** C3, as amended. For a usable rectangle record with copy 1 or 2 the
    width is [chrom_width * size / 2]; the x-origin is the double
    [x_center - width] when the copy is 1 and [x_center] itself when the
    copy is 2.  The left edge of a copy 2 rectangle is the centre of the
    chromosome; the right edge of a copy 1 rectangle, x-origin plus width
    in doubles, is the centre when the size is 1. *)
Theorem rectangle_geometry :
  n_feature n = 0 ->
  let x_center := num_float (cx g) in
  let w := (width g * n_size n / 2)%float in
  exists x y h,
    entry_shapes build entry = [Rect x y (fill_of col) w h]
    /\ (n_chrcopy n = 1 -> x = Float (x_center - w))
    /\ (n_chrcopy n = 2 -> x = cx g /\ left_edge x = x_center)
    /\ (n_chrcopy n = 1 -> n_size n = 1%float ->
        (right_edge x w =? x_center)%float = true).
Proof.
  intros K x_center w.
  rewrite (entry_shapes_valid build _ _ _ _ _ _ _ _ _
             Hcomment Hfields Hconvert Hcopy).
  cbv zeta. rewrite K. cbn [Z.eqb].
  rewrite (rectangle_usable _ _ _ _ _ Hgeometry Hbuild Htotal _ _ _ _
             Hstart Hstop).
  do 3 eexists. split; [reflexivity |]. split; [| split].
  - intros ->. reflexivity.
  - intros ->. split; reflexivity.
  - intros -> E. unfold w. rewrite E.
    exact (full_size_right_edge _ g Hgeometry).
Qed.

End UsableRecord.

(** The right edge of a copy 1 rectangle is not always the centre of the
    chromosome: on chromosome 4 with size 0.8 the x-origin is the double
    [655.6 - 47.44], and adding the width to it gives a double above
    [655.6]. *)
Lemma rectangle_right_edge_counterexample :
  exists x y w h g,
    document (draw {| ns_build := "hg37"; ns_verbose := false |} "" ""
                [tsv ["chr4"; "1000000"; "2000000"; "0"; "0.8"; "#FF0000";
                      "1"]])
    = [Text ""; Drawn (Rect x y "#FF0000" w h); Text ""; Text "</svg>"]
    /\ getitem COORDINATES "4" = Ok g
    /\ (right_edge x w =? num_float (cx g))%float = false
    /\ (num_float (cx g) <? right_edge x w)%float = true.
Proof.
  do 5 eexists. split; [vm_compute; reflexivity |].
  split; [reflexivity |]. split; vm_compute; reflexivity.
Qed.


(** ** C4 *)

(** C4, on the code. The check [0 > size > 1] is false of every double,
    so no size is ever replaced and the message about the size is never
    printed: a line with size 2 gives a rectangle of width [118.6 * 2 / 2]
    and a line with size -0.5 one of width [118.6 * -0.5 / 2], and nothing
    is printed. *)
Theorem size_check_never_fires :
  (forall size, size_unclear size = false)
  /\ (exists x y h,
        draw {| ns_build := "hg37"; ns_verbose := false |} "" ""
          [tsv ["1"; "1000000"; "2000000"; "0"; "2"; "#FF0000"; "1"]]
        = {| ended := Returned;
             document := [Text "";
                          Drawn (Rect x y "#FF0000" (118.6 * 2 / 2) h);
                          Text ""; Text "</svg>"];
             printed := [] |})
  /\ (exists x y h,
        draw {| ns_build := "hg37"; ns_verbose := false |} "" ""
          [tsv ["1"; "1000000"; "2000000"; "0"; "-0.5"; "#FF0000"; "1"]]
        = {| ended := Returned;
             document := [Text "";
                          Drawn (Rect x y "#FF0000" (118.6 * (-0.5) / 2) h);
                          Text ""; Text "</svg>"];
             printed := [] |}).
Proof.
  split; [exact size_unclear_never |].
  split; do 3 eexists; vm_compute; reflexivity.
Qed.

(** ** C7 *)

Lemma startswith_chr_inside (c : ascii) (a b : string) :
  startswith "chr" (String c (a ++ "chr" ++ b)) = true ->
  startswith "chr" (String c (a ++ "ch")) = true.
Proof.
  destruct a as [|x [|y a]]; simpl.
  - rewrite andb_false_r. discriminate.
  - rewrite !andb_false_r. discriminate.
  - auto.
Qed.

Lemma replace_chr_absent (s : string) :
  occurs_chr s = false -> replace_chr s = s.
Proof.
  induction s as [|c s IH]; [reflexivity |].
  intros H. cbn [occurs_chr] in H. apply orb_false_iff in H as [H1 H2].
  cbn [replace_chr]. rewrite H1. now rewrite IH.
Qed.

Lemma replace_chr_first (a b : string) :
  occurs_chr (a ++ "ch") = false ->
  replace_chr (a ++ "chr" ++ b) = (a ++ replace_chr b)%string.
Proof.
  induction a as [|c a IH]; [reflexivity |].
  intros H. change (occurs_chr (String c (a ++ "ch")) = false) in H.
  cbn [occurs_chr] in H. apply orb_false_iff in H as [H1 H2].
  change (replace_chr (String c (a ++ "chr" ++ b))
          = String c (a ++ replace_chr b)).
  cbn [replace_chr].
  destruct (startswith "chr" (String c (a ++ "chr" ++ b))) eqn:E.
  - apply startswith_chr_inside in E. congruence.
  - now rewrite IH.
Qed.

(** C7, as amended. The normalizer removes every occurrence of ["chr"]
    from the chromosome field, scanning from the left: a leading ["chr"]
    is stripped and the scan goes on behind it, an occurrence further
    right is removed as well, and a name in which ["chr"] does not occur
    is unchanged.  The name so obtained is what every record goes on
    with, whatever its kind: the checks and the builders get it and not
    the field, two lines whose names become the same name are treated
    alike, the shape of a record of kind 0, 1, 2 or 3 is the one its
    builder returns for that name, and a name that is no key of the
    geometry table raises [KeyError] with that name. *)
Theorem chromosome_name_drops_every_chr :
  (forall s, replace_chr ("chr" ++ s) = replace_chr s)
  /\ (forall a b,
        occurs_chr (a ++ "ch") = false ->
        replace_chr (a ++ "chr" ++ b) = (a ++ replace_chr b)%string)
  /\ (forall s, occurs_chr s = false -> replace_chr s = s)
  /\ (forall build st entry chrm start stop feature size col chrcopy n,
        is_comment entry = false ->
        fields entry = [chrm; start; stop; feature; size; col; chrcopy] ->
        convert start stop feature size chrcopy = Ok n ->
        process_entry build st entry
        = validate build st (replace_chr chrm) n col)
  /\ (forall build st entry entry' chrm chrm' start stop feature size col
             chrcopy,
        is_comment entry = false ->
        is_comment entry' = false ->
        fields entry = [chrm; start; stop; feature; size; col; chrcopy] ->
        fields entry' = [chrm'; start; stop; feature; size; col; chrcopy] ->
        replace_chr chrm = replace_chr chrm' ->
        process_entry build st entry = process_entry build st entry')
  /\ (forall build entry chrm start stop feature size col chrcopy n,
        is_comment entry = false ->
        fields entry = [chrm; start; stop; feature; size; col; chrcopy] ->
        convert start stop feature size chrcopy = Ok n ->
        n_chrcopy n = 1 \/ n_chrcopy n = 2 ->
        let c := replace_chr chrm in
        (n_feature n = 0 ->
         entry_shapes build entry
         = shapes_of (rectangle build c (n_start n) (n_stop n) (n_size n)
                        (fill_of col) (n_chrcopy n)))
        /\ (n_feature n = 1 ->
            entry_shapes build entry
            = shapes_of (circle build c (n_start n) (n_stop n) (n_size n)
                           (fill_of col) (n_chrcopy n)))
        /\ (n_feature n = 2 ->
            entry_shapes build entry
            = shapes_of (triangle build c (n_start n) (n_stop n) (n_size n)
                           (fill_of col) (n_chrcopy n)))
        /\ (n_feature n = 3 ->
            entry_shapes build entry
            = shapes_of (line build c (n_start n) (n_stop n) (fill_of col)
                           (n_chrcopy n)))
        /\ (known_kind (n_feature n) = true ->
            forall e, getitem COORDINATES c = Raise e ->
            forall st, exists st',
              process_entry build st entry = Raised (KeyError c) st')).
Proof.
  split; [reflexivity |].
  split; [exact replace_chr_first |].
  split; [exact replace_chr_absent |].
  split; [| split].
  - intros build st entry chrm start stop feature size col chrcopy n C F V.
    unfold process_entry, is_comment, fields in *. now rewrite C, F, V.
  - intros build st entry entry' chrm chrm' start stop feature size col
      chrcopy C C' F F' E.
    unfold process_entry, is_comment, fields in *.
    now rewrite C, C', F, F', E.
  - intros build entry chrm start stop feature size col chrcopy n C F V K c.
    pose proof (entry_shapes_valid build _ _ _ _ _ _ _ _ _ C F V K) as S.
    cbv zeta in S. fold c in S.
    repeat split.
    + intros E. rewrite E in S. exact S.
    + intros E. rewrite E in S. exact S.
    + intros E. rewrite E in S. exact S.
    + intros E. rewrite E in S. exact S.
    + intros Kd e G st. apply getitem_raise in G as G'. subst e.
      rewrite (process_entry_valid build st _ _ _ _ _ _ _ _ _ C F V K).
      eexists. apply dispatch_raise; [exact Kd |].
      unfold scaled. fold c. now rewrite G.
Qed.

(** A ["chr"] that is no prefix is removed too: the name ["Xchr"] becomes
    ["X"], and its line is drawn on chromosome X. *)
Lemma chromosome_name_counterexample :
  replace_chr "Xchr" <> strip_leading_chr "Xchr"
  /\ replace_chr "Xchr" = "X"
  /\ entry_shapes "hg37"
       (tsv ["Xchr"; "1000000"; "2000000"; "3"; "1"; "#FF0000"; "2"])
     = entry_shapes "hg37"
         (tsv ["X"; "1000000"; "2000000"; "3"; "1"; "#FF0000"; "2"])
  /\ entry_shapes "hg37"
       (tsv ["Xchr"; "1000000"; "2000000"; "3"; "1"; "#FF0000"; "2"])
     <> [].
Proof.
  split; [vm_compute; discriminate |].
  split; [reflexivity |].
  split; vm_compute; [reflexivity | discriminate].
Qed.

(** ** The theorems at work *)

Lemma triangles_after_base_shapes_witness :
  ended (draw example_args "<svg>" "</g>" [triangle_line; rectangle_line])
  = Returned
  /\ document (draw example_args "<svg>" "</g>"
                 [triangle_line; rectangle_line])
     = (Text "<svg>"
        :: map Drawn (base_shapes
                        (emitted "hg37" [triangle_line; rectangle_line]))
        ++ Text "</g>"
        :: map Drawn (overlay_shapes
                        (emitted "hg37" [triangle_line; rectangle_line]))
        ++ [Text "</svg>"])%list.
Proof.
  assert (R : ended (draw example_args "<svg>" "</g>"
                       [triangle_line; rectangle_line]) = Returned)
    by (vm_compute; reflexivity).
  exact (conj R (proj1 (triangles_after_base_shapes example_args "<svg>"
                          "</g>" [triangle_line; rectangle_line] R))).
Defined.


Lemma rectangle_geometry_witness :
  is_comment rectangle_line = false
  /\ fields rectangle_line
     = ["1"; "1000000"; "2000000"; "0"; "1"; "#FF0000"; "1"]
  /\ convert "1000000" "2000000" "0" "1" "1" = Ok rectangle_numbers
  /\ (n_chrcopy rectangle_numbers = 1 \/ n_chrcopy rectangle_numbers = 2)
  /\ getitem COORDINATES (replace_chr "1") = Ok chr1
  /\ getitem CHROM_SIZES "hg37" = Ok hg37
  /\ getitem hg37 (replace_chr "1") = Ok 249250621
  /\ float_of_int (n_start rectangle_numbers) = Ok 1000000%float
  /\ float_of_int (n_stop rectangle_numbers) = Ok 2000000%float
  /\ n_feature rectangle_numbers = 0
  /\ exists x y h,
       entry_shapes "hg37" rectangle_line
       = [Rect x y "#FF0000" (118.6 * 1 / 2) h]
       /\ (1 = 1 -> x = Float (128.6 - 118.6 * 1 / 2))
       /\ (1 = 2 -> x = Float 128.6 /\ left_edge x = 128.6%float)
       /\ (1 = 1 -> 1%float = 1%float ->
           (right_edge x (118.6 * 1 / 2) =? 128.6)%float = true).
Proof.
  assert (H1 : is_comment rectangle_line = false) by reflexivity.
  assert (H2 : fields rectangle_line
               = ["1"; "1000000"; "2000000"; "0"; "1"; "#FF0000"; "1"])
    by reflexivity.
  assert (H3 : convert "1000000" "2000000" "0" "1" "1" = Ok rectangle_numbers)
    by (vm_compute; reflexivity).
  assert (H4 : n_chrcopy rectangle_numbers = 1
               \/ n_chrcopy rectangle_numbers = 2)
    by (left; reflexivity).
  assert (H5 : getitem COORDINATES (replace_chr "1") = Ok chr1)
    by reflexivity.
  assert (H6 : getitem CHROM_SIZES "hg37" = Ok hg37) by reflexivity.
  assert (H7 : getitem hg37 (replace_chr "1") = Ok 249250621) by reflexivity.
  assert (H8 : float_of_int (n_start rectangle_numbers) = Ok 1000000%float)
    by (vm_compute; reflexivity).
  assert (H9 : float_of_int (n_stop rectangle_numbers) = Ok 2000000%float)
    by (vm_compute; reflexivity).
  assert (H10 : n_feature rectangle_numbers = 0) by reflexivity.
  repeat (split; [assumption |]).
  exact (rectangle_geometry "hg37" rectangle_line
           "1" "1000000" "2000000" "0" "1" "#FF0000" "1"
           rectangle_numbers chr1 hg37 249250621 1000000 2000000
           H1 H2 H3 H4 H5 H6 H7 H8 H9 H10).
Defined.

Lemma wrong_field_count_aborts_witness :
  is_comment six_fields_line = false
  /\ List.length (fields six_fields_line) <> 7%nat
  /\ loop "hg37" (start_state "<svg>") [rectangle_line]
     = Next (write [Drawn (Rect (Float (128.6 - 118.6 * 1 / 2))
                             (1.5 + 1000000 * 1654.5 / 249250621) "#FF0000"
                             (118.6 * 1 / 2)
                             (2000000 * 1654.5 / 249250621
                              - 1000000 * 1654.5 / 249250621))]
               (next_line (start_state "<svg>")))
  /\ draw example_args "<svg>" "</g>"
       ([rectangle_line] ++ six_fields_line :: [triangle_line])
     = {| ended := SystemExit;
          document :=
            Text "<svg>"
            :: map Drawn (base_shapes (emitted "hg37" [rectangle_line]));
          printed := [MsgColumns 2] |}.
Proof.
  assert (H1 : is_comment six_fields_line = false) by reflexivity.
  assert (H2 : List.length (fields six_fields_line) <> 7%nat)
    by (vm_compute; discriminate).
  assert (H3 : loop "hg37" (start_state "<svg>") [rectangle_line]
     = Next (write [Drawn (Rect (Float (128.6 - 118.6 * 1 / 2))
                             (1.5 + 1000000 * 1654.5 / 249250621) "#FF0000"
                             (118.6 * 1 / 2)
                             (2000000 * 1654.5 / 249250621
                              - 1000000 * 1654.5 / 249250621))]
               (next_line (start_state "<svg>"))))
    by (vm_compute; reflexivity).
  repeat (split; [assumption |]).
  exact (proj2 (wrong_field_count_aborts example_args "<svg>" "</g>"
                  [rectangle_line] six_fields_line [triangle_line] H1 H2)
           _ H3).
Defined.

Lemma malformed_number_aborts_witness :
  is_comment bad_start_line = false
  /\ fields bad_start_line
     = ["1"; "1.5e6"; "2000000"; "0"; "1"; "#FF0000"; "1"]
  /\ int "1.5e6" = None
  /\ process_entry "hg37" (start_state "<svg>") bad_start_line
     = Raised ValueError (start_state "<svg>").
Proof.
  assert (H1 : is_comment bad_start_line = false) by reflexivity.
  assert (H2 : fields bad_start_line
               = ["1"; "1.5e6"; "2000000"; "0"; "1"; "#FF0000"; "1"])
    by reflexivity.
  assert (H3 : int "1.5e6" = None) by reflexivity.
  repeat (split; [assumption |]).
  exact (proj1 (malformed_number_aborts example_args "<svg>" "</g>" []
                  bad_start_line [] _ _ _ _ _ _ _ H1 H2 (or_introl H3))
           "hg37" (start_state "<svg>")).
Defined.

Lemma invalid_copy_skips_record_witness :
  is_comment copy3_line = false
  /\ fields copy3_line = ["1"; "1000000"; "2000000"; "0"; "1"; "#FF0000"; "3"]
  /\ convert "1000000" "2000000" "0" "1" "3" = Ok copy3_numbers
  /\ process_entry "hg37" (start_state "<svg>") copy3_line
     = Next {| svg_fh := [Text "<svg>"]; polygons := []; line_num := 1 + 1;
               stdout := [] ++ [] ++ [MsgCopy 3 1] |}
  /\ loop "hg37" (start_state "<svg>") [copy3_line; rectangle_line]
     = loop "hg37"
         {| svg_fh := [Text "<svg>"]; polygons := []; line_num := 1 + 1;
            stdout := [] ++ [] ++ [MsgCopy 3 1] |}
         [rectangle_line].
Proof.
  assert (H1 : is_comment copy3_line = false) by reflexivity.
  assert (H2 : fields copy3_line
               = ["1"; "1000000"; "2000000"; "0"; "1"; "#FF0000"; "3"])
    by reflexivity.
  assert (H3 : convert "1000000" "2000000" "0" "1" "3" = Ok copy3_numbers)
    by (vm_compute; reflexivity).
  assert (N1 : n_chrcopy copy3_numbers <> 1) by (simpl; lia).
  assert (N2 : n_chrcopy copy3_numbers <> 2) by (simpl; lia).
  repeat (split; [assumption |]).
  pose proof (proj1 (invalid_copy_skips_record "hg37" (start_state "<svg>")
                       copy3_line [rectangle_line] _ _ _ _ _ _ _ H1 H2)
                copy3_numbers H3 N1 N2) as W.
  exact (conj (proj1 (proj2 W)) (proj2 (proj2 (proj2 W)))).
Defined.

Lemma comment_is_skipped_witness :
  is_comment "# only one field" = true
  /\ process_entry "hg37" (start_state "<svg>") "# only one field"
     = Next (start_state "<svg>").
Proof.
  assert (H1 : is_comment "# only one field" = true) by reflexivity.
  exact (conj H1 (proj1 (comment_is_skipped "# only one field" H1)
                    "hg37" (start_state "<svg>"))).
Defined.

Lemma same_input_same_document_witness :
  ns_build example_args = ns_build verbose_args
  /\ document (draw example_args "<svg>" "</g>"
                 [triangle_line; rectangle_line])
     = document (draw verbose_args "<svg>" "</g>"
                   [triangle_line; rectangle_line]).
Proof.
  assert (H1 : ns_build example_args = ns_build verbose_args)
    by reflexivity.
  exact (conj H1 (proj1 (proj2 (same_input_same_document example_args
                                  verbose_args "<svg>" "</g>"
                                  [triangle_line; rectangle_line] H1)))).
Defined.

Lemma chromosome_name_drops_every_chr_witness :
  occurs_chr ("X" ++ "ch") = false
  /\ replace_chr ("X" ++ "chr" ++ "") = ("X" ++ replace_chr "")%string.
Proof.
  assert (H1 : occurs_chr ("X" ++ "ch") = false) by reflexivity.
  exact (conj H1 (proj1 (proj2 chromosome_name_drops_every_chr) "X" "" H1)).
Defined.

(** The scenario of the specification: the line
    [1 1000000 2000000 0 1 #FF0000 1] under build hg37 is written as a
    rectangle of width 59.3 at [x = 69.3], [y = 8.13...], of height
    [6.63...]. *)
Example scenario_rectangle :
  render (document (draw example_args "" "" [rectangle_line]))
  = ("<rect x=" ++ DQ ++ "69.3" ++ DQ ++ " y=" ++ DQ ++ "8.137897203072566"
     ++ DQ ++ " fill=" ++ DQ ++ "#FF0000" ++ DQ ++ " width=" ++ DQ ++ "59.3"
     ++ DQ ++ "             height=" ++ DQ ++ "6.637897203072566" ++ DQ
     ++ "/>" ++ NL ++ "</svg>")%string.
Proof. vm_compute. reflexivity. Qed.

(** A triangle that comes first in the input is written last. *)
Example scenario_triangle_first :
  render (document (draw example_args "<svg>" "</g>"
                      [triangle_line; rectangle_line]))
  = ("<svg>"
     ++ "<rect x=" ++ DQ ++ "69.3" ++ DQ ++ " y=" ++ DQ ++ "8.137897203072566"
     ++ DQ ++ " fill=" ++ DQ ++ "#FF0000" ++ DQ ++ " width=" ++ DQ ++ "59.3"
     ++ DQ ++ "             height=" ++ DQ ++ "6.637897203072566" ++ DQ
     ++ "/>" ++ NL
     ++ "</g>"
     ++ "<polygon fill=" ++ DQ ++ "#00FF00" ++ DQ ++ " points=" ++ DQ
     ++ "379.8,69.31473216853236             360.7,80.06473216853236"
     ++ " 379.8,90.81473216853236" ++ DQ ++ "/>" ++ NL
     ++ "</svg>")%string.
Proof. vm_compute. reflexivity. Qed.

(** A line of six fields after a line with copy 3: what is printed. *)
Example scenario_messages :
  map render_message
    (printed (draw example_args "" "" [copy3_line; six_fields_line]))
  = ["Feature chromosome copy, 3, on line 1             unclear. Skipping...";
     "Line number 2 does not have 7 columns"].
Proof. vm_compute. reflexivity. Qed.

(** * Further properties of [draw] *)

(** ** A record on its way to a builder *)

(** A run whose loop meets an exception at [entry], after [pre] has
    passed. *)
Lemma draw_raised parsed_args svg_header svg_footer pre entry post st e st' :
  loop (ns_build parsed_args) (start_state svg_header) pre = Next st ->
  process_entry (ns_build parsed_args) st entry = Raised e st' ->
  draw parsed_args svg_header svg_footer (pre ++ entry :: post)
  = {| ended := Uncaught e; document := svg_fh st'; printed := stdout st' |}.
Proof.
  intros L P. unfold draw. rewrite loop_app, L. simpl. now rewrite P.
Qed.

Section Record7.

Variables (entry chrm start stop feature size col chrcopy : string).
Variable n : numbers.

Hypothesis Hcomment : is_comment entry = false.
Hypothesis Hfields :
  fields entry = [chrm; start; stop; feature; size; col; chrcopy].
Hypothesis Hconvert : convert start stop feature size chrcopy = Ok n.

(** Lookup errors are fatal.  A record with copy 1 or 2 and a kind from 0
    to 3 whose chromosome name, once ["chr"] is removed, is no key of the
    geometry table raises [KeyError] with that name: the line has been
    counted and its colour checked, no shape is written, and the run ends
    there with the exception and without footer. *)
Theorem unknown_chromosome_aborts (parsed_args : Namespace)
    (svg_header svg_footer : string) (pre post : list string) (st : state) :
  n_chrcopy n = 1 \/ n_chrcopy n = 2 ->
  known_kind (n_feature n) = true ->
  getitem COORDINATES (replace_chr chrm)
  = Raise (KeyError (replace_chr chrm)) ->
  loop (ns_build parsed_args) (start_state svg_header) pre = Next st ->
  process_entry (ns_build parsed_args) st entry
  = Raised (KeyError (replace_chr chrm)) (next_line (checked col st))
  /\ draw parsed_args svg_header svg_footer (pre ++ entry :: post)
     = {| ended := Uncaught (KeyError (replace_chr chrm));
          document :=
            Text svg_header
            :: map Drawn (base_shapes (emitted (ns_build parsed_args) pre));
          printed := stdout (checked col st) |}.
Proof.
  intros K F G L.
  assert (P : process_entry (ns_build parsed_args) st entry
              = Raised (KeyError (replace_chr chrm))
                  (next_line (checked col st))).
  { rewrite (process_entry_valid _ st _ _ _ _ _ _ _ _ _
               Hcomment Hfields Hconvert K).
    apply dispatch_raise; [exact F |]. unfold scaled. now rewrite G. }
  split; [exact P |].
  rewrite (draw_raised _ _ _ _ _ _ _ _ _ L P).
  apply loop_next in L as (D & _ & _). simpl in D.
  f_equal. unfold checked.
  destruct (match_color col); simpl; exact D.
Qed.

(** A build that is no key of the table of lengths is found out only when
    a record reaches a builder: a record with copy 1 or 2, a kind from 0
    to 3, a known chromosome and a start in the range of a double raises
    [KeyError] with the name of the build. *)
Theorem unknown_build_aborts (build : string) (st : state) (g : geometry)
    (ps : float) (rest : list string) :
  n_chrcopy n = 1 \/ n_chrcopy n = 2 ->
  known_kind (n_feature n) = true ->
  getitem COORDINATES (replace_chr chrm) = Ok g ->
  float_of_int (n_start n) = Ok ps ->
  getitem CHROM_SIZES build = Raise (KeyError build) ->
  process_entry build st entry
  = Raised (KeyError build) (next_line (checked col st))
  /\ loop build st (entry :: rest)
     = Raised (KeyError build) (next_line (checked col st)).
Proof.
  intros K F G S B.
  assert (P : process_entry build st entry
              = Raised (KeyError build) (next_line (checked col st))).
  { rewrite (process_entry_valid _ st _ _ _ _ _ _ _ _ _
               Hcomment Hfields Hconvert K).
    apply dispatch_raise; [exact F |].
    unfold scaled. rewrite G. cbn [bind]. rewrite S. cbn [bind].
    now rewrite B. }
  split; [exact P |]. simpl. now rewrite P.
Qed.


(** A record with copy 1 or 2 whose kind is none of 0, 1, 2 and 3 is
    skipped after it has been counted: the message about the kind is
    printed, no shape is emitted, file and triangles stay as they are and
    the loop goes on. *)
Theorem unknown_kind_skips_record (build : string) (st : state)
    (rest : list string) :
  n_chrcopy n = 1 \/ n_chrcopy n = 2 ->
  known_kind (n_feature n) = false ->
  let st' := print (MsgFeature (n_feature n)) (next_line (checked col st)) in
  process_entry build st entry = Next st'
  /\ svg_fh st' = svg_fh st
  /\ polygons st' = polygons st
  /\ line_num st' = line_num st + 1
  /\ entry_shapes build entry = []
  /\ loop build st (entry :: rest) = loop build st' rest.
Proof.
  intros K F st'.
  assert (P : forall s, process_entry build s entry
                = Next (print (MsgFeature (n_feature n))
                          (next_line (checked col s)))).
  { intros s.
    rewrite (process_entry_valid _ s _ _ _ _ _ _ _ _ _
               Hcomment Hfields Hconvert K).
    unfold dispatch, known_kind in *.
    destruct (n_feature n =? 0)%Z; [discriminate F |].
    destruct (n_feature n =? 1)%Z; [discriminate F |].
    destruct (n_feature n =? 2)%Z; [discriminate F |].
    destruct (n_feature n =? 3)%Z; [discriminate F | reflexivity]. }
  split; [apply P |].
  unfold st', checked. repeat split.
  - destruct (match_color col); reflexivity.
  - destruct (match_color col); reflexivity.
  - destruct (match_color col); reflexivity.
  - unfold entry_shapes. rewrite P. unfold checked.
    destruct (match_color col); reflexivity.
  - simpl. now rewrite P.
Qed.

End Record7.

(** ** Colour and messages of a record *)

Lemma builders_colour build chrm start stop size col chrcopy s :
  rectangle build chrm start stop size col chrcopy = Ok s
  \/ circle build chrm start stop size col chrcopy = Ok s
  \/ triangle build chrm start stop size col chrcopy = Ok s
  \/ line build chrm start stop col chrcopy = Ok s ->
  colour_of s = col.
Proof.
  unfold rectangle, circle, triangle, line.
  intros [H | [H | [H | H]]]; bind_inv H; now inversion H.
Qed.

Lemma dispatch_stdout build st chrm start stop feature size col chrcopy :
  stdout (state_of (dispatch build st chrm start stop feature size col
                      chrcopy))
  = (stdout st
     ++ (if known_kind feature then [] else [MsgFeature feature]))%list.
Proof.
  unfold dispatch, known_kind, to_file, to_polygons.
  destruct (feature =? 0)%Z;
    [destruct (rectangle _ _ _ _ _ _ _); simpl; now rewrite app_nil_r |].
  destruct (feature =? 1)%Z;
    [destruct (circle _ _ _ _ _ _ _); simpl; now rewrite app_nil_r |].
  destruct (feature =? 2)%Z;
    [destruct (triangle _ _ _ _ _ _ _); simpl; now rewrite app_nil_r |].
  destruct (feature =? 3)%Z;
    [destruct (line _ _ _ _ _ _); simpl; now rewrite app_nil_r |].
  reflexivity.
Qed.

(** The colour is checked before the copy and the kind, and never stops
    the record.  A line of seven fields that convert prints the message
    about its colour, if the colour is unclear, then the message about
    its copy or about its kind, if one of them is unclear, and nothing
    else; a shape it emits carries the colour of the line if that is
    clear, and ["#000000"] otherwise. *)
Theorem colour_is_checked_not_fatal (build : string) (st : state)
    (entry chrm start stop feature size col chrcopy : string) (n : numbers) :
  is_comment entry = false ->
  fields entry = [chrm; start; stop; feature; size; col; chrcopy] ->
  convert start stop feature size chrcopy = Ok n ->
  stdout (state_of (process_entry build st entry))
  = (stdout st
     ++ (if match_color col then [] else [MsgColor col (line_num st)])
     ++ later_messages n (line_num st))%list
  /\ (forall s, In s (entry_shapes build entry) ->
        colour_of s = if match_color col then col else "#000000").
Proof.
  intros C F V. unfold later_messages.
  destruct (copy_unclear (n_chrcopy n)) eqn:U.
  - split.
    + unfold process_entry, is_comment, fields in *. rewrite C, F, V.
      unfold validate. rewrite size_unclear_never, U.
      destruct (match_color col); simpl; now rewrite <- ?app_assoc.
    + unfold entry_shapes, process_entry, is_comment, fields in *.
      rewrite C, F, V. unfold validate. rewrite size_unclear_never, U.
      destruct (match_color col); simpl; intros s [].
  - assert (K : n_chrcopy n = 1 \/ n_chrcopy n = 2).
    { unfold copy_unclear in U.
      destruct (Z.eqb_spec (n_chrcopy n) 1); [now left |].
      destruct (Z.eqb_spec (n_chrcopy n) 2); [now right | discriminate U]. }
    split.
    + rewrite (process_entry_valid build st _ _ _ _ _ _ _ _ _ C F V K).
      rewrite dispatch_stdout. unfold checked.
      destruct (match_color col); simpl; now rewrite <- ?app_assoc.
    + intros s. rewrite (entry_shapes_valid build _ _ _ _ _ _ _ _ _ C F V K).
      cbv zeta. unfold fill_of.
      pose proof (builders_colour build (replace_chr chrm) (n_start n)
                    (n_stop n) (n_size n)
                    (if match_color col then col else "#000000")
                    (n_chrcopy n) s) as B.
      destruct (n_feature n =? 0)%Z;
        [intros I; apply shapes_of_inv in I; tauto |].
      destruct (n_feature n =? 1)%Z;
        [intros I; apply shapes_of_inv in I; tauto |].
      destruct (n_feature n =? 2)%Z;
        [intros I; apply shapes_of_inv in I; tauto |].
      destruct (n_feature n =? 3)%Z;
        [intros I; apply shapes_of_inv in I; tauto | intros []].
Qed.

(** ** The pattern of the colour *)

Lemma dots_spec (k : nat) (s : string) :
  dots k s = true <->
  exists p rest, s = (p ++ rest)%string /\ String.length p = k
                 /\ no_line_feed p = true.
Proof.
  revert s. induction k as [|k IH]; intros s; simpl.
  - split; [intros _; exists EmptyString, s; auto | auto].
  - destruct s as [|c s].
    + split; [discriminate |]. intros (p & rest & E & L & _).
      destruct p; simpl in *; discriminate.
    + rewrite andb_true_iff, IH. split.
      * intros (Hc & p & rest & -> & L & N).
        exists (String c p), rest. simpl. rewrite Hc, N, L. auto.
      * intros (p & rest & E & L & N).
        destruct p as [|c' p]; [discriminate L |].
        simpl in E, L, N. injection E as <- ->. injection L as L.
        apply andb_true_iff in N as [Hc N].
        split; [exact Hc |]. exists p, rest. auto.
Qed.

Lemma match_color_hash (c : ascii) (s : string) :
  match_color (String c s) = Ascii.eqb c "#" && dots 6 s.
Proof.
  destruct c as [[] [] [] [] [] [] [] []]; reflexivity.
Qed.

(** The check of the colour is a prefix check: a colour is clear exactly
    when it is a ['#'], six characters other than a line feed, and any
    text after them.  The six characters need not be hexadecimal
    digits. *)
Theorem clear_colour_is_hash_and_six (col : string) :
  match_color col = true <->
  exists six rest,
    col = ("#" ++ six ++ rest)%string
    /\ String.length six = 6%nat
    /\ no_line_feed six = true.
Proof.
  destruct col as [|c s].
  - split; [discriminate |]. intros (six & rest & E & _). discriminate E.
  - rewrite match_color_hash, andb_true_iff, dots_spec. split.
    + intros (Hc & p & rest & -> & L & N).
      apply Ascii.eqb_eq in Hc as ->. exists p, rest. auto.
    + intros (p & rest & E & L & N). simpl in E. injection E as -> ->.
      split; [reflexivity |]. exists p, rest. auto.
Qed.

(** ** Lines that pass *)

Lemma process_entry_passes build st entry :
  (exists st', process_entry build st entry = Next st')
  <-> passes build entry = true.
Proof.
  unfold passes.
  destruct (process_entry_effect build entry) as [f [_ H]]. rewrite !H.
  destruct f; simpl; split; eauto; try discriminate.
  all: intros [st' E]; discriminate E.
Qed.

Lemma loop_passes build (input_fh : list string) st :
  (exists st', loop build st input_fh = Next st')
  <-> forallb (passes build) input_fh = true.
Proof.
  revert st. induction input_fh as [|e l IH]; intros st; simpl.
  - split; eauto.
  - rewrite andb_true_iff, <- (process_entry_passes build st e). split.
    + intros [st' E].
      destruct (process_entry build st e) as [st1| |] eqn:E1;
        try discriminate E.
      split; [eauto |]. apply (IH st1). eauto.
    + intros [[st1 E1] P]. rewrite E1. apply (IH st1). exact P.
Qed.

(** A run returns exactly when each of its lines passes on its own:
    whether a line passes, exits or raises does not depend on the lines
    before it, and one line that does not pass is enough to leave the
    document without footer. *)
Theorem run_returns_iff_every_line_passes (parsed_args : Namespace)
    (svg_header svg_footer : string) (input_fh : list string) :
  ended (draw parsed_args svg_header svg_footer input_fh) = Returned
  <-> forallb (passes (ns_build parsed_args)) input_fh = true.
Proof.
  rewrite <- (loop_passes _ input_fh (start_state svg_header)). split.
  - apply ended_returned.
  - intros [st E].
    now destruct (draw_returned parsed_args svg_header svg_footer _ _ E).
Qed.

(** The line counter counts the records, not the lines of the file: when
    the lines of an input pass, the counter has grown by the number of
    lines that are no comments, the records skipped for their copy or
    their kind included. *)
Theorem line_counter_counts_records (build : string)
    (input_fh : list string) (st st' : state) :
  loop build st input_fh = Next st' ->
  line_num st' = line_num st + Z.of_nat (List.length (counted_lines input_fh)).
Proof. intros E. now apply loop_next in E. Qed.

(** ** Nothing is lost, nothing is written twice *)

Lemma drawn_app (d1 d2 : list chunk) :
  drawn (d1 ++ d2) = (drawn d1 ++ drawn d2)%list.
Proof.
  induction d1 as [|[s|s] d1 IH]; simpl; [reflexivity | exact IH |].
  now rewrite IH.
Qed.

Lemma partition_permutation (l : list shape) :
  Permutation (base_shapes l ++ overlay_shapes l) l.
Proof.
  unfold base_shapes, overlay_shapes.
  induction l as [|s l IH]; simpl; [constructor |].
  destruct (is_polygon s); simpl.
  - symmetry. apply Permutation_cons_app. now symmetry.
  - now constructor.
Qed.

(** The finalized document holds every shape that a line of the input
    emits, once: its shapes are a rearrangement of the shapes of the
    lines. *)
Theorem every_shape_is_written_once (parsed_args : Namespace)
    (svg_header svg_footer : string) (input_fh : list string) :
  ended (draw parsed_args svg_header svg_footer input_fh) = Returned ->
  Permutation
    (drawn (document (draw parsed_args svg_header svg_footer input_fh)))
    (emitted (ns_build parsed_args) input_fh).
Proof.
  intros R. destruct (ended_returned _ _ _ _ R) as [st E].
  destruct (draw_returned parsed_args svg_header svg_footer _ _ E) as [_ D].
  apply loop_next in E as (F & P & _). simpl in F, P.
  rewrite D, F, P.
  change (Text svg_header :: ?l) with ([Text svg_header] ++ l)%list.
  change (Text svg_footer :: ?l) with ([Text svg_footer] ++ l)%list.
  rewrite !drawn_app, !drawn_map. simpl. rewrite app_nil_r.
  apply partition_permutation.
Qed.

(** ** Triangles may move *)

Lemma emitted_app build (l1 l2 : list string) :
  emitted build (l1 ++ l2) = (emitted build l1 ++ emitted build l2)%list.
Proof. apply flat_map_app. Qed.

Lemma base_of_triangles (l : list shape) :
  forallb is_polygon l = true -> base_shapes l = [].
Proof.
  intros H. unfold base_shapes.
  apply (filter_none is_polygon); [| exact H].
  intros s Hs. now rewrite Hs.
Qed.

Lemma overlay_of_base (l : list shape) :
  forallb (fun s => negb (is_polygon s)) l = true -> overlay_shapes l = [].
Proof.
  intros H. unfold overlay_shapes.
  apply (filter_none (fun s => negb (is_polygon s))); [| exact H].
  intros s Hs. now destruct (is_polygon s).
Qed.

(** A record that emits a triangle may change places with the record
    after it, if that one emits none: the run that returned returns
    again, with the same document. *)
Theorem triangle_record_may_move (parsed_args : Namespace)
    (svg_header svg_footer : string) (pre post : list string)
    (t b : string) :
  forallb is_polygon (entry_shapes (ns_build parsed_args) t) = true ->
  forallb (fun s => negb (is_polygon s))
    (entry_shapes (ns_build parsed_args) b) = true ->
  ended (draw parsed_args svg_header svg_footer (pre ++ t :: b :: post))
  = Returned ->
  ended (draw parsed_args svg_header svg_footer (pre ++ b :: t :: post))
  = Returned
  /\ document (draw parsed_args svg_header svg_footer
                 (pre ++ b :: t :: post))
     = document (draw parsed_args svg_header svg_footer
                   (pre ++ t :: b :: post)).
Proof.
  intros T B R.
  destruct (ended_returned _ _ _ _ R) as [st E].
  assert (E' : exists st',
             loop (ns_build parsed_args) (start_state svg_header)
               (pre ++ b :: t :: post) = Next st').
  { apply loop_passes.
    assert (P : forallb (passes (ns_build parsed_args))
                  (pre ++ t :: b :: post) = true)
      by (apply (loop_passes _ _ (start_state svg_header)); eauto).
    rewrite forallb_app in *. simpl in *.
    destruct (forallb (passes (ns_build parsed_args)) pre),
      (passes (ns_build parsed_args) t), (passes (ns_build parsed_args) b);
      auto. }
  destruct E' as [st' E'].
  destruct (draw_returned parsed_args svg_header svg_footer _ _ E) as [_ D].
  destruct (draw_returned parsed_args svg_header svg_footer _ _ E')
    as [R' D'].
  split; [exact R' |]. rewrite D, D'.
  apply loop_next in E as (F & P & _).
  apply loop_next in E' as (F' & P' & _).
  rewrite F, P, F', P'. simpl.
  change (b :: t :: post) with ([b] ++ [t] ++ post)%list.
  change (t :: b :: post) with ([t] ++ [b] ++ post)%list.
  rewrite !emitted_app, !base_shapes_app, !overlay_shapes_app.
  unfold emitted. simpl. rewrite !app_nil_r.
  rewrite (base_of_triangles _ T), (overlay_of_base _ B). reflexivity.
Qed.

(** ** A record of length zero *)

Lemma finite_float (v : float) :
  is_finite v = true ->
  (exists s, Prim2SF v = S754_zero s)
  \/ (exists s m e, Prim2SF v = S754_finite s m e).
Proof.
  unfold is_finite, is_nan, is_infinity.
  rewrite !eqb_spec, abs_spec.
  change (Prim2SF infinity) with (S754_infinity false).
  destruct (Prim2SF v) as [s | [|] | | s m e]; simpl; intros H;
    try discriminate H; eauto.
Qed.

(** A finite double minus itself is zero. *)
Lemma sub_diag_finite (v : float) :
  is_finite v = true -> (v - v)%float = 0%float.
Proof.
  intros F. apply Prim2SF_inj. rewrite sub_spec.
  change (Prim2SF 0) with (S754_zero false).
  destruct (finite_float v F) as [[s ->] | (s & m & e & ->)].
  - destruct s; reflexivity.
  - unfold SF64sub, SFsub. rewrite Z.sub_diag. reflexivity.
Qed.

Section ZeroLength.

Variables (build entry : string).
Variables (chrm start stop feature size col chrcopy : string) (n : numbers).
Variables (g : geometry) (sizes : dict Z) (total : Z) (ps : float).

Hypothesis Hcomment : is_comment entry = false.
Hypothesis Hfields :
  fields entry = [chrm; start; stop; feature; size; col; chrcopy].
Hypothesis Hconvert : convert start stop feature size chrcopy = Ok n.
Hypothesis Hcopy : n_chrcopy n = 1 \/ n_chrcopy n = 2.
Hypothesis Hgeometry : getitem COORDINATES (replace_chr chrm) = Ok g.
Hypothesis Hbuild : getitem CHROM_SIZES build = Ok sizes.
Hypothesis Htotal : getitem sizes (replace_chr chrm) = Ok total.
Hypothesis Hstart : float_of_int (n_start n) = Ok ps.

(** A rectangle record whose end is its start is no error: it is
    written, with the height zero, whenever the scaled position is a
    finite double. *)
Theorem zero_length_rectangle_is_drawn :
  n_feature n = 0 ->
  n_stop n = n_start n ->
  is_finite (offset_y g total ps) = true ->
  exists x,
    entry_shapes build entry
    = [Rect x (num_float (cy g) + offset_y g total ps) (fill_of col)
         (width g * n_size n / 2) 0].
Proof.
  intros K E F.
  rewrite (entry_shapes_valid build _ _ _ _ _ _ _ _ _
             Hcomment Hfields Hconvert Hcopy).
  cbv zeta. rewrite K. cbn [Z.eqb].
  assert (Hstop : float_of_int (n_stop n) = Ok ps) by now rewrite E.
  rewrite (rectangle_usable _ _ _ _ _ Hgeometry Hbuild Htotal _ _ _ _
             Hstart Hstop).
  rewrite (sub_diag_finite _ F). eexists. reflexivity.
Qed.

End ZeroLength.

(** * Properties of the program around the loop *)

(** ** With a build, the loop is the loop of [draw] *)

Ltac lift_simpl := cbn [Cli.rbind Cli.lift bind Cli.getattr_build].

Ltac lift_binds :=
  repeat match goal with
  | |- context [scaled ?b ?c ?p] => destruct (scaled b c p); lift_simpl
  | |- context [getitem ?d ?k] => destruct (getitem d k); lift_simpl
  | |- context [float_of_int ?z] => destruct (float_of_int z); lift_simpl
  | |- context [as_float ?x] => destruct (as_float x); lift_simpl
  | |- context [(?c =? 1)%Z] => destruct (c =? 1)%Z; lift_simpl
  | |- context [(?t =? 0)%float] => destruct (t =? 0)%float; lift_simpl
  end; try reflexivity.

Lemma scaled_with_build b chrm pos :
  Cli.scaled (Some b) chrm pos = Cli.lift (scaled b chrm pos).
Proof.
  unfold Cli.scaled, scaled. lift_simpl. lift_binds.
Qed.

Lemma builders_with_build b chrm start stop size col chrcopy :
  Cli.rectangle (Some b) chrm start stop size col chrcopy
  = Cli.lift (rectangle b chrm start stop size col chrcopy)
  /\ Cli.circle (Some b) chrm start stop size col chrcopy
     = Cli.lift (circle b chrm start stop size col chrcopy)
  /\ Cli.triangle (Some b) chrm start stop size col chrcopy
     = Cli.lift (triangle b chrm start stop size col chrcopy)
  /\ Cli.line (Some b) chrm start stop col chrcopy
     = Cli.lift (line b chrm start stop col chrcopy).
Proof.
  unfold Cli.rectangle, Cli.circle, Cli.triangle, Cli.line,
    rectangle, circle, triangle, line.
  rewrite !scaled_with_build. repeat split; lift_simpl; lift_binds.
Qed.

Lemma process_entry_with_build b st entry :
  Cli.process_entry (Some b) st entry = lift_step (process_entry b st entry).
Proof.
  unfold Cli.process_entry, process_entry.
  destruct (startswith "#" entry); [reflexivity |].
  destruct (split TAB (rstrip entry))
    as [|chrm [|start [|stop [|feature [|size [|col [|chrcopy [|x xs]]]]]]]];
    try reflexivity.
  destruct (convert start stop feature size chrcopy) as [n|e];
    [| reflexivity].
  unfold Cli.validate, validate.
  destruct (size_unclear (n_size n)), (match_color col),
    (copy_unclear (n_chrcopy n)); try reflexivity;
    unfold Cli.dispatch, dispatch;
    match goal with
    | |- context [Cli.rectangle _ ?c ?s ?e ?z ?k ?y] =>
        destruct (builders_with_build b c s e z k y) as (-> & -> & -> & ->)
    end;
    (destruct (n_feature n =? 0)%Z;
     [destruct (rectangle _ _ _ _ _ _ _); reflexivity |]);
    (destruct (n_feature n =? 1)%Z;
     [destruct (circle _ _ _ _ _ _ _); reflexivity |]);
    (destruct (n_feature n =? 2)%Z;
     [destruct (triangle _ _ _ _ _ _ _); reflexivity |]);
    (destruct (n_feature n =? 3)%Z;
     [destruct (line _ _ _ _ _ _); reflexivity | reflexivity]).
Qed.

Lemma loop_with_build b (input_fh : list string) st :
  Cli.loop (Some b) st input_fh = lift_step (loop b st input_fh).
Proof.
  revert st. induction input_fh as [|e l IH]; intros st; simpl;
    [reflexivity |].
  rewrite process_entry_with_build.
  destruct (process_entry b st e); simpl; auto.
Qed.

(** ** Without a build, no shape *)

(** The scaling of a position reads [parsed_args.build] after the
    geometry of the chromosome and the conversion of the position: with
    no such attribute it raises, whatever the position. *)
Lemma scaled_without_build chrm pos :
  Cli.scaled None chrm pos
  = match getitem COORDINATES chrm, float_of_int pos with
    | Raise e, _ => Cli.Error (Cli.Builtin e)
    | Ok _, Raise e => Cli.Error (Cli.Builtin e)
    | Ok _, Ok _ => Cli.Error (Cli.AttributeError "build")
    end.
Proof.
  unfold Cli.scaled.
  destruct (getitem COORDINATES chrm); lift_simpl; [| reflexivity].
  destruct (float_of_int pos); reflexivity.
Qed.

Lemma builders_without_build chrm start stop size col chrcopy :
  exists e,
    Cli.scaled None chrm start = Cli.Error e
    /\ Cli.rectangle None chrm start stop size col chrcopy = Cli.Error e
    /\ Cli.circle None chrm start stop size col chrcopy = Cli.Error e
    /\ Cli.triangle None chrm start stop size col chrcopy = Cli.Error e
    /\ Cli.line None chrm start stop col chrcopy = Cli.Error e.
Proof.
  unfold Cli.rectangle, Cli.circle, Cli.triangle, Cli.line.
  rewrite scaled_without_build.
  destruct (getitem COORDINATES chrm); [destruct (float_of_int start) |];
    eexists; repeat split; reflexivity.
Qed.

Lemma process_entry_without_build st entry :
  svg_fh (Cli.state_of (Cli.process_entry None st entry)) = svg_fh st
  /\ polygons (Cli.state_of (Cli.process_entry None st entry)) = polygons st.
Proof.
  unfold Cli.process_entry.
  destruct (startswith "#" entry); [split; reflexivity |].
  destruct (split TAB (rstrip entry))
    as [|chrm [|start [|stop [|feature [|size [|col [|chrcopy [|x xs]]]]]]]];
    try (split; reflexivity).
  destruct (convert start stop feature size chrcopy) as [n|e];
    [| split; reflexivity].
  unfold Cli.validate. rewrite size_unclear_never.
  destruct (match_color col), (copy_unclear (n_chrcopy n));
    try (split; reflexivity);
    unfold Cli.dispatch;
    match goal with
    | |- context [Cli.rectangle _ ?c ?s ?e ?z ?k ?y] =>
        destruct (builders_without_build c s e z k y)
          as (err & _ & -> & -> & -> & ->)
    end;
    destruct (n_feature n =? 0)%Z, (n_feature n =? 1)%Z,
      (n_feature n =? 2)%Z, (n_feature n =? 3)%Z; split; reflexivity.
Qed.

Lemma loop_without_build (input_fh : list string) st :
  svg_fh (Cli.state_of (Cli.loop None st input_fh)) = svg_fh st
  /\ polygons (Cli.state_of (Cli.loop None st input_fh)) = polygons st.
Proof.
  revert st. induction input_fh as [|e l IH]; intros st; simpl;
    [split; reflexivity |].
  pose proof (process_entry_without_build st e) as [F P].
  destruct (Cli.process_entry None st e) as [st1| |]; simpl in *; auto.
  destruct (IH st1) as [F1 P1]. now rewrite F1, P1.
Qed.

Lemma draw_without_build parsed_args svg_header svg_footer w :
  Cli.a_build parsed_args = None ->
  shapeless svg_header svg_footer
    (Cli.d_written (Cli.draw parsed_args svg_header svg_footer w)).
Proof.
  intros B. unfold shapeless, Cli.draw. rewrite B.
  destruct (Cli.input_file w) as [input_fh|]; [| now left].
  destruct (Cli.svg_writable w); [| now left].
  pose proof (loop_without_build input_fh (start_state svg_header)) as [F P].
  destruct (Cli.loop None (start_state svg_header) input_fh);
    simpl in *; rewrite ?F, ?P; auto.
Qed.

Lemma parse_arguments_inv input prefix oformat force verbose parsed_args :
  Cli.parse_arguments input prefix oformat force verbose = Some parsed_args ->
  Cli.a_build parsed_args = None
  /\ Cli.a_input parsed_args = input
  /\ Cli.a_prefix parsed_args = prefix
  /\ Cli.a_force parsed_args = force
  /\ Cli.a_verbose parsed_args = verbose
  /\ (Cli.a_oformat parsed_args = "png"
      \/ Cli.a_oformat parsed_args = "pdf").
Proof.
  unfold Cli.parse_arguments.
  destruct (String.eqb_spec
              match oformat with Some o => o | None => "png" end "png")
    as [E|_]; simpl.
  - intros [= <-]; simpl. rewrite E. tauto.
  - destruct (String.eqb_spec
                match oformat with Some o => o | None => "png" end "pdf")
      as [E|_]; [| discriminate].
    intros [= <-]; simpl. rewrite E. tauto.
Qed.

(** Called from [run], [draw] never draws a feature.  [parse_arguments]
    defines no option [build], so that the namespace has no such
    attribute and every builder raises before it returns a shape:
    whatever the input, the options and the files, the svg is not
    written, or holds the header only, or the header, the footer and the
    closing tag. *)
Theorem run_draws_no_feature (input prefix : string)
    (oformat : option string) (force verbose : bool)
    (parsed_args : Cli.arguments) (svg_header svg_footer : string)
    (w : Cli.world) :
  Cli.parse_arguments input prefix oformat force verbose = Some parsed_args ->
  shapeless svg_header svg_footer
    (Cli.written (Cli.run parsed_args svg_header svg_footer w)).
Proof.
  intros P. apply parse_arguments_inv in P as (B & _).
  unfold Cli.run.
  destruct (Cli.confirm _ w) as [asked [s|]]; [now left |].
  pose proof (draw_without_build parsed_args svg_header svg_footer w B)
    as D.
  destruct (Cli.draw _ svg_header svg_footer w) as [e p [doc|]];
    simpl in *.
  - destruct e; simpl; auto.
    destruct (Cli.convert_svg_to_format _ _ _ _) as [said [bytes|err]];
      exact D.
  - destruct e; simpl; now left.
Qed.

(** ** How [run] ends *)

Lemma confirm_stops parsed_args w asked s :
  Cli.confirm parsed_args w = (asked, Some s) ->
  s = Cli.SystemExit \/ s = Cli.Uncaught Cli.EOFError.
Proof.
  unfold Cli.confirm.
  destruct (Cli.svg_exists w && negb (Cli.a_force parsed_args));
    [| discriminate].
  destruct (Cli.keyboard w) as [answer|]; [| intros [= _ <-]; auto].
  destruct (negb _); [intros [= _ <-]; auto | discriminate].
Qed.

Lemma run_returned parsed_args svg_header svg_footer w :
  Cli.ended (Cli.run parsed_args svg_header svg_footer w) = Cli.Returned ->
  exists asked input_fh st,
    Cli.confirm parsed_args w = (asked, None)
    /\ Cli.input_file w = Some input_fh
    /\ Cli.svg_writable w = true
    /\ Cli.loop (Cli.a_build parsed_args) (start_state svg_header) input_fh
       = Cli.Next st.
Proof.
  unfold Cli.run.
  destruct (Cli.confirm parsed_args w) as [asked [s|]] eqn:C.
  - apply confirm_stops in C. simpl. intros ->.
    destruct C; discriminate.
  - unfold Cli.draw.
    destruct (Cli.input_file w) as [input_fh|]; [| discriminate].
    destruct (Cli.svg_writable w); [| discriminate].
    destruct (Cli.loop _ _ input_fh) as [st| |] eqn:L; try discriminate.
    intros _. exists asked, input_fh, st. auto.
Qed.

Lemma run_converted parsed_args svg_header svg_footer w bytes :
  Cli.converted (Cli.run parsed_args svg_header svg_footer w) = Some bytes ->
  Cli.ended (Cli.run parsed_args svg_header svg_footer w) = Cli.Returned.
Proof.
  unfold Cli.run.
  destruct (Cli.confirm parsed_args w) as [asked [s|]]; [discriminate |].
  destruct (Cli.draw _ _ _ w) as [e p [doc|]]; simpl.
  - destruct e; try discriminate.
    now destruct (Cli.convert_svg_to_format _ _ _ _) as [said [b|err]].
  - destruct e; discriminate.
Qed.

Lemma loop_next_in build (input_fh : list string) st st' entry :
  Cli.loop build st input_fh = Cli.Next st' ->
  In entry input_fh ->
  exists s s', Cli.process_entry build s entry = Cli.Next s'.
Proof.
  revert st. induction input_fh as [|e l IH]; intros st; simpl;
    [tauto |].
  destruct (Cli.process_entry build st e) as [st1| |] eqn:E;
    try discriminate.
  intros L [<- | I]; eauto.
Qed.

Lemma reaches_builder_raises st entry :
  reaches_builder entry = true ->
  exists e st', Cli.process_entry None st entry = Cli.Raised e st'.
Proof.
  unfold reaches_builder, is_comment, fields, Cli.process_entry.
  destruct (startswith "#" entry); [discriminate |]. simpl.
  destruct (split TAB (rstrip entry))
    as [|chrm [|start [|stop [|feature [|size [|col [|chrcopy [|x xs]]]]]]]];
    try discriminate.
  destruct (convert start stop feature size chrcopy) as [n|e];
    [| discriminate].
  rewrite andb_true_iff, negb_true_iff. intros [C K].
  unfold Cli.validate. rewrite size_unclear_never, C.
  unfold known_kind in K.
  destruct (match_color col); unfold Cli.dispatch;
    match goal with
    | |- context [Cli.rectangle _ ?c ?s ?e ?z ?k ?y] =>
        destruct (builders_without_build c s e z k y)
          as (err & _ & -> & -> & -> & ->)
    end;
    destruct (n_feature n =? 0)%Z, (n_feature n =? 1)%Z,
      (n_feature n =? 2)%Z, (n_feature n =? 3)%Z;
    try discriminate K; do 2 eexists; reflexivity.
Qed.

(** From the command line, a record that reaches a builder ends the
    program.  Whatever the options: if one line of the input is no
    comment and has seven fields whose numbers convert, with a copy of 1
    or 2 and a kind among 0, 1, 2 and 3, then [run] does not return and
    nothing is converted. *)
Theorem record_of_known_kind_stops_run (input prefix : string)
    (oformat : option string) (force verbose : bool)
    (parsed_args : Cli.arguments) (svg_header svg_footer : string)
    (w : Cli.world) (input_fh : list string) (entry : string) :
  Cli.parse_arguments input prefix oformat force verbose = Some parsed_args ->
  Cli.input_file w = Some input_fh ->
  In entry input_fh ->
  reaches_builder entry = true ->
  Cli.ended (Cli.run parsed_args svg_header svg_footer w) <> Cli.Returned
  /\ Cli.converted (Cli.run parsed_args svg_header svg_footer w) = None.
Proof.
  intros P F I R. apply parse_arguments_inv in P as (B & _).
  assert (N : Cli.ended (Cli.run parsed_args svg_header svg_footer w)
              <> Cli.Returned).
  { intros E. apply run_returned in E as (asked & l & st & _ & F' & _ & L).
    rewrite F in F'. injection F' as <-. rewrite B in L.
    destruct (loop_next_in _ _ _ _ entry L I) as (s & s' & E).
    destruct (reaches_builder_raises s entry R) as (e & s'' & E').
    rewrite E' in E. discriminate E. }
  split; [exact N |].
  destruct (Cli.converted _) as [bytes|] eqn:C; [| reflexivity].
  apply run_converted in C. contradiction.
Qed.

(** ** The question about an svg that exists *)

Lemma lower_char_y c :
  Cli.lower_char c = "y"%char -> c = "y"%char \/ c = "Y"%char.
Proof.
  destruct c as [[|] [|] [|] [|] [|] [|] [|] [|]]; vm_compute;
    intros H; try discriminate H; auto.
Qed.

Lemma str_lower_y s :
  Cli.str_lower s = "y" <-> s = "y" \/ s = "Y".
Proof.
  split.
  - destruct s as [|c [|d s]]; simpl; try discriminate.
    intros [= H]. apply lower_char_y in H as [-> | ->]; auto.
  - intros [-> | ->]; reflexivity.
Qed.

Lemma confirm_declined parsed_args w answer :
  Cli.svg_exists w = true ->
  Cli.a_force parsed_args = false ->
  Cli.keyboard w = Some answer ->
  answer <> "" -> answer <> "y" -> answer <> "Y" ->
  Cli.confirm parsed_args w
  = ([Cli.AlreadyExists (Cli.a_prefix parsed_args);
      Cli.Prompt (Cli.a_prefix parsed_args); Cli.WillExit],
     Some Cli.SystemExit).
Proof.
  intros X F K N1 N2 N3. unfold Cli.confirm. rewrite X, F, K.
  cbn [andb negb].
  destruct (String.eqb_spec answer "") as [E|_]; [contradiction |].
  destruct (String.eqb_spec (Cli.str_lower answer) "y") as [E|_];
    [| reflexivity].
  apply str_lower_y in E as [E | E]; contradiction.
Qed.

Lemma confirm_accepted parsed_args w answer :
  Cli.svg_exists w = true ->
  Cli.a_force parsed_args = false ->
  Cli.keyboard w = Some answer ->
  answer = "" \/ answer = "y" \/ answer = "Y" ->
  Cli.confirm parsed_args w
  = ([Cli.AlreadyExists (Cli.a_prefix parsed_args);
      Cli.Prompt (Cli.a_prefix parsed_args);
      Cli.Overwriting (Cli.a_prefix parsed_args)], None).
Proof.
  intros X F K A. unfold Cli.confirm. rewrite X, F, K. cbn [andb negb].
  destruct A as [-> | [-> | ->]]; reflexivity.
Qed.

Lemma confirm_free parsed_args w :
  Cli.svg_exists w && negb (Cli.a_force parsed_args) = false ->
  Cli.confirm parsed_args w
  = (Cli.printif (Cli.SavingTo (Cli.a_prefix parsed_args))
       (Cli.a_verbose parsed_args), None).
Proof. intros H. unfold Cli.confirm. now rewrite H. Qed.

Lemma draw_returned_written parsed_args svg_header svg_footer w :
  Cli.d_ended (Cli.draw parsed_args svg_header svg_footer w) = Cli.Returned ->
  exists doc,
    Cli.d_written (Cli.draw parsed_args svg_header svg_footer w) = Some doc.
Proof.
  unfold Cli.draw.
  destruct (Cli.input_file w); [| discriminate].
  destruct (Cli.svg_writable w); [| discriminate].
  destruct (Cli.loop _ _ _); cbn [Cli.d_ended Cli.d_written];
    try discriminate; eauto.
Qed.

(** The format [run] converts to. *)
Lemma run_stopped parsed_args svg_header svg_footer w asked :
  Cli.confirm parsed_args w = (asked, None) ->
  Cli.d_ended (Cli.draw parsed_args svg_header svg_footer w)
  <> Cli.Returned ->
  Cli.ended (Cli.run parsed_args svg_header svg_footer w)
  = Cli.d_ended (Cli.draw parsed_args svg_header svg_footer w)
  /\ Cli.written (Cli.run parsed_args svg_header svg_footer w)
     = Cli.d_written (Cli.draw parsed_args svg_header svg_footer w)
  /\ Cli.converted (Cli.run parsed_args svg_header svg_footer w) = None.
Proof.
  intros C N. unfold Cli.run. rewrite C. cbv beta iota zeta.
  destruct (Cli.d_ended (Cli.draw parsed_args svg_header svg_footer w));
    [contradiction | |];
    destruct (Cli.d_written (Cli.draw parsed_args svg_header svg_footer w));
    auto.
Qed.

Lemma run_drawn parsed_args svg_header svg_footer w asked doc :
  Cli.confirm parsed_args w = (asked, None) ->
  Cli.d_ended (Cli.draw parsed_args svg_header svg_footer w)
  = Cli.Returned ->
  Cli.d_written (Cli.draw parsed_args svg_header svg_footer w) = Some doc ->
  Cli.ended (Cli.run parsed_args svg_header svg_footer w) = Cli.Returned
  /\ Cli.written (Cli.run parsed_args svg_header svg_footer w) = Some doc
  /\ Cli.converted (Cli.run parsed_args svg_header svg_footer w)
     = match snd (Cli.convert_svg_to_format w (render doc)
                    (Cli.format_of parsed_args)
                    (Cli.a_verbose parsed_args)) with
       | Cli.Value bytes => bytes
       | Cli.Error _ => None
       end.
Proof.
  intros C E W. unfold Cli.run. rewrite C. cbv beta iota zeta.
  rewrite E, W. fold (Cli.format_of parsed_args).
  destruct (Cli.convert_svg_to_format w (render doc) _ _)
    as [said [bytes|err]]; auto.
Qed.

(** The answer to the question decides.  When the svg exists and
    [force] is not set, any answer other than the empty one, [y] and [Y]
    ends the program through [sys.exit()] before a file is opened: the
    last thing printed is that the program will exit, nothing is written
    and nothing converted.  This holds also for the answers [yes] and
    [Yes]. *)
Theorem declined_overwrite_exits (parsed_args : Cli.arguments)
    (svg_header svg_footer : string) (w : Cli.world) (answer : string) :
  Cli.svg_exists w = true ->
  Cli.a_force parsed_args = false ->
  Cli.keyboard w = Some answer ->
  answer <> "" -> answer <> "y" -> answer <> "Y" ->
  let r := Cli.run parsed_args svg_header svg_footer w in
  Cli.ended r = Cli.SystemExit
  /\ Cli.written r = None
  /\ Cli.converted r = None
  /\ exists out, Cli.printed r = (out ++ [Cli.WillExit])%list.
Proof.
  intros X F K N1 N2 N3 r. unfold r, Cli.run.
  rewrite (confirm_declined _ _ _ X F K N1 N2 N3). cbv beta iota.
  cbn [Cli.ended Cli.written Cli.converted Cli.printed].
  repeat split.
  match goal with
  | |- exists out, (?X ++ [?a; ?b; ?c])%list = _ =>
      exists (X ++ [a; b])%list;
      now rewrite <- (app_assoc X [a; b] [c])
  end.
Qed.

(** An accepted overwrite is a forced one.  When the answer to the
    question is empty, [y] or [Y], the program ends, writes and converts
    as it does with [force] set. *)
Theorem accepted_overwrite_is_forced (parsed_args forced : Cli.arguments)
    (svg_header svg_footer : string) (w : Cli.world) (answer : string) :
  Cli.keyboard w = Some answer ->
  answer = "" \/ answer = "y" \/ answer = "Y" ->
  forced = {| Cli.a_input := Cli.a_input parsed_args;
              Cli.a_prefix := Cli.a_prefix parsed_args;
              Cli.a_oformat := Cli.a_oformat parsed_args;
              Cli.a_force := true;
              Cli.a_verbose := Cli.a_verbose parsed_args;
              Cli.a_build := Cli.a_build parsed_args |} ->
  let r := Cli.run parsed_args svg_header svg_footer w in
  let r' := Cli.run forced svg_header svg_footer w in
  Cli.ended r = Cli.ended r'
  /\ Cli.written r = Cli.written r'
  /\ Cli.converted r = Cli.converted r'.
Proof.
  intros K A F r r'. unfold r, r'. clear r r'.
  assert (D : Cli.draw forced svg_header svg_footer w
              = Cli.draw parsed_args svg_header svg_footer w)
    by (rewrite F; reflexivity).
  assert (O : Cli.format_of forced = Cli.format_of parsed_args)
    by (rewrite F; reflexivity).
  assert (V : Cli.a_verbose forced = Cli.a_verbose parsed_args)
    by (rewrite F; reflexivity).
  assert (C : exists asked, Cli.confirm parsed_args w = (asked, None)).
  { destruct (Cli.svg_exists w && negb (Cli.a_force parsed_args)) eqn:E.
    - apply andb_true_iff in E as [X N]. apply negb_true_iff in N.
      eexists. exact (confirm_accepted _ _ _ X N K A).
    - eexists. exact (confirm_free _ _ E). }
  assert (C' : exists asked, Cli.confirm forced w = (asked, None)).
  { eexists. apply confirm_free. rewrite F. apply andb_false_r. }
  destruct C as [a C], C' as [a' C'].
  destruct (Cli.d_ended (Cli.draw parsed_args svg_header svg_footer w))
    eqn:E.
  - destruct (draw_returned_written _ _ _ _ E) as [doc W].
    destruct (run_drawn _ _ _ _ _ _ C E W) as (-> & -> & ->).
    rewrite <- D in E, W.
    destruct (run_drawn _ _ _ _ _ _ C' E W) as (-> & -> & ->).
    now rewrite O, V.
  - assert (N : Cli.d_ended (Cli.draw parsed_args svg_header svg_footer w)
                <> Cli.Returned) by (rewrite E; discriminate).
    destruct (run_stopped _ _ _ _ _ C N) as (-> & -> & ->).
    rewrite <- D in N.
    destruct (run_stopped _ _ _ _ _ C' N) as (-> & -> & ->).
    now rewrite D.
  - assert (N : Cli.d_ended (Cli.draw parsed_args svg_header svg_footer w)
                <> Cli.Returned) by (rewrite E; discriminate).
    destruct (run_stopped _ _ _ _ _ C N) as (-> & -> & ->).
    rewrite <- D in N.
    destruct (run_stopped _ _ _ _ _ C' N) as (-> & -> & ->).
    now rewrite D.
Qed.

(** ** With a build, [draw] is the [draw] of the loop alone *)

Lemma draw_with_build parsed_args b svg_header svg_footer w input_fh :
  Cli.a_build parsed_args = Some b ->
  Cli.input_file w = Some input_fh ->
  Cli.svg_writable w = true ->
  let o := draw {| ns_build := b; ns_verbose := Cli.a_verbose parsed_args |}
             svg_header svg_footer input_fh in
  Cli.d_ended (Cli.draw parsed_args svg_header svg_footer w)
  = lift_status (ended o)
  /\ Cli.d_written (Cli.draw parsed_args svg_header svg_footer w)
     = Some (document o)
  /\ Cli.d_printed (Cli.draw parsed_args svg_header svg_footer w)
     = map Cli.Diagnostic (printed o).
Proof.
  intros B F W. unfold Cli.draw, draw. rewrite B, F, W, loop_with_build.
  cbn [ns_build ns_verbose].
  destruct (loop b (start_state svg_header) input_fh);
    cbn [lift_step lift_status ended document printed Cli.d_ended
         Cli.d_written Cli.d_printed]; auto.
  unfold Cli.printif, printif.
  destruct (Cli.a_verbose parsed_args);
    cbn [print write svg_fh stdout polygons map];
    rewrite ?map_app, ?app_nil_r; auto.
Qed.

(** ** The conversion *)

Lemma loop_keeps_file build (input_fh : list string) st :
  exists chunks,
    svg_fh (Cli.state_of (Cli.loop build st input_fh))
    = (svg_fh st ++ chunks)%list.
Proof.
  destruct build as [b|].
  - rewrite loop_with_build.
    destruct (loop_file b input_fh st) as [shapes [F _]].
    exists (map Drawn shapes). rewrite <- F.
    now destruct (loop b st input_fh).
  - destruct (loop_without_build input_fh st) as [F _].
    exists []. now rewrite app_nil_r.
Qed.

Lemma draw_finalized parsed_args svg_header svg_footer w input_fh st :
  Cli.input_file w = Some input_fh ->
  Cli.svg_writable w = true ->
  Cli.loop (Cli.a_build parsed_args) (start_state svg_header) input_fh
  = Cli.Next st ->
  Cli.d_ended (Cli.draw parsed_args svg_header svg_footer w) = Cli.Returned
  /\ exists body,
       Cli.d_written (Cli.draw parsed_args svg_header svg_footer w)
       = Some (Text svg_header :: body ++ [Text "</svg>"])%list.
Proof.
  intros F W L. unfold Cli.draw. rewrite F, W, L.
  cbn [Cli.d_ended Cli.d_written]. split; [reflexivity |].
  destruct (loop_keeps_file (Cli.a_build parsed_args) input_fh
              (start_state svg_header)) as [chunks K].
  rewrite L in K. cbn [Cli.state_of start_state svg_fh] in K.
  exists (chunks ++ [Text svg_footer] ++ map Drawn (polygons st))%list.
  cbn [write svg_fh polygons]. rewrite K.
  cbn [app]. now rewrite <- !app_assoc.
Qed.

Lemma format_of_cases parsed_args :
  (Cli.format_of parsed_args = "png"
   /\ String.eqb (Cli.a_oformat parsed_args) "pdf" = false)
  \/ (Cli.format_of parsed_args = "pdf"
      /\ String.eqb (Cli.a_oformat parsed_args) "pdf" = true).
Proof.
  unfold Cli.format_of, Cli.known_format.
  destruct (String.eqb_spec (Cli.a_oformat parsed_args) "png") as [E|_].
  - rewrite E. left. split; reflexivity.
  - destruct (String.eqb_spec (Cli.a_oformat parsed_args) "pdf") as [E|_].
    + right. split; [exact E | reflexivity].
    + left. split; reflexivity.
Qed.

(** What [convert_svg_to_format] does, by what the converter of the
    format does. *)
Lemma convert_svg_to_format_spec w text parsed_args verbose :
  Cli.convert_svg_to_format w text (Cli.format_of parsed_args) verbose
  = match converter w (Cli.a_oformat parsed_args) text with
    | Some bytes =>
        (Cli.printif (Cli.Converted (Cli.format_of parsed_args)) verbose,
         Cli.Value (Some bytes))
    | None =>
        (Cli.printif (Cli.FailedConversion (Cli.format_of parsed_args))
           verbose,
         Cli.Error Cli.ConverterError)
    end.
Proof.
  unfold Cli.convert_svg_to_format, converter.
  destruct (format_of_cases parsed_args) as [[-> ->] | [-> ->]].
  - change (String.eqb "png" "png") with true. cbv iota.
    now destruct (Cli.svg2png w text).
  - change (String.eqb "pdf" "png") with false.
    change (String.eqb "pdf" "pdf") with true. cbv iota.
    now destruct (Cli.svg2pdf w text).
Qed.

(** A converted file is made from a finished drawing.  If [run] leaves
    a converted file, it has returned, the svg holds a document that
    starts with the header and ends with the closing tag, and the file
    is what the converter makes of the text of that document: the pdf
    converter if the format is [pdf], the png converter for every other
    format. *)
Theorem converted_file_is_of_finished_drawing (parsed_args : Cli.arguments)
    (svg_header svg_footer : string) (w : Cli.world) (bytes : string) :
  let r := Cli.run parsed_args svg_header svg_footer w in
  Cli.converted r = Some bytes ->
  Cli.ended r = Cli.Returned
  /\ exists body,
       Cli.written r
       = Some (Text svg_header :: body ++ [Text "</svg>"])%list
       /\ converter w (Cli.a_oformat parsed_args)
            (render (Text svg_header :: body ++ [Text "</svg>"])%list)
          = Some bytes.
Proof.
  intros r C. unfold r in *. clear r.
  pose proof (run_converted _ _ _ _ _ C) as R.
  split; [exact R |].
  destruct (run_returned _ _ _ _ R) as (asked & input_fh & st & Q & F & W & L).
  destruct (draw_finalized parsed_args svg_header svg_footer w input_fh st
              F W L) as [E [body D]].
  destruct (run_drawn _ _ _ _ _ _ Q E D) as (_ & Wr & Cv).
  exists body. split; [exact Wr |].
  rewrite Cv, convert_svg_to_format_spec in C.
  destruct (converter w (Cli.a_oformat parsed_args) _) as [b|];
    cbn [snd] in C; [exact C | discriminate C].
Qed.







(** ** Files that cannot be opened *)

(** When the input or the svg cannot be opened, nothing is written to
    the svg, nothing is converted, and [run] does not return: it ends
    with the error of [open], unless the question about an existing svg
    has ended it before. *)
Theorem unopened_file_ends_run (parsed_args : Cli.arguments)
    (svg_header svg_footer : string) (w : Cli.world) :
  Cli.input_file w = None \/ Cli.svg_writable w = false ->
  let r := Cli.run parsed_args svg_header svg_footer w in
  Cli.written r = None
  /\ Cli.converted r = None
  /\ (Cli.ended r = Cli.Uncaught Cli.OSError
      \/ Cli.ended r = Cli.SystemExit
      \/ Cli.ended r = Cli.Uncaught Cli.EOFError).
Proof.
  intros H r. unfold r. clear r.
  destruct (Cli.confirm parsed_args w) as [asked [s|]] eqn:C.
  - unfold Cli.run. rewrite C. cbv beta iota zeta.
    cbn [Cli.ended Cli.written Cli.converted].
    apply confirm_stops in C as [-> | ->]; auto.
  - assert (D : Cli.d_ended (Cli.draw parsed_args svg_header svg_footer w)
                = Cli.Uncaught Cli.OSError
                /\ Cli.d_written
                     (Cli.draw parsed_args svg_header svg_footer w)
                   = None).
    { unfold Cli.draw. destruct H as [-> | H]; [split; reflexivity |].
      destruct (Cli.input_file w); rewrite ?H; split; reflexivity. }
    destruct D as [E W].
    assert (N : Cli.d_ended (Cli.draw parsed_args svg_header svg_footer w)
                <> Cli.Returned) by (rewrite E; discriminate).
    destruct (run_stopped _ _ _ _ _ C N) as (-> & -> & ->).
    rewrite E, W. auto.
Qed.

(** ** The warning about the format *)

Lemma printif_in (m x : Cli.output) (condition : bool) :
  In x (Cli.printif m condition) -> x = m.
Proof.
  unfold Cli.printif. destruct condition; [| intros []].
  intros [<- | []]. reflexivity.
Qed.

Lemma confirm_no_warning parsed_args w o :
  ~ In (Cli.NotPngOrPdf o) (fst (Cli.confirm parsed_args w)).
Proof.
  unfold Cli.confirm.
  destruct (Cli.svg_exists w && negb (Cli.a_force parsed_args)).
  - destruct (Cli.keyboard w) as [answer|].
    + destruct (negb _); cbn [fst In]; intros H;
        decompose [or] H; discriminate || contradiction.
    + cbn [fst In]. intros H. decompose [or] H; discriminate || contradiction.
  - cbn [fst]. intros H. apply printif_in in H. discriminate H.
Qed.

Lemma draw_no_warning parsed_args svg_header svg_footer w o :
  ~ In (Cli.NotPngOrPdf o)
      (Cli.d_printed (Cli.draw parsed_args svg_header svg_footer w)).
Proof.
  assert (M : forall l, ~ In (Cli.NotPngOrPdf o) (map Cli.Diagnostic l)).
  { intros l H. apply in_map_iff in H as (m & E & _). discriminate E. }
  unfold Cli.draw.
  destruct (Cli.input_file w) as [input_fh|].
  - destruct (Cli.svg_writable w).
    + destruct (Cli.loop _ _ input_fh); cbn [Cli.d_printed];
        try apply M.
      rewrite in_app_iff. intros [H | H]; [exact (M _ H) |].
      apply printif_in in H. discriminate H.
    + cbn [Cli.d_printed In]. intros [H | []]. discriminate H.
  - cbn [Cli.d_printed In]. intros [H | []]. discriminate H.
Qed.

(** The warning about a format that is neither [png] nor [pdf] is
    never printed: the parser accepts no other format, so that [run]
    never replaces it. *)
Theorem format_warning_is_unreachable (input prefix : string)
    (oformat : option string) (force verbose : bool)
    (parsed_args : Cli.arguments) (svg_header svg_footer : string)
    (w : Cli.world) (o : string) :
  Cli.parse_arguments input prefix oformat force verbose = Some parsed_args ->
  ~ In (Cli.NotPngOrPdf o)
      (Cli.printed (Cli.run parsed_args svg_header svg_footer w)).
Proof.
  intros P. apply parse_arguments_inv in P as (_ & _ & _ & _ & _ & O).
  assert (K : Cli.known_format parsed_args = true).
  { unfold Cli.known_format. destruct O as [-> | ->]; reflexivity. }
  pose proof (confirm_no_warning parsed_args w o) as Q.
  pose proof (draw_no_warning parsed_args svg_header svg_footer w o) as D.
  unfold Cli.run. rewrite K.
  destruct (Cli.confirm parsed_args w) as [asked stop].
  cbn [fst] in Q. cbv beta iota zeta.
  assert (I : forall x v, ~ In (Cli.NotPngOrPdf o)
                            ([] ++ Cli.printif (Cli.DrawingFrom x) v)).
  { intros x v H. cbn [app] in H. apply printif_in in H. discriminate H. }
  destruct stop as [s|].
  - cbn [Cli.printed]. rewrite in_app_iff. intros [H | H];
      [exact (I _ _ H) | exact (Q H)].
  - destruct (Cli.d_ended (Cli.draw parsed_args svg_header svg_footer w)).
    + destruct (Cli.d_written (Cli.draw parsed_args svg_header svg_footer w))
        as [doc|].
      * rewrite convert_svg_to_format_spec.
        destruct (converter w (Cli.a_oformat parsed_args) (render doc));
          cbn [Cli.printed]; rewrite !in_app_iff; cbn [In];
          intros H; decompose [or] H;
          try (exact (I _ _ ltac:(eassumption)));
          try contradiction;
          try match goal with
          | H' : In _ (Cli.printif _ _) |- _ =>
              apply printif_in in H'; discriminate H'
          end; try discriminate.
      * cbn [Cli.printed]. rewrite !in_app_iff. intros H.
        decompose [or] H; try contradiction. exact (I _ _ ltac:(eassumption)).
    + destruct (Cli.d_written (Cli.draw parsed_args svg_header svg_footer w));
        cbn [Cli.printed]; rewrite !in_app_iff; intros H;
        decompose [or] H; try contradiction;
        exact (I _ _ ltac:(eassumption)).
    + destruct (Cli.d_written (Cli.draw parsed_args svg_header svg_footer w));
        cbn [Cli.printed]; rewrite !in_app_iff; intros H;
        decompose [or] H; try contradiction;
        exact (I _ _ ltac:(eassumption)).
Qed.

(** ** The further theorems at work *)

Lemma unknown_chromosome_aborts_witness :
  is_comment unknown_line = false
  /\ fields unknown_line
     = ["chr23"; "1000000"; "2000000"; "0"; "1"; "#FF0000"; "1"]
  /\ convert "1000000" "2000000" "0" "1" "1" = Ok rectangle_numbers
  /\ known_kind (n_feature rectangle_numbers) = true
  /\ getitem COORDINATES (replace_chr "chr23")
     = Raise (KeyError (replace_chr "chr23"))
  /\ process_entry "hg37" (start_state "<svg>") unknown_line
     = Raised (KeyError "23") (next_line (start_state "<svg>")).
Proof.
  assert (H1 : is_comment unknown_line = false) by reflexivity.
  assert (H2 : fields unknown_line
               = ["chr23"; "1000000"; "2000000"; "0"; "1"; "#FF0000"; "1"])
    by reflexivity.
  assert (H3 : convert "1000000" "2000000" "0" "1" "1" = Ok rectangle_numbers)
    by (vm_compute; reflexivity).
  assert (H4 : known_kind (n_feature rectangle_numbers) = true)
    by reflexivity.
  assert (H5 : getitem COORDINATES (replace_chr "chr23")
               = Raise (KeyError (replace_chr "chr23"))) by reflexivity.
  repeat (split; [assumption |]).
  exact (proj1 (unknown_chromosome_aborts unknown_line _ _ _ _ _ _ _ _
                  H1 H2 H3 example_args "<svg>" "</g>" [] [] _
                  (or_introl eq_refl) H4 H5 eq_refl)).
Defined.

Lemma unknown_build_aborts_witness :
  is_comment rectangle_line = false
  /\ fields rectangle_line
     = ["1"; "1000000"; "2000000"; "0"; "1"; "#FF0000"; "1"]
  /\ convert "1000000" "2000000" "0" "1" "1" = Ok rectangle_numbers
  /\ getitem COORDINATES (replace_chr "1") = Ok chr1
  /\ float_of_int (n_start rectangle_numbers) = Ok 1000000%float
  /\ getitem CHROM_SIZES "hg19" = Raise (KeyError "hg19")
  /\ process_entry "hg19" (start_state "<svg>") rectangle_line
     = Raised (KeyError "hg19") (next_line (start_state "<svg>")).
Proof.
  assert (H1 : is_comment rectangle_line = false) by reflexivity.
  assert (H2 : fields rectangle_line
               = ["1"; "1000000"; "2000000"; "0"; "1"; "#FF0000"; "1"])
    by reflexivity.
  assert (H3 : convert "1000000" "2000000" "0" "1" "1" = Ok rectangle_numbers)
    by (vm_compute; reflexivity).
  assert (H4 : getitem COORDINATES (replace_chr "1") = Ok chr1)
    by reflexivity.
  assert (H5 : float_of_int (n_start rectangle_numbers) = Ok 1000000%float)
    by (vm_compute; reflexivity).
  assert (H6 : getitem CHROM_SIZES "hg19" = Raise (KeyError "hg19"))
    by reflexivity.
  repeat (split; [assumption |]).
  exact (proj1 (unknown_build_aborts rectangle_line _ _ _ _ _ _ _ _
                  H1 H2 H3 "hg19" (start_state "<svg>") chr1 1000000 []
                  (or_introl eq_refl) eq_refl H4 H5 H6)).
Defined.


Lemma unknown_kind_skips_record_witness :
  is_comment kind7_line = false
  /\ fields kind7_line
     = ["1"; "1000000"; "2000000"; "7"; "1"; "#FF0000"; "1"]
  /\ convert "1000000" "2000000" "7" "1" "1" = Ok kind7_numbers
  /\ known_kind (n_feature kind7_numbers) = false
  /\ process_entry "hg37" (start_state "<svg>") kind7_line
     = Next (print (MsgFeature 7) (next_line (start_state "<svg>"))).
Proof.
  assert (H1 : is_comment kind7_line = false) by reflexivity.
  assert (H2 : fields kind7_line
               = ["1"; "1000000"; "2000000"; "7"; "1"; "#FF0000"; "1"])
    by reflexivity.
  assert (H3 : convert "1000000" "2000000" "7" "1" "1" = Ok kind7_numbers)
    by (vm_compute; reflexivity).
  assert (H4 : known_kind (n_feature kind7_numbers) = false) by reflexivity.
  repeat (split; [assumption |]).
  exact (proj1 (unknown_kind_skips_record kind7_line _ _ _ _ _ _ _ _
                  H1 H2 H3 "hg37" (start_state "<svg>") []
                  (or_introl eq_refl) H4)).
Defined.

Lemma colour_is_checked_not_fatal_witness :
  is_comment red_line = false
  /\ fields red_line = ["1"; "1000000"; "2000000"; "0"; "1"; "red"; "1"]
  /\ convert "1000000" "2000000" "0" "1" "1" = Ok rectangle_numbers
  /\ stdout (state_of (process_entry "hg37" (start_state "<svg>") red_line))
     = [MsgColor "red" 1]
  /\ (forall s, In s (entry_shapes "hg37" red_line) ->
        colour_of s = "#000000").
Proof.
  assert (H1 : is_comment red_line = false) by reflexivity.
  assert (H2 : fields red_line
               = ["1"; "1000000"; "2000000"; "0"; "1"; "red"; "1"])
    by reflexivity.
  assert (H3 : convert "1000000" "2000000" "0" "1" "1" = Ok rectangle_numbers)
    by (vm_compute; reflexivity).
  repeat (split; [assumption |]).
  exact (colour_is_checked_not_fatal "hg37" (start_state "<svg>") red_line
           _ _ _ _ _ _ _ _ H1 H2 H3).
Defined.

Lemma line_counter_counts_records_witness :
  loop "hg37" (start_state "<svg>") [copy3_line; "# a comment"]
  = Next {| svg_fh := [Text "<svg>"]; polygons := []; line_num := 2;
            stdout := [MsgCopy 3 1] |}
  /\ 2 = 1 + Z.of_nat (List.length
                         (counted_lines [copy3_line; "# a comment"])).
Proof.
  assert (H1 : loop "hg37" (start_state "<svg>") [copy3_line; "# a comment"]
               = Next {| svg_fh := [Text "<svg>"]; polygons := [];
                         line_num := 2; stdout := [MsgCopy 3 1] |})
    by (vm_compute; reflexivity).
  exact (conj H1 (line_counter_counts_records "hg37" _ _ _ H1)).
Defined.

Lemma every_shape_is_written_once_witness :
  ended (draw example_args "<svg>" "</g>" [triangle_line; rectangle_line])
  = Returned
  /\ Permutation
       (drawn (document (draw example_args "<svg>" "</g>"
                           [triangle_line; rectangle_line])))
       (emitted "hg37" [triangle_line; rectangle_line]).
Proof.
  assert (H1 : ended (draw example_args "<svg>" "</g>"
                        [triangle_line; rectangle_line]) = Returned)
    by (vm_compute; reflexivity).
  exact (conj H1 (every_shape_is_written_once example_args "<svg>" "</g>"
                    [triangle_line; rectangle_line] H1)).
Defined.

Lemma triangle_record_may_move_witness :
  forallb is_polygon (entry_shapes "hg37" triangle_line) = true
  /\ forallb (fun s => negb (is_polygon s))
       (entry_shapes "hg37" rectangle_line) = true
  /\ ended (draw example_args "<svg>" "</g>"
              ([] ++ [triangle_line; rectangle_line])) = Returned
  /\ document (draw example_args "<svg>" "</g>"
                 ([] ++ [rectangle_line; triangle_line]))
     = document (draw example_args "<svg>" "</g>"
                   ([] ++ [triangle_line; rectangle_line])).
Proof.
  assert (H1 : forallb is_polygon (entry_shapes "hg37" triangle_line) = true)
    by (vm_compute; reflexivity).
  assert (H2 : forallb (fun s => negb (is_polygon s))
                 (entry_shapes "hg37" rectangle_line) = true)
    by (vm_compute; reflexivity).
  assert (H3 : ended (draw example_args "<svg>" "</g>"
                        ([] ++ [triangle_line; rectangle_line])) = Returned)
    by (vm_compute; reflexivity).
  repeat (split; [assumption |]).
  exact (proj2 (triangle_record_may_move example_args "<svg>" "</g>" [] []
                  triangle_line rectangle_line H1 H2 H3)).
Defined.

Lemma zero_length_rectangle_is_drawn_witness :
  is_comment point_line = false
  /\ fields point_line
     = ["1"; "1000000"; "1000000"; "0"; "1"; "#FF0000"; "1"]
  /\ convert "1000000" "1000000" "0" "1" "1" = Ok point_numbers
  /\ getitem COORDINATES (replace_chr "1") = Ok chr1
  /\ getitem CHROM_SIZES "hg37" = Ok hg37
  /\ getitem hg37 (replace_chr "1") = Ok 249250621
  /\ float_of_int (n_start point_numbers) = Ok 1000000%float
  /\ is_finite (offset_y chr1 249250621 1000000) = true
  /\ exists x,
       entry_shapes "hg37" point_line
       = [Rect x (num_float (cy chr1) + offset_y chr1 249250621 1000000)
            (fill_of "#FF0000") (width chr1 * n_size point_numbers / 2) 0].
Proof.
  assert (H1 : is_comment point_line = false) by reflexivity.
  assert (H2 : fields point_line
               = ["1"; "1000000"; "1000000"; "0"; "1"; "#FF0000"; "1"])
    by reflexivity.
  assert (H3 : convert "1000000" "1000000" "0" "1" "1" = Ok point_numbers)
    by (vm_compute; reflexivity).
  assert (H4 : getitem COORDINATES (replace_chr "1") = Ok chr1)
    by reflexivity.
  assert (H5 : getitem CHROM_SIZES "hg37" = Ok hg37) by reflexivity.
  assert (H6 : getitem hg37 (replace_chr "1") = Ok 249250621) by reflexivity.
  assert (H7 : float_of_int (n_start point_numbers) = Ok 1000000%float)
    by (vm_compute; reflexivity).
  assert (H8 : is_finite (offset_y chr1 249250621 1000000) = true)
    by (vm_compute; reflexivity).
  repeat (split; [assumption |]).
  exact (zero_length_rectangle_is_drawn "hg37" point_line _ _ _ _ _ _ _
           point_numbers chr1 hg37 249250621 1000000 H1 H2 H3
           (or_introl eq_refl) H4 H5 H6 H7 eq_refl eq_refl H8).
Defined.

Lemma run_draws_no_feature_witness :
  Cli.parse_arguments "in.bed" "out" None false false = Some example_options
  /\ shapeless "<svg>" "</g>"
       (Cli.written (Cli.run example_options "<svg>" "</g>" example_world)).
Proof.
  assert (H1 : Cli.parse_arguments "in.bed" "out" None false false
               = Some example_options) by reflexivity.
  exact (conj H1 (run_draws_no_feature "in.bed" "out" None false false
                    example_options "<svg>" "</g>" example_world H1)).
Defined.

Lemma record_of_known_kind_stops_run_witness :
  Cli.parse_arguments "in.bed" "out" None false false = Some example_options
  /\ Cli.input_file example_world = Some [rectangle_line]
  /\ In rectangle_line [rectangle_line]
  /\ reaches_builder rectangle_line = true
  /\ Cli.converted (Cli.run example_options "<svg>" "</g>" example_world)
     = None.
Proof.
  assert (H1 : Cli.parse_arguments "in.bed" "out" None false false
               = Some example_options) by reflexivity.
  assert (H2 : Cli.input_file example_world = Some [rectangle_line])
    by reflexivity.
  assert (H3 : In rectangle_line [rectangle_line]) by (left; reflexivity).
  assert (H4 : reaches_builder rectangle_line = true)
    by (vm_compute; reflexivity).
  repeat (split; [assumption |]).
  exact (proj2 (record_of_known_kind_stops_run "in.bed" "out" None false
                  false example_options "<svg>" "</g>" example_world
                  [rectangle_line] rectangle_line H1 H2 H3 H4)).
Defined.

Lemma declined_overwrite_exits_witness :
  Cli.svg_exists (world_of (Some []) true (Some "yes") true) = true
  /\ Cli.a_force example_options = false
  /\ Cli.keyboard (world_of (Some []) true (Some "yes") true) = Some "yes"
  /\ Cli.ended (Cli.run example_options "<svg>" "</g>"
                  (world_of (Some []) true (Some "yes") true))
     = Cli.SystemExit.
Proof.
  assert (H1 : Cli.svg_exists (world_of (Some []) true (Some "yes") true)
               = true) by reflexivity.
  assert (H2 : Cli.a_force example_options = false) by reflexivity.
  assert (H3 : Cli.keyboard (world_of (Some []) true (Some "yes") true)
               = Some "yes") by reflexivity.
  assert (N1 : "yes" <> "") by discriminate.
  assert (N2 : "yes" <> "y") by discriminate.
  assert (N3 : "yes" <> "Y") by discriminate.
  repeat (split; [assumption |]).
  exact (proj1 (declined_overwrite_exits example_options "<svg>" "</g>"
                  (world_of (Some []) true (Some "yes") true) "yes"
                  H1 H2 H3 N1 N2 N3)).
Defined.

Lemma accepted_overwrite_is_forced_witness :
  Cli.keyboard (world_of (Some []) true (Some "Y") true) = Some "Y"
  /\ Cli.converted (Cli.run example_options "<svg>" "</g>"
                      (world_of (Some []) true (Some "Y") true))
     = Cli.converted
         (Cli.run {| Cli.a_input := "in.bed"; Cli.a_prefix := "out";
                     Cli.a_oformat := "png"; Cli.a_force := true;
                     Cli.a_verbose := false; Cli.a_build := None |}
            "<svg>" "</g>" (world_of (Some []) true (Some "Y") true)).
Proof.
  assert (H1 : Cli.keyboard (world_of (Some []) true (Some "Y") true)
               = Some "Y") by reflexivity.
  exact (conj H1
           (proj2 (proj2 (accepted_overwrite_is_forced example_options _
                            "<svg>" "</g>"
                            (world_of (Some []) true (Some "Y") true) "Y"
                            H1 (or_intror (or_intror eq_refl)) eq_refl)))).
Defined.

Lemma converted_file_is_of_finished_drawing_witness :
  Cli.converted (Cli.run example_options "<svg>" "</g>"
                   (world_of (Some ["# no record"]) false None true))
  = Some "<svg></g></svg>"
  /\ Cli.ended (Cli.run example_options "<svg>" "</g>"
                  (world_of (Some ["# no record"]) false None true))
     = Cli.Returned.
Proof.
  assert (H1 : Cli.converted
                 (Cli.run example_options "<svg>" "</g>"
                    (world_of (Some ["# no record"]) false None true))
               = Some "<svg></g></svg>") by (vm_compute; reflexivity).
  exact (conj H1
           (proj1 (converted_file_is_of_finished_drawing example_options
                     "<svg>" "</g>"
                     (world_of (Some ["# no record"]) false None true)
                     "<svg></g></svg>" H1))).
Defined.


Lemma unopened_file_ends_run_witness :
  (Cli.input_file (world_of None false None true) = None
   \/ Cli.svg_writable (world_of None false None true) = false)
  /\ Cli.written (Cli.run example_options "<svg>" "</g>"
                    (world_of None false None true)) = None.
Proof.
  assert (H1 : Cli.input_file (world_of None false None true) = None
               \/ Cli.svg_writable (world_of None false None true) = false)
    by (left; reflexivity).
  exact (conj H1 (proj1 (unopened_file_ends_run example_options "<svg>"
                           "</g>" (world_of None false None true) H1))).
Defined.

Lemma format_warning_is_unreachable_witness :
  Cli.parse_arguments "in.bed" "out" (Some "pdf") false true
  = Some {| Cli.a_input := "in.bed"; Cli.a_prefix := "out";
            Cli.a_oformat := "pdf"; Cli.a_force := false;
            Cli.a_verbose := true; Cli.a_build := None |}
  /\ ~ In (Cli.NotPngOrPdf "pdf")
         (Cli.printed
            (Cli.run {| Cli.a_input := "in.bed"; Cli.a_prefix := "out";
                        Cli.a_oformat := "pdf"; Cli.a_force := false;
                        Cli.a_verbose := true; Cli.a_build := None |}
               "<svg>" "</g>" example_world)).
Proof.
  assert (H1 : Cli.parse_arguments "in.bed" "out" (Some "pdf") false true
               = Some {| Cli.a_input := "in.bed"; Cli.a_prefix := "out";
                         Cli.a_oformat := "pdf"; Cli.a_force := false;
                         Cli.a_verbose := true; Cli.a_build := None |})
    by reflexivity.
  exact (conj H1 (format_warning_is_unreachable "in.bed" "out" (Some "pdf")
                    false true _ "<svg>" "</g>" example_world "pdf" H1)).
Defined.
